(** * Financial profile app: projection arithmetic and AI context assembly

    Shallow embedding of
    - [lib/utils/calculations.ts]  (calculateFutureValue, calculatePortfolioTotals),
    - [lib/utils.ts]               (calculateFutureValue, calculateGrowthRate),
    - [lib/ai/context.ts]          (ContextBuilder),
    - [app/api/ai/chat/route.ts]   (POST),
    - [app/components/ui/AssetCard.tsx] and [app/dashboard/page.tsx]
      (handleSave, handleKeyPress, handleAssetUpdate),
    - [lib/utils/api-response.ts], [lib/validations/asset.ts], [lib/openai.ts]
      and the client, asset and chat routes of [app/api],
    - [lib/ai/portfolio.ts] and [app/api/ai/analyze/route.ts],
    and of the row-level-security policy of the [clients] table and the SQL
    function [calculate_monthly_cash_flow].

    Numbers.  A JavaScript [number] is modelled by [JsNumber.number]: a real
    number, or one of the three special values +Infinity, -Infinity and NaN.
    The arithmetic on finite values is exact real arithmetic: binary64
    rounding, overflow and the sign of zero are not modelled.  The special
    values follow ECMAScript (division by zero, the case table of
    [Math.pow], comparisons with NaN).  What is proved over this model
    names the formula a function evaluates, or bounds its result with
    room for rounding; where the digits matter, the code is evaluated
    over binary64 itself ([Binary64], on the primitive floats).

    Objects used as dictionaries are modelled by their own properties on
    top of the properties inherited from [Object.prototype].  The context
    builder takes the clock and the parsing of date strings as parameters;
    [EsDate] gives them for date-only strings, parsed as UTC and read in
    local time as ECMAScript does.  The language model and the UUID
    generator are parameters as well; what a request does to the outside
    world is recorded as a list of events. *)

From Stdlib Require Import Reals Lra Lia ZArith NArith List String Ascii Bool Floats
  Permutation.
Import ListNotations.

Local Open Scope R_scope.

(* ===================================================================== *)
(** ** JavaScript numbers *)
(* ===================================================================== *)

Module JsNumber.

Inductive number : Type :=
| Fin (r : R)
| PosInf
| NegInf
| NaN.

(** Sign of a real, as a three-way comparison with zero. *)
Definition Rsign (r : R) : comparison :=
  match total_order_T r 0 with
  | inleft (left _) => Lt
  | inleft (right _) => Eq
  | inright _ => Gt
  end.

Definition Rltb (a b : R) : bool := if Rlt_dec a b then true else false.
Definition Reqb (a b : R) : bool := if Req_dec_T a b then true else false.

(** [a + b] *)
Definition nadd (a b : number) : number :=
  match a, b with
  | NaN, _ | _, NaN => NaN
  | Fin x, Fin y => Fin (x + y)
  | PosInf, NegInf | NegInf, PosInf => NaN
  | PosInf, _ | _, PosInf => PosInf
  | NegInf, _ | _, NegInf => NegInf
  end.

(** [- a] *)
Definition nneg (a : number) : number :=
  match a with
  | Fin x => Fin (- x)
  | PosInf => NegInf
  | NegInf => PosInf
  | NaN => NaN
  end.

(** [a - b] *)
Definition nsub (a b : number) : number := nadd a (nneg b).

(** An infinity of the sign given by [c]; NaN for a zero factor. *)
Definition inf_of_sign (c : comparison) : number :=
  match c with
  | Gt => PosInf
  | Lt => NegInf
  | Eq => NaN
  end.

Definition nsign (a : number) : option comparison :=
  match a with
  | Fin x => Some (Rsign x)
  | PosInf => Some Gt
  | NegInf => Some Lt
  | NaN => None
  end.

Definition sign_mul (c d : comparison) : comparison :=
  match c, d with
  | Eq, _ | _, Eq => Eq
  | Gt, Gt | Lt, Lt => Gt
  | Gt, Lt | Lt, Gt => Lt
  end.

(** [a * b] *)
Definition nmul (a b : number) : number :=
  match a, b with
  | Fin x, Fin y => Fin (x * y)
  | _, _ =>
      match nsign a, nsign b with
      | Some c, Some d => inf_of_sign (sign_mul c d)
      | _, _ => NaN
      end
  end.

(** [a / b]; a zero divisor counts as +0. *)
Definition ndiv (a b : number) : number :=
  match a, b with
  | NaN, _ | _, NaN => NaN
  | Fin x, Fin y =>
      if Reqb y 0 then inf_of_sign (Rsign x) else Fin (x / y)
  | Fin _, (PosInf | NegInf) => Fin 0
  | (PosInf | NegInf), (PosInf | NegInf) => NaN
  | PosInf, Fin y => if Rltb y 0 then NegInf else PosInf
  | NegInf, Fin y => if Rltb y 0 then PosInf else NegInf
  end.

(** [a > b] *)
Definition ngt (a b : number) : bool :=
  match a, b with
  | NaN, _ | _, NaN => false
  | Fin x, Fin y => Rltb y x
  | PosInf, PosInf => false
  | PosInf, _ => true
  | NegInf, _ => false
  | Fin _, NegInf => true
  | Fin _, PosInf => false
  end.

(** [a < b] *)
Definition nlt (a b : number) : bool := ngt b a.

(** ToBoolean on a number: 0 and NaN are falsy. *)
Definition truthy (a : number) : bool :=
  match a with
  | Fin x => negb (Reqb x 0)
  | NaN => false
  | _ => true
  end.

(** [a || b] on numbers. *)
Definition nor (a b : number) : number := if truthy a then a else b.

(** The integer a real is equal to, when it is one. *)
Definition integral (y : R) : option Z :=
  if Req_dec_T y (IZR (Int_part y)) then Some (Int_part y) else None.

Definition odd_integral (y : R) : bool :=
  match integral y with
  | Some k => Z.odd k
  | None => false
  end.

(** [Math.pow(base, exponent)], also written [base ** exponent]: the case
    table of Number::exponentiate, with a real power ([Rpower], or
    [powerRZ] for a negative base and an integer exponent) where
    ECMAScript asks for the value of base^exponent. *)
Definition Math_pow (base exponent : number) : number :=
  match exponent with
  | NaN => NaN
  | Fin y =>
      if Reqb y 0 then Fin 1 else
      match base with
      | NaN => NaN
      | PosInf => if Rltb 0 y then PosInf else Fin 0
      | NegInf =>
          if Rltb 0 y
          then (if odd_integral y then NegInf else PosInf)
          else Fin 0
      | Fin x =>
          match Rsign x with
          | Eq => if Rltb 0 y then Fin 0 else PosInf
          | Gt => Fin (Rpower x y)
          | Lt =>
              match integral y with
              | Some k => Fin (powerRZ x k)
              | None => NaN
              end
          end
      end
  | PosInf =>
      match base with
      | NaN => NaN
      | PosInf | NegInf => PosInf
      | Fin x =>
          match Rsign (Rabs x - 1) with
          | Gt => PosInf
          | Eq => NaN
          | Lt => Fin 0
          end
      end
  | NegInf =>
      match base with
      | NaN => NaN
      | PosInf | NegInf => Fin 0
      | Fin x =>
          match Rsign (Rabs x - 1) with
          | Gt => Fin 0
          | Eq => NaN
          | Lt => PosInf
          end
      end
  end.

End JsNumber.
Export JsNumber.

Declare Scope js_scope.
Delimit Scope js_scope with js.
Infix "+" := nadd : js_scope.
Infix "-" := nsub : js_scope.
Infix "*" := nmul : js_scope.
Infix "/" := ndiv : js_scope.
Infix "**" := Math_pow (at level 30, right associativity) : js_scope.
Infix ">" := ngt : js_scope.
Infix "<" := nlt : js_scope.
Infix "||" := nor : js_scope.
Coercion Fin : R >-> number.

(* ===================================================================== *)
(** ** lib/utils/calculations.ts *)
(* ===================================================================== *)

(** A row of the [assets] table, as the database returns it: decimal and
    integer columns hold finite values. *)
Record Asset : Type := mkAsset {
  asset_type : string;
  current_value : R;
  growth_rate : R;
  projection_years : R
}.

Module Calculations.

(** [growthRate] is an annual percentage. *)
Definition calculateFutureValue (currentValue growthRate years : number) : number :=
  (currentValue * Math_pow (1 + growthRate / 100) years)%js.

Record PortfolioTotals : Type := mkTotals {
  totalCurrentValue : number;
  totalFutureValue : number;
  totalProjectedGrowth : number;
  overallGrowthRate : number
}.

Definition calculatePortfolioTotals (assets : list Asset) : PortfolioTotals :=
  let totalCurrentValue :=
    fold_left (fun (sum : number) asset => (sum + current_value asset)%js)
              assets (Fin 0) in
  let totalFutureValue :=
    fold_left
      (fun (sum : number) asset =>
         (sum + calculateFutureValue (current_value asset)
                                     (growth_rate asset)
                                     (projection_years asset))%js)
      assets (Fin 0) in
  let totalProjectedGrowth := (totalFutureValue - totalCurrentValue)%js in
  {| totalCurrentValue := totalCurrentValue;
     totalFutureValue := totalFutureValue;
     totalProjectedGrowth := totalProjectedGrowth;
     overallGrowthRate :=
       if (totalCurrentValue > 0)%js
       then (((totalFutureValue / totalCurrentValue) ** (1 / 10) - 1) * 100)%js
       else Fin 0 |}.

End Calculations.

(* ===================================================================== *)
(** ** lib/utils.ts *)
(* ===================================================================== *)

Module Utils.

(** [rate] is a fraction. *)
Definition calculateFutureValue (presentValue rate years : number) : number :=
  (presentValue * Math_pow (1 + rate) years)%js.

Definition calculateGrowthRate (currentValue futureValue years : number) : number :=
  (Math_pow (futureValue / currentValue) (1 / years) - 1)%js.

End Utils.

(* ===================================================================== *)
(** ** Database rows and the [clients] policy *)
(* ===================================================================== *)

Module IncomeSource.
(** A row of [income_sources]; [monthly_amount] is a nullable column. *)
Record t : Type := mk {
  monthly_amount : option R;
  is_active : bool
}.
End IncomeSource.

Module Expense.
Record t : Type := mk {
  monthly_amount : option R
}.
End Expense.

Module Goal.
Record t : Type := mk {
  name : string
}.
End Goal.

(** A row of [clients] with the nested rows the Context Builder selects:
    all columns, and all of the client's assets, income_sources, expenses
    and financial_goals. *)
Record ClientRow : Type := mkClientRow {
  id : string;
  advisor_id : option string;
  name : string;
  date_of_birth : option string;
  risk_tolerance : string;
  annual_income : option R;
  assets : option (list Asset);
  income_sources : option (list IncomeSource.t);
  expenses : option (list Expense.t);
  financial_goals : option (list Goal.t)
}.

(** The request-scoped Supabase client: the authenticated principal, if
    any, and the [clients] table it queries. *)
Record Supabase : Type := mkSupabase {
  auth_user : option string;
  clients : list ClientRow
}.

Definition opt_string_eqb (a b : option string) : bool :=
  match a, b with
  | Some x, Some y => String.eqb x y
  | _, _ => false
  end.

(** [CREATE POLICY "Advisors can manage their clients" ON clients
     FOR ALL USING (advisor_id = auth.uid())]: the rows the client sees.
    A NULL on either side makes the comparison fail. *)
Definition rls_visible (supabase : Supabase) : list ClientRow :=
  filter (fun row => opt_string_eqb (advisor_id row) (auth_user supabase))
         (clients supabase).

(** [.single()]: the row when the query yields exactly one, else null. *)
Definition single {A : Type} (rows : list A) : option A :=
  match rows with
  | [row] => Some row
  | _ => None
  end.

(** [supabase.from('clients').select(...).eq('id', clientId).single()] *)
Definition select_client_by_id (supabase : Supabase) (clientId : string)
  : option ClientRow :=
  single (filter (fun row => String.eqb (id row) clientId) (rls_visible supabase)).

(** The SQL function [calculate_monthly_cash_flow(client_uuid)], on the
    rows of one client: SUM skips NULL amounts, COALESCE turns the sum of
    no rows into 0. *)
Module Sql.

Definition sum_amounts (amounts : list (option R)) : R :=
  fold_right (fun a acc => match a with Some x => x + acc | None => acc end)
             0 amounts.

Definition calculate_monthly_cash_flow
  (incomes : list IncomeSource.t) (exps : list Expense.t) : R * R * R :=
  let total_income :=
    sum_amounts
      (map IncomeSource.monthly_amount
           (filter (fun i => Bool.eqb (IncomeSource.is_active i) true) incomes)) in
  let total_expenses := sum_amounts (map Expense.monthly_amount exps) in
  (total_income, total_expenses, total_income - total_expenses).

End Sql.

(* ===================================================================== *)
(** ** lib/ai/context.ts *)
(* ===================================================================== *)

Inductive RiskLevel : Type := low | medium | high.

(** What [getCategoryRiskLevel] returns: one of the three tiers, or the
    value a name of [Object.prototype] stands for. *)
Inductive RiskValue : Type :=
| Tier (tier : RiskLevel)
| InheritedValue (name : string).

Record AssetAllocation : Type := mkAllocation {
  category : string;
  value : number;
  percentage : number;
  risk_level : RiskValue
}.

Record ClientInfo : Type := mkClientInfo {
  client_id : string;
  client_name : string;
  age : option Z;
  client_risk_tolerance : string;
  client_annual_income : option R;
  client_financial_goals : list string
}.

Record Portfolio : Type := mkPortfolio {
  total_assets : number;
  total_liabilities : number;
  net_worth : number;
  asset_allocation : list AssetAllocation;
  monthly_cash_flow : number
}.

Record ClientContext : Type := mkClientContext {
  client : ClientInfo;
  portfolio : Portfolio;
  context_assets : list Asset
}.

(** A thrown [Error] with its message. *)
Inductive Error : Type := mkError (message : string).

(** The outcome of a call that may throw. *)
Inductive result (A : Type) : Type :=
| Ok (a : A)
| Throw (e : Error).
Arguments Ok {A} a.
Arguments Throw {A} e.

(** The local calendar fields of a [Date]: [getFullYear()], [getMonth()]
    (0 to 11) and [getDate()]. *)
Record JsDate : Type := mkDate {
  getFullYear : Z;
  getMonth : Z;
  getDate : Z
}.

(** [v || d] where [v] is a number, null or undefined. *)
Definition or_default (v : option number) (d : number) : number :=
  match v with
  | Some a => (a || d)%js
  | None => d
  end.

(** A string, null or undefined in a boolean position: the empty string
    is falsy. *)
Definition nonempty (s : option string) : option string :=
  match s with
  | Some EmptyString => None
  | other => other
  end.

(** [a || b] on strings. *)
Definition str_or (a : option string) (b : string) : string :=
  match nonempty a with
  | Some s => s
  | None => b
  end.

(** [list || []] *)
Definition or_empty {A : Type} (l : option (list A)) : list A :=
  match l with
  | Some l => l
  | None => []
  end.

(** The property names a plain object inherits from [Object.prototype]
    (the properties of the Object prototype object in ECMAScript, those
    of its Annex B included): reading one of them on an object that has
    no own property of that name yields the inherited function, or
    [Object.prototype] itself for [__proto__]; each of these values is
    truthy. *)
Definition Object_prototype_names : list string :=
  [ "constructor"; "hasOwnProperty"; "isPrototypeOf"; "propertyIsEnumerable";
    "toLocaleString"; "toString"; "valueOf"; "__proto__";
    "__defineGetter__"; "__defineSetter__"; "__lookupGetter__";
    "__lookupSetter__" ]%string.

Definition inherited (key : string) : bool :=
  existsb (String.eqb key) Object_prototype_names.

(** The value of a decimal digit. *)
Definition digit (c : ascii) : option N :=
  let n := N_of_ascii c in
  if ((48 <=? n) && (n <=? 57))%N then Some (n - 48)%N else None.

Fixpoint decimal (s : string) (acc : N) : option N :=
  match s with
  | EmptyString => Some acc
  | String c rest =>
      match digit c with
      | Some d => decimal rest (acc * 10 + d)%N
      | None => None
      end
  end.

(** The array index a property key denotes, when it is one: the canonical
    decimal numeral of an integer below 2^32 - 1. *)
Definition array_index (key : string) : option N :=
  match key with
  | EmptyString => None
  | String "0" EmptyString => Some 0%N
  | String "0" _ => None
  | _ =>
      match decimal key 0 with
      | Some n => if (n <? 4294967295)%N then Some n else None
      | None => None
      end
  end.

(** A plain object used as a dictionary: its own properties in creation
    order, on top of what it inherits from [Object.prototype]. *)
Module Obj.

Section Dictionary.

Context {B : Type}.

(** The own property [key], if there is one. *)
Fixpoint get (acc : list (string * B)) (key : string) : option B :=
  match acc with
  | [] => None
  | (k, b) :: rest => if String.eqb k key then Some b else get rest key
  end.

Fixpoint set (acc : list (string * B)) (key : string) (b : B)
  : list (string * B) :=
  match acc with
  | [] => [(key, b)]
  | (k, b0) :: rest =>
      if String.eqb k key then (k, b) :: rest else (k, b0) :: set rest key b
  end.

(** What [acc[key]] evaluates to. *)
Inductive property : Type :=
| Own (b : B)
| Inherited
| Undefined.

Definition lookup (acc : list (string * B)) (key : string) : property :=
  match get acc key with
  | Some b => Own b
  | None => if inherited key then Inherited else Undefined
  end.

(** [Object.entries(acc)]: the own properties, those whose key is an array
    index first, in ascending order of the index, then the others in
    creation order. *)
Fixpoint insert_indexed (n : N) (kv : string * B)
    (l : list (N * (string * B))) : list (N * (string * B)) :=
  match l with
  | [] => [(n, kv)]
  | (m, kv') :: rest =>
      if (n <=? m)%N then (n, kv) :: l else (m, kv') :: insert_indexed n kv rest
  end.

Fixpoint indexed (acc : list (string * B)) : list (N * (string * B)) :=
  match acc with
  | [] => []
  | kv :: rest =>
      match array_index (fst kv) with
      | Some n => insert_indexed n kv (indexed rest)
      | None => indexed rest
      end
  end.

Definition named (acc : list (string * B)) : list (string * B) :=
  filter (fun kv => match array_index (fst kv) with
                    | Some _ => false
                    | None => true
                    end) acc.

Definition entries (acc : list (string * B)) : list (string * B) :=
  map snd (indexed acc) ++ named acc.

End Dictionary.

Arguments property : clear implicits.

(** The bucket of a category: [{ value, count }]. *)
Record bucket_of (V : Type) : Type := mkBucket {
  value : V;
  count : nat
}.
Arguments mkBucket {V}.
Arguments value {V}.
Arguments count {V}.

Definition bucket : Type := bucket_of number.

Definition t : Type := list (string * bucket).

End Obj.

Module ContextBuilder.

Section WithEnvironment.

(** [new Date()]: the local calendar fields of the current time. *)
Variable now : JsDate.
(** [new Date(birthDate)]: the local calendar fields of the parsed string
    ([EsDate.newDate] computes them for a date-only string). *)
Variable newDate : string -> JsDate.

Definition riskMap : list (string * RiskLevel) :=
  [ ("residence"%string, medium);
    ("rrsp"%string, medium);
    ("tfsa"%string, medium);
    ("savings"%string, low);
    ("investment"%string, high) ].

Fixpoint lookup (table : list (string * RiskLevel)) (key : string)
  : option RiskLevel :=
  match table with
  | [] => None
  | (k, v) :: rest => if String.eqb k key then Some v else lookup rest key
  end.

(** [riskMap[category] || 'medium'].  Every tier is a non-empty string,
    so a hit in the table is never replaced; a name inherited from
    [Object.prototype] yields the inherited value, which is truthy and so
    is not replaced either. *)
Definition getCategoryRiskLevel (category : string) : RiskValue :=
  match lookup riskMap category with
  | Some tier => Tier tier
  | None => if inherited category then InheritedValue category else Tier medium
  end.

Definition calculateAge (birthDate : string) : Z :=
  let today := now in
  let birth := newDate birthDate in
  let age := (getFullYear today - getFullYear birth)%Z in
  let monthDiff := (getMonth today - getMonth birth)%Z in
  if ((monthDiff <? 0) || ((monthDiff =? 0) && (getDate today <? getDate birth)))%Z%bool
  then (age - 1)%Z
  else age.

(** The callback of the grouping [reduce].  For a category that names an
    inherited property, [acc[category]] is the inherited value: no bucket
    is created, the two additions are made on that value, and [acc] keeps
    its own properties. *)
Definition allocation_step (acc : Obj.t) (asset : Asset) : Obj.t :=
  let category := asset_type asset in
  let acc :=
    match Obj.lookup acc category with
    | Obj.Undefined => Obj.set acc category (Obj.mkBucket (Fin 0) 0)
    | _ => acc
    end in
  match Obj.lookup acc category with
  | Obj.Own data =>
      Obj.set acc category
        (Obj.mkBucket (Obj.value data + current_value asset)%js
                      (Obj.count data + 1))
  | _ => acc
  end.

Definition calculateAssetAllocation (assets : list Asset) : list AssetAllocation :=
  let totalValue :=
    fold_left (fun (sum : number) asset => (sum + current_value asset)%js)
              assets (Fin 0) in
  let allocation := fold_left allocation_step assets [] in
  map (fun '(category, data) =>
         {| category := category;
            value := Obj.value data;
            percentage :=
              if (totalValue > 0)%js
              then (Obj.value data / totalValue * 100)%js
              else Fin 0;
            risk_level := getCategoryRiskLevel category |})
      (Obj.entries allocation).

Definition opt_Fin (v : option R) : option number := option_map Fin v.

Definition buildClientContext (clientId : string) (supabase : Supabase)
  : result ClientContext :=
  match select_client_by_id supabase clientId with
  | None => Throw (mkError "Client not found")
  | Some client =>
      let portfolioTotals :=
        Calculations.calculatePortfolioTotals (or_empty (assets client)) in
      let assetAllocation := calculateAssetAllocation (or_empty (assets client)) in
      let monthlyIncome :=
        or_default
          (option_map
             (fun l =>
                fold_left
                  (fun (sum : number) income =>
                     (sum + or_default (opt_Fin (IncomeSource.monthly_amount income)) 0)%js)
                  l (Fin 0))
             (income_sources client))
          0 in
      let monthlyExpenses :=
        or_default
          (option_map
             (fun l =>
                fold_left
                  (fun (sum : number) expense =>
                     (sum + or_default (opt_Fin (Expense.monthly_amount expense)) 0)%js)
                  l (Fin 0))
             (expenses client))
          0 in
      Ok {| client :=
              {| client_id := id client;
                 client_name := name client;
                 age := option_map calculateAge (nonempty (date_of_birth client));
                 client_risk_tolerance := risk_tolerance client;
                 client_annual_income := annual_income client;
                 client_financial_goals :=
                   or_empty (option_map (map Goal.name) (financial_goals client)) |};
            portfolio :=
              {| total_assets := Calculations.totalCurrentValue portfolioTotals;
                 total_liabilities := Fin 0;
                 net_worth := Calculations.totalCurrentValue portfolioTotals;
                 asset_allocation := assetAllocation;
                 monthly_cash_flow := (monthlyIncome - monthlyExpenses)%js |};
            context_assets := or_empty (assets client) |}
  end.

End WithEnvironment.

End ContextBuilder.

(* ===================================================================== *)
(** ** The allocation classifier over binary64 *)
(* ===================================================================== *)

(** [calculateAssetAllocation] once more, over IEEE 754 binary64 (the
    primitive floats), the arithmetic a JavaScript engine runs it on.  The
    classifier only adds, divides, multiplies and compares, all of which
    binary64 fixes bit for bit.  [Math.pow] is fixed by ECMAScript in the
    cases of its table and left to the engine otherwise, so the
    compounding functions take the engine's part as a parameter. *)
Module Binary64.

Record Asset : Type := mkAsset {
  asset_type : string;
  current_value : float
}.

Record AssetAllocation : Type := mkAllocation {
  category : string;
  value : float;
  percentage : float;
  risk_level : RiskValue
}.

Definition allocation_step (acc : list (string * Obj.bucket_of float))
    (asset : Asset) : list (string * Obj.bucket_of float) :=
  let category := asset_type asset in
  let acc :=
    match Obj.lookup acc category with
    | Obj.Undefined => Obj.set acc category (Obj.mkBucket 0%float 0)
    | _ => acc
    end in
  match Obj.lookup acc category with
  | Obj.Own data =>
      Obj.set acc category
        (Obj.mkBucket (Obj.value data + current_value asset)%float
                      (Obj.count data + 1))
  | _ => acc
  end.

(** The [totalValue] of the classifier. *)
Definition totalValue (assets : list Asset) : float :=
  fold_left (fun (sum : float) asset => (sum + current_value asset)%float)
            assets 0%float.

Definition calculateAssetAllocation (assets : list Asset) : list AssetAllocation :=
  let totalValue := totalValue assets in
  let allocation := fold_left allocation_step assets [] in
  map (fun '(category, data) =>
         {| category := category;
            value := Obj.value data;
            percentage :=
              if (0 <? totalValue)%float
              then (Obj.value data / totalValue * 100)%float
              else 0%float;
            risk_level := ContextBuilder.getCategoryRiskLevel category |})
      (Obj.entries allocation).

(** The sum of a list of numbers, added from left to right. *)
Definition sum (l : list float) : float := fold_left PrimFloat.add l 0%float.

(** Whether a number is an integer, and whether it is an odd one, read
    off its mantissa and exponent. *)
Definition integral (x : float) : bool :=
  match Prim2SF x with
  | S754_zero _ => true
  | S754_finite _ m e =>
      if (0 <=? e)%Z then true
      else (Z.land (Zpos m) (Z.ones (- e)) =? 0)%Z
  | _ => false
  end.

Definition odd_integral (x : float) : bool :=
  match Prim2SF x with
  | S754_finite _ m e =>
      if (0 <? e)%Z then false
      else ((Z.land (Zpos m) (Z.ones (- e)) =? 0)%Z
            && Z.odd (Z.shiftr (Zpos m) (- e)))%bool
  | _ => false
  end.

Section WithEngine.

(** What the engine returns where ECMAScript asks for "an
    implementation-approximated value" of base^exponent: both operands
    finite and not zero. *)
Variable approximate_pow : float -> float -> float.

(** [Math.pow(base, exponent)]: the case table of Number::exponentiate. *)
Definition Math_pow (base exponent : float) : float :=
  match classify exponent with
  | FloatClass.NaN => nan
  | PZero | NZero => 1%float
  | PInf =>
      match classify base with
      | FloatClass.NaN => nan
      | PInf | NInf => infinity
      | PZero | NZero => 0%float
      | _ =>
          if (1 <? abs base)%float then infinity
          else if (abs base =? 1)%float then nan
          else 0%float
      end
  | NInf =>
      match classify base with
      | FloatClass.NaN => nan
      | PInf | NInf => 0%float
      | PZero | NZero => infinity
      | _ =>
          if (1 <? abs base)%float then 0%float
          else if (abs base =? 1)%float then nan
          else infinity
      end
  | _ =>
      match classify base with
      | FloatClass.NaN => nan
      | PInf => if (0 <? exponent)%float then infinity else 0%float
      | NInf =>
          if (0 <? exponent)%float
          then (if odd_integral exponent then neg_infinity else infinity)
          else (if odd_integral exponent then neg_zero else 0%float)
      | PZero => if (0 <? exponent)%float then 0%float else infinity
      | NZero =>
          if (0 <? exponent)%float
          then (if odd_integral exponent then neg_zero else 0%float)
          else (if odd_integral exponent then neg_infinity else infinity)
      | _ =>
          if ((base <? 0)%float && negb (integral exponent))%bool then nan
          else approximate_pow base exponent
      end
  end.

(** The pair of lib/utils.ts over binary64. *)
Definition calculateFutureValue (presentValue rate years : float) : float :=
  (presentValue * Math_pow (1 + rate) years)%float.

Definition calculateGrowthRate (currentValue futureValue years : float) : float :=
  (Math_pow (futureValue / currentValue) (1 / years) - 1)%float.

End WithEngine.

End Binary64.

(* ===================================================================== *)
(** ** Date objects *)
(* ===================================================================== *)

(** The part of ECMAScript's [Date] that [calculateAge] relies on.  A time
    value is a number of milliseconds since 1 January 1970 UTC.  A
    date-only string [YYYY-MM-DD] is parsed as midnight UTC of that day,
    and [getFullYear], [getMonth] and [getDate] read a time value in the
    local time zone. *)
Module EsDate.

Local Open Scope Z_scope.

Definition msPerDay : Z := 86400000.
Definition msPerHour : Z := 3600000.
Definition msPerMinute : Z := 60000.

(** The number of days from 1 January 1970 to a day of the proleptic
    Gregorian calendar, the month counted from 1.  The year is taken to
    begin in March, so that the leap day comes last. *)
Definition days_from_civil (year month day : Z) : Z :=
  let y := if month <=? 2 then year - 1 else year in
  let era := y / 400 in
  let yoe := y - era * 400 in
  let mp := (month + 9) mod 12 in
  let doy := (153 * mp + 2) / 5 + day - 1 in
  let doe := yoe * 365 + yoe / 4 - yoe / 100 + doy in
  era * 146097 + doe - 719468.

(** The calendar day (year, month from 1, day) that lies the given number
    of days after 1 January 1970. *)
Definition civil_from_days (days : Z) : Z * Z * Z :=
  let z := days + 719468 in
  let era := z / 146097 in
  let doe := z - era * 146097 in
  let yoe := (doe - doe / 1460 + doe / 36524 - doe / 146096) / 365 in
  let doy := doe - (365 * yoe + yoe / 4 - yoe / 100) in
  let mp := (5 * doy + 2) / 153 in
  let day := doy - (153 * mp + 2) / 5 + 1 in
  let month := if mp <? 10 then mp + 3 else mp - 9 in
  let year := yoe + era * 400 in
  (if month <=? 2 then year + 1 else year, month, day).

Definition leap_year (year : Z) : bool :=
  (year mod 4 =? 0) && (negb (year mod 100 =? 0) || (year mod 400 =? 0)).

Definition days_in_month (year month : Z) : Z :=
  if month =? 2 then (if leap_year year then 29 else 28)
  else if (month =? 4) || (month =? 6) || (month =? 9) || (month =? 11)
       then 30 else 31.

(** The time value of a time of day, UTC. *)
Definition UTC (year month day hour minute : Z) : Z :=
  days_from_civil year month day * msPerDay
  + hour * msPerHour + minute * msPerMinute.

(** [Date.parse] on a date-only string [YYYY-MM-DD] that names a day of
    the calendar: midnight UTC of that day.  Strings of any other form are
    left out. *)
Definition parse (s : string) : option Z :=
  if (String.length s =? 10)%nat then
    match decimal (substring 0 4 s) 0, String.get 4 s,
          decimal (substring 5 2 s) 0, String.get 7 s,
          decimal (substring 8 2 s) 0 with
    | Some y, Some "-"%char, Some m, Some "-"%char, Some d =>
        let year := Z.of_N y in
        let month := Z.of_N m in
        let day := Z.of_N d in
        if (1 <=? month) && (month <=? 12)
           && (1 <=? day) && (day <=? days_in_month year month)
        then Some (UTC year month day 0 0)
        else None
    | _, _, _, _, _ => None
    end
  else None.

(** The local calendar fields of a time value, in a zone that is
    [tza t] milliseconds ahead of UTC at the time [t]. *)
Definition local_fields (tza : Z -> Z) (t : Z) : JsDate :=
  let '(year, month, day) := civil_from_days ((t + tza t) / msPerDay) in
  {| getFullYear := year; getMonth := month - 1; getDate := day |}.

(** [new Date(s)] as the getters show it. *)
Definition newDate (tza : Z -> Z) (s : string) : option JsDate :=
  option_map (local_fields tza) (parse s).

(** Eastern Standard Time, five hours behind UTC. *)
Definition eastern_standard_time : Z -> Z := fun _ => -5 * msPerHour.

End EsDate.

(* ===================================================================== *)
(** ** app/api/ai/chat/route.ts *)
(* ===================================================================== *)

Inductive ChatMessage : Type :=
| SystemMessage (content : string)
(** the user message: the serialized context followed by the question *)
| UserMessage (context : ClientContext) (question : string).

Record ChatEntry : Type := mkChatEntry {
  entry_client_id : string;
  entry_user_id : string;
  entry_session_id : string;
  message_type : string;
  message_content : string;
  context_data : ClientContext
}.

(** What a request does to the outside world, in order. *)
Inductive Event : Type :=
| OpenAICompletion (messages : list ChatMessage)
| ChatHistoryInsert (rows : list ChatEntry)
| ConsoleError (label : string).

(** A computation that logs events and may throw. *)
Definition Eff (A : Type) : Type := (list Event * result A)%type.

Definition ret {A : Type} (a : A) : Eff A := ([], Ok a).
Definition throw {A : Type} (e : Error) : Eff A := ([], Throw e).
Definition emit (ev : Event) : Eff unit := ([ev], Ok tt).
Definition lift {A : Type} (r : result A) : Eff A := ([], r).

Definition bind {A B : Type} (m : Eff A) (k : A -> Eff B) : Eff B :=
  match m with
  | (t, Ok a) => let '(t', r) := k a in (t ++ t', r)
  | (t, Throw e) => (t, Throw e)
  end.

Definition try_catch {A : Type} (m : Eff A) (handler : Error -> Eff A) : Eff A :=
  match m with
  | (t, Ok a) => (t, Ok a)
  | (t, Throw e) => let '(t', r) := handler e in (t ++ t', r)
  end.

Notation "x <- m ;; k" := (bind m (fun x => k))
  (at level 61, m at next level, right associativity).
Notation "m ;;; k" := (bind m (fun _ => k))
  (at level 61, right associativity).

Record ChatData : Type := mkChatData {
  response : string;
  session_id : string
}.

(** [NextResponse.json({ success, data, message }, { status })] *)
Record Response : Type := mkResponse {
  status : nat;
  success : bool;
  data : option ChatData;
  response_message : option string
}.

Definition successResponse (d : ChatData) : Response :=
  {| status := 200; success := true; data := Some d; response_message := None |}.

Definition errorResponse (msg : string) (st : nat) : Response :=
  {| status := st; success := false; data := None; response_message := Some msg |}.

Definition unauthorizedResponse : Response := errorResponse "Unauthorized" 401.

(** The JSON body of a chat request; absent fields are undefined. *)
Record ChatBody : Type := mkChatBody {
  body_message : option string;
  body_clientId : option string;
  body_sessionId : option string
}.

Module ChatRoute.

Section WithServices.

Variable now : JsDate.
Variable newDate : string -> JsDate.
(** [openai.chat.completions.create]: the content of the first choice, or
    nothing when the API call fails. *)
Variable openai : list ChatMessage -> option (option string).
(** [crypto.randomUUID()] *)
Variable randomUUID : string.
(** [PromptTemplates.FINANCIAL_ADVISOR_SYSTEM] *)
Variable FINANCIAL_ADVISOR_SYSTEM : string.

(** [aiClient.generateResponse(messages)] *)
Definition generateResponse (messages : list ChatMessage) : Eff string :=
  try_catch
    (emit (OpenAICompletion messages) ;;;
     match openai messages with
     | Some content => ret (str_or content "")
     | None => throw (mkError "OpenAI request failed")
     end)
    (fun _ =>
       emit (ConsoleError "OpenAI API error:") ;;;
       throw (mkError "Failed to generate AI response")).

(** [request] is the outcome of [request.json()]. *)
Definition POST (supabase : Supabase) (request : result ChatBody) : Eff Response :=
  try_catch
    (match auth_user supabase with
     | None => ret unauthorizedResponse
     | Some user =>
         body <- lift request ;;
         match nonempty (body_message body), nonempty (body_clientId body) with
         | Some message, Some clientId =>
             context <- lift (ContextBuilder.buildClientContext now newDate clientId supabase) ;;
             let messages :=
               [ SystemMessage FINANCIAL_ADVISOR_SYSTEM;
                 UserMessage context message ] in
             aiResponse <- generateResponse messages ;;
             let chatEntry :=
               {| entry_client_id := clientId;
                  entry_user_id := user;
                  entry_session_id := str_or (body_sessionId body) randomUUID;
                  message_type := "user";
                  message_content := message;
                  context_data := context |} in
             emit (ChatHistoryInsert
                     [ chatEntry;
                       {| entry_client_id := entry_client_id chatEntry;
                          entry_user_id := entry_user_id chatEntry;
                          entry_session_id := entry_session_id chatEntry;
                          message_type := "assistant";
                          message_content := aiResponse;
                          context_data := context_data chatEntry |} ]) ;;;
             ret (successResponse
                    {| response := aiResponse;
                       session_id := entry_session_id chatEntry |})
         | _, _ => ret (errorResponse "Message and client ID are required" 400)
         end
     end)
    (fun _ =>
       emit (ConsoleError "AI chat error:") ;;;
       ret (errorResponse "Failed to process AI request" 500)).

End WithServices.

End ChatRoute.

Definition is_openai_call (ev : Event) : bool :=
  match ev with
  | OpenAICompletion _ => true
  | _ => false
  end.

(* ===================================================================== *)
(** ** app/components/ui/AssetCard.tsx and app/dashboard/page.tsx *)
(* ===================================================================== *)

Module Dashboard.

(** The asset a card shows; [growthRate] is a fraction. *)
Record CardAsset : Type := mkCardAsset {
  id : string;
  name : string;
  type : string;
  currentValue : number;
  futureValue : number;
  growthRate : number;
  projectionYears : number
}.

(** The partial asset passed to [onUpdate]: the fields it carries. *)
Module Updates.
Record t : Type := mk {
  currentValue : option number;
  futureValue : option number;
  growthRate : option number;
  projectionYears : option number
}.
End Updates.

Definition override (old : number) (new : option number) : number :=
  match new with
  | Some v => v
  | None => old
  end.

(** The object spread of an asset followed by its updates. *)
Definition spread (asset : CardAsset) (updates : Updates.t) : CardAsset :=
  {| id := id asset;
     name := name asset;
     type := type asset;
     currentValue := override (currentValue asset) (Updates.currentValue updates);
     futureValue := override (futureValue asset) (Updates.futureValue updates);
     growthRate := override (growthRate asset) (Updates.growthRate updates);
     projectionYears :=
       override (projectionYears asset) (Updates.projectionYears updates) |}.

(** The editing state of a card. *)
Record CardState : Type := mkCardState {
  isEditing : option string;
  tempValue : string
}.

Definition isNaN (a : number) : bool :=
  match a with
  | NaN => true
  | _ => false
  end.

Section AssetCard.

Variable parseFloat : string -> number.
(** [Number.prototype.toString] *)
Variable toString : number -> string.

Definition handleEdit (st : CardState) (field : string) (current : number)
  : CardState :=
  {| isEditing := Some field; tempValue := toString current |}.

(** The call to [onUpdate], if any, and the state after [handleSave]. *)
Definition handleSave (asset : CardAsset) (st : CardState) (field : string)
  : option (string * Updates.t) * CardState :=
  let numValue := parseFloat (tempValue st) in
  let call :=
    if negb (isNaN numValue) then
      if String.eqb field "currentValue" then
        let newFutureValue :=
          Utils.calculateFutureValue numValue (growthRate asset) (projectionYears asset) in
        Some (id asset,
              Updates.mk (Some numValue) (Some newFutureValue) None None)
      else if String.eqb field "growthRate" then
        let rate := (numValue / 100)%js in
        let newFutureValue :=
          Utils.calculateFutureValue (currentValue asset) rate (projectionYears asset) in
        Some (id asset,
              Updates.mk None (Some newFutureValue) (Some rate) None)
      else if String.eqb field "projectionYears" then
        let newFutureValue :=
          Utils.calculateFutureValue (currentValue asset) (growthRate asset) numValue in
        Some (id asset,
              Updates.mk None (Some newFutureValue) None (Some numValue))
      else None
    else None in
  (call, {| isEditing := None; tempValue := tempValue st |}).

Definition handleKeyPress (asset : CardAsset) (st : CardState) (key field : string)
  : option (string * Updates.t) * CardState :=
  if String.eqb key "Enter" then handleSave asset st field
  else if String.eqb key "Escape"
       then (None, {| isEditing := None; tempValue := tempValue st |})
       else (None, st).

End AssetCard.

(** The page's [handleAssetUpdate], as the new list of assets. *)
Definition handleAssetUpdate (assets : list CardAsset) (assetId : string)
    (updates : Updates.t) : list CardAsset :=
  map (fun asset => if String.eqb (id asset) assetId then spread asset updates else asset)
      assets.

(** A card whose future value is the compounding of its other fields. *)
Definition consistent (asset : CardAsset) : Prop :=
  futureValue asset
  = Utils.calculateFutureValue
      (currentValue asset) (growthRate asset) (projectionYears asset).

End Dashboard.

(* ===================================================================== *)
(** ** JSON values *)
(* ===================================================================== *)

(** A value read from JSON.  A number is finite, or an infinity when the
    numeral lies beyond the binary64 range.  The members of an object are
    its properties, each key once. *)
#[local] Unset Elimination Schemes.
Inductive Json : Type :=
| JNull
| JBool (b : bool)
| JNumber (x : number)
| JString (s : string)
| JArray (items : list Json)
| JObject (members : list (string * Json)).
#[local] Set Elimination Schemes.

(** [object[key]] on the members of an object; [None] is undefined. *)
Fixpoint member (members : list (string * Json)) (key : string) : option Json :=
  match members with
  | [] => None
  | (k, v) :: rest => if String.eqb k key then Some v else member rest key
  end.

Definition Rleb (a b : R) : bool := negb (Rltb b a).

(** The UTF-16 code units that the code point starting at a byte of a
    UTF-8 text takes: two for a code point of four bytes, one for any
    other, none for a continuation byte. *)
Definition utf16_units (c : ascii) : nat :=
  let n := nat_of_ascii c in
  if (n <? 128)%nat then 1%nat
  else if (n <? 192)%nat then 0%nat
  else if (n <? 240)%nat then 1%nat
  else 2%nat.

(** [s.length]: the number of UTF-16 code units of the text that the
    string holds in UTF-8. *)
Fixpoint js_length (s : string) : nat :=
  match s with
  | EmptyString => 0%nat
  | String c rest => (utf16_units c + js_length rest)%nat
  end.

(* ===================================================================== *)
(** ** lib/utils/api-response.ts, lib/validations/asset.ts and the routes
       of app/api *)
(* ===================================================================== *)

Module Api.

(** The body and status of a [NextResponse.json]. *)
Record ApiResponse (T : Type) : Type := mkApiResponse {
  status : nat;
  success : bool;
  data : option T;
  message : option string;
  errors : option (list string)
}.
Arguments mkApiResponse {T}.
Arguments status {T}.
Arguments success {T}.
Arguments data {T}.
Arguments message {T}.
Arguments errors {T}.

Definition successResponse {T : Type} (d : option T) (msg : option string)
  : ApiResponse T :=
  {| status := 200; success := true; data := d; message := msg; errors := None |}.

Definition errorResponse {T : Type} (msg : string) (st : nat)
    (errs : option (list string)) : ApiResponse T :=
  {| status := st; success := false; data := None; message := Some msg;
     errors := errs |}.

Definition unauthorizedResponse {T : Type} : ApiResponse T :=
  errorResponse "Unauthorized" 401 None.

Definition notFoundResponse {T : Type} (resource : option string) : ApiResponse T :=
  errorResponse
    (match nonempty resource with
     | Some r => r ++ " not found"
     | None => "Resource not found"
     end)%string
    404 None.

Definition validationErrorResponse {T : Type} (errs : list string) : ApiResponse T :=
  errorResponse "Validation failed" 422 (Some errs).

(** [.eq('id', id).eq('advisor_id', user.id).single()] on the rows a query
    of [clients] is given. *)
Definition owned_client (rows : list ClientRow) (clientId user : string)
  : option ClientRow :=
  single
    (filter (fun row => opt_string_eqb (advisor_id row) (Some user))
       (filter (fun row => String.eqb (id row) clientId) rows)).

(** GET /api/clients/[id] *)
Definition clientGET (supabase : Supabase) (paramsId : string) : ApiResponse ClientRow :=
  match auth_user supabase with
  | None => unauthorizedResponse
  | Some user =>
      match owned_client (rls_visible supabase) paramsId user with
      | None => notFoundResponse (Some "Client"%string)
      | Some data => successResponse (Some data) None
      end
  end.

(** DELETE /api/clients/[id]: the response and the table afterwards.
    [db_fails] tells whether the delete statement reports an error. *)
Definition clientDELETE (db_fails : bool) (supabase : Supabase) (paramsId : string)
  : ApiResponse unit * list ClientRow :=
  match auth_user supabase with
  | None => (unauthorizedResponse, clients supabase)
  | Some user =>
      if db_fails
      then (errorResponse "Failed to delete client" 500 None, clients supabase)
      else (successResponse None (Some "Client deleted successfully"%string),
            filter (fun row =>
                      negb (opt_string_eqb (advisor_id row) (auth_user supabase)
                            && String.eqb (id row) paramsId
                            && opt_string_eqb (advisor_id row) (Some user)))
                   (clients supabase))
  end.

(** *** lib/validations/asset.ts *)

Definition asset_types : list string :=
  [ "residence"; "rrsp"; "tfsa"; "investment"; "savings" ]%string.

(** The output of [assetSchema]. *)
Record AssetData : Type := mkAssetData {
  asset_type : string;
  name : string;
  current_value : number;
  purchase_price : option number;
  growth_rate : number;
  projection_years : number
}.

(** [z.number()] accepts every number but NaN. *)
Definition z_number (x : number) : bool :=
  match x with
  | NaN => false
  | _ => true
  end.

(** [z.number().positive().optional()]: nothing for an absent key. *)
Definition optional_positive (v : option Json) : option (option number) :=
  match v with
  | None => Some None
  | Some (JNumber x) => if z_number x && (x > 0)%js then Some (Some x) else None
  | Some _ => None
  end.

(** [z.number().int().min(1).max(50).default(10)]; [int] is
    [Number.isInteger]. *)
Definition years_with_default (v : option Json) : option number :=
  match v with
  | None => Some (Fin 10)
  | Some (JNumber (Fin x)) =>
      match integral x with
      | Some _ => if Rleb 1 x && Rleb x 50 then Some (Fin x) else None
      | None => None
      end
  | Some _ => None
  end.

(** [assetSchema.safeParse(input)]: the data when the input is accepted.
    Keys the schema does not name are dropped. *)
Definition parse_asset (input : Json) : option AssetData :=
  match input with
  | JObject members =>
      match member members "asset_type", member members "name",
            member members "current_value", member members "growth_rate" with
      | Some (JString t), Some (JString n), Some (JNumber cv), Some (JNumber g) =>
          if existsb (String.eqb t) asset_types
             && (1 <=? js_length n)%nat && (js_length n <=? 255)%nat
             && z_number cv && (cv > 0)%js
             && z_number g && negb (g < Fin (-100))%js && negb (g > 100)%js
          then
            match optional_positive (member members "purchase_price"),
                  years_with_default (member members "projection_years") with
            | Some pp, Some y =>
                Some {| asset_type := t; name := n; current_value := cv;
                        purchase_price := pp; growth_rate := g;
                        projection_years := y |}
            | _, _ => None
            end
          else None
      | _, _, _, _ => None
      end
  | _ => None
  end.

Record Validation : Type := mkValidation {
  v_success : bool;
  v_data : option AssetData;
  v_errors : list string
}.

(** The row handed to [insert]: the validated data and the client id. *)
Record AssetInsert : Type := mkAssetInsert {
  insert_data : AssetData;
  insert_client_id : string
}.

Section WithDatabase.

(** The messages of the issues zod reports for a rejected input. *)
Variable zodMessages : Json -> list string.
(** The row the database returns for an insert, or nothing on an error. *)
Variable StoredAsset : Type.
Variable db_insert : AssetInsert -> option StoredAsset.

Definition validateAssetInput (input : Json) : Validation :=
  match parse_asset input with
  | Some d => {| v_success := true; v_data := Some d; v_errors := [] |}
  | None => {| v_success := false; v_data := None; v_errors := zodMessages input |}
  end.

(** POST /api/clients/[id]/assets: the inserts issued and the response.
    [request] is the outcome of [request.json()].  The route file imports
    [successResponse], [errorResponse], [unauthorizedResponse] and
    [notFoundResponse] only: on a rejected body the evaluation of the
    identifier [validationErrorResponse] throws a ReferenceError inside the
    [try] block, and the [catch] block answers it. *)
Definition assetsPOST (supabase : Supabase) (paramsId : string)
    (request : result Json) : list AssetInsert * ApiResponse StoredAsset :=
  match auth_user supabase with
  | None => ([], unauthorizedResponse)
  | Some user =>
      match owned_client (rls_visible supabase) paramsId user with
      | None => ([], notFoundResponse (Some "Client"%string))
      | Some _ =>
          match request with
          | Throw _ => ([], errorResponse "Internal server error" 500 None)
          | Ok body =>
              let validation := validateAssetInput body in
              match v_success validation, v_data validation with
              | true, Some d =>
                  let row := {| insert_data := d; insert_client_id := paramsId |} in
                  match db_insert row with
                  | None => ([row], errorResponse "Failed to create asset" 500 None)
                  | Some stored =>
                      ([row],
                       successResponse (Some stored)
                         (Some "Asset created successfully"%string))
                  end
              | _, _ => ([], errorResponse "Internal server error" 500 None)
              end
          end
      end
  end.

End WithDatabase.

(** *** lib/openai.ts and the chat route built on it *)

Inductive InsightMessage : Type :=
| InsightSystem (content : string)
(** the user message: the serialized client followed by the question *)
| InsightUser (clientContext : ClientRow) (query : string).

Inductive InsightEvent : Type :=
| InsightCompletion (messages : list InsightMessage)
| InsightConsoleError (label : string).

Definition is_completion (ev : InsightEvent) : bool :=
  match ev with
  | InsightCompletion _ => true
  | _ => false
  end.

Definition insight_system_prompt : string :=
  "You are a professional financial advisor AI. Provide specific, actionable advice based on the client's financial profile.".

Section WithOpenAI.

Variable openai : list InsightMessage -> option (option string).

(** [generateFinancialInsight(query, clientContext)]: the events and the
    text, or the error it throws. *)
Definition generateFinancialInsight (query : string) (clientContext : ClientRow)
  : list InsightEvent * result string :=
  let messages :=
    [ InsightSystem insight_system_prompt; InsightUser clientContext query ] in
  match openai messages with
  | Some content =>
      ([InsightCompletion messages], Ok (str_or content "Unable to generate response"))
  | None =>
      ([InsightCompletion messages; InsightConsoleError "OpenAI error:"],
       Throw (mkError "Failed to generate AI response"))
  end.

(** POST /api/ai/chat, the version with [generateFinancialInsight]. *)
Definition insightPOST (supabase : Supabase) (request : result ChatBody)
  : list InsightEvent * ApiResponse string :=
  match auth_user supabase with
  | None => ([], unauthorizedResponse)
  | Some user =>
      match request with
      | Throw _ =>
          ([InsightConsoleError "AI chat error:"],
           errorResponse "Failed to process AI request" 500 None)
      | Ok body =>
          match nonempty (body_message body), nonempty (body_clientId body) with
          | Some message, Some clientId =>
              match owned_client (rls_visible supabase) clientId user with
              | None => ([], errorResponse "Client not found" 404 None)
              | Some client =>
                  match generateFinancialInsight message client with
                  | (events, Ok aiResponse) =>
                      (events, successResponse (Some aiResponse) None)
                  | (events, Throw _) =>
                      (events ++ [InsightConsoleError "AI chat error:"],
                       errorResponse "Failed to process AI request" 500 None)
                  end
              end
          | _, _ => ([], errorResponse "Message and client ID are required" 400 None)
          end
      end
  end.

End WithOpenAI.

End Api.

(* ===================================================================== *)
(** ** lib/ai/portfolio.ts and app/api/ai/analyze/route.ts *)
(* ===================================================================== *)

Module Analyze.

(** The text of a user message: a prompt template filled with a context. *)
Inductive Prompt : Type :=
| PortfolioAnalysisPrompt (context : ClientContext)
| RebalancingPrompt (context : ClientContext).

Inductive Message : Type :=
| System (content : string)
| User (prompt : Prompt).

Inductive Event : Type :=
| StructuredCompletion (messages : list Message)
| ConsoleError (label : string).

Definition is_completion (ev : Event) : bool :=
  match ev with
  | StructuredCompletion _ => true
  | _ => false
  end.

(** The JSON body of an analysis request. *)
Record AnalyzeBody : Type := mkAnalyzeBody {
  body_clientId : option string;
  body_analysisType : option string
}.

(** The data of a successful response; [analysis] may be undefined. *)
Record AnalysisData : Type := mkAnalysisData {
  analysis : option Json;
  context_snapshot : ClientContext
}.

Section WithServices.

Variable now : JsDate.
Variable newDate : string -> JsDate.
(** [openai.chat.completions.create]: the content of the first choice, or
    nothing when the API call fails. *)
Variable openai : list Message -> option (option string).
(** [JSON.parse], nothing for a syntax error. *)
Variable JSON_parse : string -> option Json.
Variable FINANCIAL_ADVISOR_SYSTEM : string.

Definition structured_failure (messages : list Message) : list Event * result Json :=
  ([StructuredCompletion messages; ConsoleError "Structured response error:"],
   Throw (mkError "Failed to generate structured response")).

(** [aiClient.generateStructuredResponse(messages, schema)] *)
Definition generateStructuredResponse (messages : list Message)
  : list Event * result Json :=
  match openai messages with
  | None => structured_failure messages
  | Some content =>
      match nonempty content with
      | None => structured_failure messages
      | Some text =>
          match JSON_parse text with
          | None => structured_failure messages
          | Some parsed => ([StructuredCompletion messages], Ok parsed)
          end
      end
  end.

(** [PortfolioAnalyzer.analyzePortfolio(context)]: reading [insights] off
    null throws, off any other value that is not an object gives
    undefined. *)
Definition analyzePortfolio (context : ClientContext) : list Event * option Json :=
  let messages :=
    [ System FINANCIAL_ADVISOR_SYSTEM; User (PortfolioAnalysisPrompt context) ] in
  match generateStructuredResponse messages with
  | (events, Ok (JObject members)) => (events, member members "insights")
  | (events, Ok JNull) =>
      (events ++ [ConsoleError "Portfolio analysis error:"], Some (JArray []))
  | (events, Ok _) => (events, None)
  | (events, Throw _) =>
      (events ++ [ConsoleError "Portfolio analysis error:"], Some (JArray []))
  end.

(** [PortfolioAnalyzer.suggestRebalancing(context)] *)
Definition suggestRebalancing (context : ClientContext) : list Event * result Json :=
  generateStructuredResponse
    [ System FINANCIAL_ADVISOR_SYSTEM; User (RebalancingPrompt context) ].

Definition analysis_failed : list Event * Api.ApiResponse AnalysisData :=
  ([ConsoleError "Portfolio analysis error:"],
   Api.errorResponse "Failed to analyze portfolio" 500 None).

(** POST /api/ai/analyze; [request] is the outcome of [request.json()]. *)
Definition POST (supabase : Supabase) (request : result AnalyzeBody)
  : list Event * Api.ApiResponse AnalysisData :=
  match auth_user supabase with
  | None => ([], Api.unauthorizedResponse)
  | Some user =>
      match request with
      | Throw _ => analysis_failed
      | Ok body =>
          let analysisType :=
            match body_analysisType body with
            | Some t => t
            | None => "full"%string
            end in
          match nonempty (body_clientId body) with
          | None => ([], Api.errorResponse "Client ID is required" 400 None)
          | Some clientId =>
              match ContextBuilder.buildClientContext now newDate clientId supabase with
              | Throw _ => analysis_failed
              | Ok context =>
                  if String.eqb analysisType "rebalancing" then
                    match suggestRebalancing context with
                    | (events, Ok results) =>
                        (events,
                         Api.successResponse
                           (Some {| analysis := Some results;
                                    context_snapshot := context |}) None)
                    | (events, Throw _) =>
                        (events ++ [ConsoleError "Portfolio analysis error:"],
                         Api.errorResponse "Failed to analyze portfolio" 500 None)
                    end
                  else
                    let '(events, results) := analyzePortfolio context in
                    (events,
                     Api.successResponse
                       (Some {| analysis := results;
                                context_snapshot := context |}) None)
              end
          end
      end
  end.

End WithServices.

End Analyze.

(* ===================================================================== *)
(** ** Sums *)
(* ===================================================================== *)

(** The sum of a list of reals. *)
Definition sumR (l : list R) : R := fold_right Rplus 0 l.

(** The sum of a list of numbers. *)
Definition nsum (l : list number) : number := fold_right nadd (Fin 0) l.

(** The real a finite number holds (0 for the special values). *)
Definition to_R (a : number) : R :=
  match a with
  | Fin x => x
  | _ => 0
  end.

Definition is_finite (a : number) : Prop :=
  match a with
  | Fin _ => True
  | _ => False
  end.

(* ===================================================================== *)
(** ** Vocabulary of the statements and sample data *)
(* ===================================================================== *)

(** The amount a nullable column contributes to a sum. *)
Definition amount_or_zero (m : option R) : R :=
  match m with
  | Some x => x
  | None => 0
  end.

(** Every bucket of the dictionary holds a finite value. *)
Definition finite_buckets (acc : Obj.t) : Prop :=
  Forall (fun kv => is_finite (Obj.value (snd kv))) acc.

(** The value the dictionary holds for a category (0 when absent). *)
Definition held (acc : Obj.t) (k : string) : R :=
  match Obj.get acc k with
  | Some b => to_R (Obj.value b)
  | None => 0
  end.

(** Whether the dictionary has the category as a key. *)
Definition present (acc : Obj.t) (k : string) : bool :=
  match Obj.get acc k with
  | Some _ => true
  | None => false
  end.

(** No key of the dictionary is a name inherited from [Object.prototype]. *)
Definition plain_keys (acc : Obj.t) : Prop :=
  Forall (fun kv => inherited (fst kv) = false) acc.

(** The sum of the current values of the assets of category [k]. *)
Definition group_value (k : string) (assets : list Asset) : R :=
  sumR (map current_value
            (filter (fun a => String.eqb (asset_type a) k) assets)).

(** Calendar order on dates: by year, then month, then day. *)
Definition date_le (a b : JsDate) : Prop :=
  (getFullYear a < getFullYear b
   \/ (getFullYear a = getFullYear b
       /\ (getMonth a < getMonth b
           \/ (getMonth a = getMonth b /\ getDate a <= getDate b))))%Z.

(** The month and day of [birth] lie ahead of [today] in today's year. *)
Definition birthday_not_reached (today birth : JsDate) : Prop :=
  (getMonth today < getMonth birth
   \/ (getMonth today = getMonth birth /\ getDate today < getDate birth))%Z.

(** The request, when its body can be read, asks about [clientId]. *)
Definition asks_about (request : result ChatBody) (clientId : string) : Prop :=
  forall body, request = Ok body -> body_clientId body = Some clientId.

(** No row of the table with this id belongs to the requesting advisor. *)
Definition not_owned (supabase : Supabase) (clientId : string) : Prop :=
  forall row, In row (clients supabase) -> id row = clientId ->
              advisor_id row <> auth_user supabase.

(** One holding of 100 that doubles every year for ten years. *)
Definition doubling_asset : Asset := mkAsset "investment" 100 100 10.

(** Two savings accounts and a retirement plan. *)
Definition sample_assets : list Asset :=
  [ mkAsset "savings" 100 2 5;
    mkAsset "rrsp" 300 7 10;
    mkAsset "savings" 100 1 3 ].

(** A client of advisor-1 whose only income source is no longer active. *)
Definition retired_client : ClientRow :=
  {| id := "client-1";
     advisor_id := Some "advisor-1"%string;
     name := "Jane Smith";
     date_of_birth := None;
     risk_tolerance := "moderate";
     annual_income := None;
     assets := Some sample_assets;
     income_sources := Some [IncomeSource.mk (Some 1000) false];
     expenses := Some [];
     financial_goals := Some [] |}.

(** The table as advisor-1 queries it. *)
Definition advisor1_session : Supabase :=
  {| auth_user := Some "advisor-1"%string; clients := [retired_client] |}.

(** The same table as advisor-2 queries it. *)
Definition advisor2_session : Supabase :=
  {| auth_user := Some "advisor-2"%string; clients := [retired_client] |}.

(** An asset within the ranges the aggregator is meant for: a value that
    is not negative, a growth rate of at least -100 percent and a positive
    horizon (the asset schema accepts a subset of these). *)
Definition projectable (a : Asset) : Prop :=
  0 <= current_value a /\ -100 <= growth_rate a /\ 0 < projection_years a.

(** An asset as the asset schema accepts it and the [assets] table stores
    it: a value that is not negative and at most 10^10 (the column is
    DECIMAL(12,2)), a growth rate between -100 and 100 percent and a
    horizon of 1 to 50 years. *)
Definition within_schema (a : Asset) : Prop :=
  0 <= current_value a <= 10 ^ 10
  /\ -100 <= growth_rate a <= 100
  /\ 1 <= projection_years a <= 50.

(** The factor by which a projectable asset's value is multiplied. *)
Definition growth_factor (a : Asset) : R :=
  if Req_dec_T (growth_rate a) (-100) then 0
  else Rpower (1 + growth_rate a / 100) (projection_years a).

(** The body of a request that creates a savings account, with a client
    id of its own and no horizon. *)
Definition sample_asset_body : Json :=
  JObject [ ("client_id"%string, JString "client-9");
            ("asset_type"%string, JString "savings");
            ("name"%string, JString "Emergency Fund");
            ("current_value"%string, JNumber 25000);
            ("growth_rate"%string, JNumber (5 / 2)) ].

Definition sample_asset_data : Api.AssetData :=
  Api.mkAssetData "savings" "Emergency Fund" 25000 None (5 / 2) 10.

(** The keys [assetSchema] names. *)
Definition asset_schema_keys : list string :=
  [ "asset_type"; "name"; "current_value"; "purchase_price"; "growth_rate";
    "projection_years" ]%string.

(* ===================================================================== *)
(** ** Facts about numbers *)
(* ===================================================================== *)

Lemma Reqb_eq (x y : R) : x = y -> Reqb x y = true.
Proof. intros H. unfold Reqb. destruct (Req_dec_T x y); [reflexivity | contradiction]. Qed.

Lemma Reqb_neq (x y : R) : x <> y -> Reqb x y = false.
Proof. intros H. unfold Reqb. destruct (Req_dec_T x y); [contradiction | reflexivity]. Qed.

Lemma Rltb_lt (x y : R) : x < y -> Rltb x y = true.
Proof. intros H. unfold Rltb. destruct (Rlt_dec x y); [reflexivity | contradiction]. Qed.

Lemma Rltb_ge (x y : R) : y <= x -> Rltb x y = false.
Proof. intros H. unfold Rltb. destruct (Rlt_dec x y); [lra | reflexivity]. Qed.

Lemma Rsign_pos (x : R) : 0 < x -> Rsign x = Gt.
Proof.
  intros H. unfold Rsign.
  destruct (total_order_T x 0) as [[Hlt | Heq] | Hgt]; try reflexivity; lra.
Qed.

Lemma Rsign_zero : Rsign 0 = Eq.
Proof.
  unfold Rsign.
  destruct (total_order_T 0 0) as [[Hlt | Heq] | Hgt]; try reflexivity; lra.
Qed.

Lemma Rsign_neg (x : R) : x < 0 -> Rsign x = Lt.
Proof.
  intros H. unfold Rsign.
  destruct (total_order_T x 0) as [[Hlt | Heq] | Hgt]; try reflexivity; lra.
Qed.

Lemma ngt_Fin (x y : R) : ngt (Fin x) (Fin y) = Rltb y x.
Proof. reflexivity. Qed.

(** A positive base raised to a finite exponent is the real power. *)
Lemma Math_pow_pos (x y : R) :
  0 < x -> Math_pow (Fin x) (Fin y) = Fin (Rpower x y).
Proof.
  intros Hx. unfold Math_pow.
  destruct (Req_dec_T y 0) as [-> | Hy].
  - rewrite Reqb_eq by reflexivity. now rewrite Rpower_O.
  - rewrite Reqb_neq by assumption. now rewrite Rsign_pos.
Qed.

(** With a natural exponent it is the iterated product. *)
Lemma Math_pow_nat (x : R) (n : nat) :
  0 < x -> Math_pow (Fin x) (Fin (INR n)) = Fin (x ^ n).
Proof.
  intros Hx. rewrite Math_pow_pos by assumption. now rewrite Rpower_pow.
Qed.

Lemma ndiv_Fin (x y : R) : y <> 0 -> ndiv (Fin x) (Fin y) = Fin (x / y).
Proof. intros Hy. unfold ndiv. now rewrite Reqb_neq. Qed.

Lemma nadd_comm (a b : number) : nadd a b = nadd b a.
Proof. destruct a, b; simpl; try reflexivity. f_equal. lra. Qed.

Lemma nadd_assoc (a b c : number) : nadd a (nadd b c) = nadd (nadd a b) c.
Proof. destruct a, b, c; simpl; try reflexivity. f_equal. lra. Qed.

Lemma nadd_0_l (a : number) : nadd (Fin 0) a = a.
Proof. destruct a; simpl; try reflexivity. f_equal. lra. Qed.

Lemma nadd_0_r (a : number) : nadd a (Fin 0) = a.
Proof. rewrite nadd_comm. apply nadd_0_l. Qed.

Lemma fold_left_map_nadd {A : Type} (f : A -> number) (l : list A) (a0 : number) :
  fold_left (fun (sum : number) x => nadd sum (f x)) l a0
  = fold_left nadd (map f l) a0.
Proof.
  revert a0. induction l as [| x l IH]; intros a0; simpl; [reflexivity | apply IH].
Qed.

(** [reduce] with [+] from 0 computes the sum of the mapped list. *)
Lemma reduce_nadd {A : Type} (f : A -> number) (l : list A) :
  fold_left (fun (sum : number) x => nadd sum (f x)) l (Fin 0) = nsum (map f l).
Proof.
  unfold nsum. rewrite fold_left_map_nadd.
  apply fold_symmetric.
  - apply nadd_assoc.
  - intros y. now rewrite nadd_0_l, nadd_0_r.
Qed.

Lemma nsum_Fin (l : list R) : nsum (map Fin l) = Fin (sumR l).
Proof.
  unfold nsum, sumR.
  induction l as [| x l IH]; simpl; [reflexivity |].
  now rewrite IH.
Qed.

Lemma nsum_cons (x : number) (l : list number) : nsum (x :: l) = nadd x (nsum l).
Proof. reflexivity. Qed.

Lemma sumR_cons (x : R) (l : list R) : sumR (x :: l) = x + sumR l.
Proof. reflexivity. Qed.

Lemma reduce_current_value (l : list Asset) :
  fold_left (fun (sum : number) asset => nadd sum (Fin (current_value asset))) l (Fin 0)
  = Fin (sumR (map current_value l)).
Proof.
  rewrite (reduce_nadd (fun a => Fin (current_value a))).
  rewrite <- nsum_Fin. now rewrite map_map.
Qed.

(* ===================================================================== *)
(** ** The compounding functions *)
(* ===================================================================== *)

Lemma Utils_calculateFutureValue_pos (P r y : R) :
  -1 < r ->
  Utils.calculateFutureValue P r y = Fin (P * Rpower (1 + r) y).
Proof.
  intros Hr. unfold Utils.calculateFutureValue. simpl nadd.
  rewrite Math_pow_pos by lra. reflexivity.
Qed.

Lemma Calculations_calculateFutureValue_pos (P g y : R) :
  -100 < g ->
  Calculations.calculateFutureValue P g y = Fin (P * Rpower (1 + g / 100) y).
Proof.
  intros Hg. unfold Calculations.calculateFutureValue.
  rewrite ndiv_Fin by lra. simpl nadd.
  rewrite Math_pow_pos by lra. reflexivity.
Qed.

(** C1 (as amended).  [calculateFutureValue] of lib/utils.ts takes the rate
    as a fraction [r > -1] and returns [P * (1 + r)^n]; the function of the
    same name in lib/utils/calculations.ts, the one the portfolio
    aggregator calls, takes the rate as an annual percentage [g > -100] and
    returns [P * (1 + g/100)^n].  [P >= 0] and [n] is a natural number. *)
Theorem calculateFutureValue_compounds (P r g : R) (n : nat) :
  0 <= P -> -1 < r -> -100 < g ->
  Utils.calculateFutureValue P r (INR n) = Fin (P * (1 + r) ^ n)
  /\ Calculations.calculateFutureValue P g (INR n) = Fin (P * (1 + g / 100) ^ n).
Proof.
  intros _ Hr Hg. split.
  - rewrite Utils_calculateFutureValue_pos by assumption.
    rewrite Rpower_pow by lra. reflexivity.
  - rewrite Calculations_calculateFutureValue_pos by assumption.
    rewrite Rpower_pow by lra. reflexivity.
Qed.

Lemma calculateFutureValue_compounds_witness :
  0 <= 100 /\ -1 < 1 / 2 /\ -100 < 50
  /\ Utils.calculateFutureValue 100 (1 / 2) (INR 2) = Fin (100 * (1 + 1 / 2) ^ 2)
  /\ Calculations.calculateFutureValue 100 50 (INR 2) = Fin (100 * (1 + 50 / 100) ^ 2).
Proof.
  split; [lra |]. split; [lra |]. split; [lra |].
  apply (calculateFutureValue_compounds 100 (1 / 2) 50 2); lra.
Defined.

(** C1 as stated fails for lib/utils/calculations.ts: with the fraction
    [r = 1/2] passed as the rate, one year turns 100 into 100.5, not 150. *)
Lemma calculateFutureValue_fraction_counterexample :
  0 <= 100 /\ -1 < 1 / 2
  /\ Calculations.calculateFutureValue 100 (1 / 2) (INR 1) = Fin (201 / 2)
  /\ Calculations.calculateFutureValue 100 (1 / 2) (INR 1) <> Fin (100 * (1 + 1 / 2) ^ 1).
Proof.
  assert (E : Calculations.calculateFutureValue 100 (1 / 2) (INR 1) = Fin (201 / 2)).
  { rewrite Calculations_calculateFutureValue_pos by lra.
    rewrite Rpower_pow by lra. f_equal. lra. }
  split; [lra |]. split; [lra |]. split; [exact E |].
  rewrite E. intros H. injection H as H. lra.
Qed.

(** A rate of zero leaves the value unchanged. *)
Lemma calculateFutureValue_zero_rate (P : R) (n : nat) :
  Utils.calculateFutureValue P 0 (INR n) = Fin P
  /\ Calculations.calculateFutureValue P 0 (INR n) = Fin P.
Proof.
  split.
  - rewrite Utils_calculateFutureValue_pos by lra.
    rewrite Rpower_pow by lra. f_equal.
    replace (1 + 0) with 1 by lra. rewrite pow1. lra.
  - rewrite Calculations_calculateFutureValue_pos by lra.
    rewrite Rpower_pow by lra. f_equal.
    replace (1 + 0 / 100) with 1 by lra. rewrite pow1. lra.
Qed.

(** A duration of zero leaves the value unchanged, whatever the rate. *)
Lemma calculateFutureValue_zero_years (P r : R) :
  Utils.calculateFutureValue P r 0 = Fin P
  /\ Calculations.calculateFutureValue P r 0 = Fin P.
Proof.
  unfold Utils.calculateFutureValue, Calculations.calculateFutureValue, Math_pow.
  rewrite Reqb_eq by reflexivity. simpl. split; f_equal; lra.
Qed.





(** On binary64 the round trip also misses the rate by rounding alone.
    For one year, on an engine whose [Math.pow(x, 1)] is [x], the rate
    0.07 comes back as 0.07000000000000006. *)
Lemma binary64_round_trip_one_year (approximate_pow : float -> float -> float) :
  (forall x : float, approximate_pow x 1%float = x) ->
  let r := (7 / 100)%float in
  let back :=
    Binary64.calculateGrowthRate approximate_pow 100
      (Binary64.calculateFutureValue approximate_pow 100 r 1) 1 in
  back = (1 + r - 1)%float
  /\ (r <? back)%float = true
  /\ (back =? r)%float = false.
Proof.
  intros Hpow. cbv zeta.
  assert (E : forall x : float,
            classify x = PNormal ->
            Binary64.Math_pow approximate_pow x 1 = x).
  { intros x Hx. unfold Binary64.Math_pow.
    replace (classify 1) with PNormal by reflexivity. rewrite Hx.
    replace (Binary64.integral 1) with true by reflexivity.
    rewrite andb_false_r. apply Hpow. }
  unfold Binary64.calculateGrowthRate, Binary64.calculateFutureValue.
  replace (1 / 1)%float with 1%float by reflexivity.
  rewrite (E (1 + 7 / 100)%float) by reflexivity.
  rewrite (E (100 * (1 + 7 / 100) / 100)%float) by reflexivity.
  vm_compute. repeat split.
Qed.

(* ===================================================================== *)
(** ** The portfolio aggregator *)
(* ===================================================================== *)

Lemma totalCurrentValue_sum (assets : list Asset) :
  Calculations.totalCurrentValue (Calculations.calculatePortfolioTotals assets)
  = Fin (sumR (map current_value assets)).
Proof. apply reduce_current_value. Qed.

Lemma totalFutureValue_sum (assets : list Asset) :
  Calculations.totalFutureValue (Calculations.calculatePortfolioTotals assets)
  = nsum (map (fun a =>
                 Calculations.calculateFutureValue
                   (current_value a) (growth_rate a) (projection_years a))
              assets).
Proof.
  apply (reduce_nadd
           (fun a => Calculations.calculateFutureValue
                       (current_value a) (growth_rate a) (projection_years a))).
Qed.

Lemma overallGrowthRate_unfold (assets : list Asset) :
  let t := Calculations.calculatePortfolioTotals assets in
  Calculations.overallGrowthRate t
  = if ngt (Calculations.totalCurrentValue t) (Fin 0)
    then nmul (nsub (Math_pow (ndiv (Calculations.totalFutureValue t)
                                    (Calculations.totalCurrentValue t))
                              (ndiv (Fin 1) (Fin 10)))
                    (Fin 1))
              (Fin 100)
    else Fin 0.
Proof. reflexivity. Qed.

(** C3.  The aggregator's [totalCurrentValue] is the sum of the assets'
    [current_value]; [totalFutureValue] is the sum, over the assets, of
    [calculateFutureValue] applied to the asset's own [current_value],
    [growth_rate] and [projection_years]; [totalProjectedGrowth] is their
    difference; and the empty collection yields zero totals. *)
Theorem calculatePortfolioTotals_sums (assets : list Asset) :
  let t := Calculations.calculatePortfolioTotals assets in
  Calculations.totalCurrentValue t = Fin (sumR (map current_value assets))
  /\ Calculations.totalFutureValue t
     = nsum (map (fun a =>
                    Calculations.calculateFutureValue
                      (current_value a) (growth_rate a) (projection_years a))
                 assets)
  /\ Calculations.totalProjectedGrowth t
     = nsub (Calculations.totalFutureValue t) (Calculations.totalCurrentValue t)
  /\ Calculations.calculatePortfolioTotals []
     = Calculations.mkTotals (Fin 0) (Fin 0) (Fin 0) (Fin 0).
Proof.
  cbv zeta. split; [| split; [| split]].
  - apply totalCurrentValue_sum.
  - apply totalFutureValue_sum.
  - reflexivity.
  - unfold Calculations.calculatePortfolioTotals. simpl.
    rewrite (Rltb_ge 0 0) by lra.
    replace (0 + - 0) with 0 by lra. reflexivity.
Qed.

(** C2 (as amended).  [overallGrowthRate] is a percentage: whenever the
    total current value [c] is positive it is
    [((totalFutureValue / c)^(1/10) - 1) * 100], with the fixed horizon
    10, and it is 0 whenever [c] is not positive, in particular when
    [c = 0], so that nothing is divided by zero. *)
Theorem overallGrowthRate_percentage (assets : list Asset) :
  let t := Calculations.calculatePortfolioTotals assets in
  let c := sumR (map current_value assets) in
  (0 < c ->
   Calculations.overallGrowthRate t
   = nmul (nsub (Math_pow (ndiv (Calculations.totalFutureValue t) (Fin c))
                          (Fin (1 / 10)))
                (Fin 1))
          (Fin 100))
  /\ (c <= 0 -> Calculations.overallGrowthRate t = Fin 0).
Proof.
  cbv zeta. rewrite overallGrowthRate_unfold. cbv zeta.
  rewrite totalCurrentValue_sum, ngt_Fin. split; intros Hc.
  - rewrite Rltb_lt by assumption. rewrite (ndiv_Fin 1 10) by lra. reflexivity.
  - rewrite Rltb_ge by assumption. reflexivity.
Qed.

(** When the future total is a positive real [f], the rate is the real
    number [((f / c)^(1/10) - 1) * 100]. *)
Lemma overallGrowthRate_real (assets : list Asset) (f : R) :
  let t := Calculations.calculatePortfolioTotals assets in
  let c := sumR (map current_value assets) in
  Calculations.totalFutureValue t = Fin f -> 0 < f -> 0 < c ->
  Calculations.overallGrowthRate t = Fin ((Rpower (f / c) (1 / 10) - 1) * 100).
Proof.
  cbv zeta. intros Hf Hfpos Hc.
  rewrite overallGrowthRate_unfold. cbv zeta.
  rewrite totalCurrentValue_sum, Hf, ngt_Fin, Rltb_lt by assumption.
  rewrite (ndiv_Fin 1 10), ndiv_Fin by lra.
  rewrite Math_pow_pos by (apply Rdiv_lt_0_compat; assumption).
  simpl. f_equal.
Qed.

Lemma Rpower_1024 : Rpower 1024 (1 / 10) = 2.
Proof.
  replace 1024 with (Rpower 2 (INR 10)).
  - rewrite Rpower_mult.
    replace (INR 10 * (1 / 10)) with 1 by (simpl; lra).
    apply Rpower_1. lra.
  - rewrite Rpower_pow by lra. simpl. lra.
Qed.

Lemma doubling_asset_totals :
  let t := Calculations.calculatePortfolioTotals [doubling_asset] in
  Calculations.totalCurrentValue t = Fin 100
  /\ Calculations.totalFutureValue t = Fin 102400.
Proof.
  cbv zeta. rewrite totalCurrentValue_sum, totalFutureValue_sum. split.
  - simpl. f_equal. lra.
  - unfold nsum, doubling_asset. cbn [map fold_right
      current_value growth_rate projection_years].
    rewrite Calculations_calculateFutureValue_pos by lra.
    replace (Rpower (1 + 100 / 100) 10) with (Rpower (1 + 100 / 100) (INR 10))
      by (f_equal; simpl; lra).
    rewrite Rpower_pow by lra. simpl. f_equal. lra.
Qed.

Lemma overallGrowthRate_percentage_witness :
  0 < sumR (map current_value [doubling_asset])
  /\ Calculations.overallGrowthRate (Calculations.calculatePortfolioTotals [doubling_asset])
     = nmul (nsub (Math_pow
                     (ndiv (Calculations.totalFutureValue
                              (Calculations.calculatePortfolioTotals [doubling_asset]))
                           (Fin (sumR (map current_value [doubling_asset]))))
                     (Fin (1 / 10)))
                  (Fin 1))
            (Fin 100).
Proof.
  assert (H : 0 < sumR (map current_value [doubling_asset])) by (simpl; lra).
  split; [exact H |].
  exact (proj1 (overallGrowthRate_percentage [doubling_asset]) H).
Defined.

(** C2 as stated fails: for the doubling asset the total current value is
    positive, [(totalFutureValue / totalCurrentValue)^(1/10) - 1] is 1,
    and [overallGrowthRate] is 100. *)
Lemma overallGrowthRate_counterexample :
  let t := Calculations.calculatePortfolioTotals [doubling_asset] in
  ngt (Calculations.totalCurrentValue t) (Fin 0) = true
  /\ nsub (Math_pow (ndiv (Calculations.totalFutureValue t)
                          (Calculations.totalCurrentValue t))
                    (Fin (1 / 10)))
          (Fin 1) = Fin 1
  /\ Calculations.overallGrowthRate t = Fin 100
  /\ Calculations.overallGrowthRate t
     <> nsub (Math_pow (ndiv (Calculations.totalFutureValue t)
                             (Calculations.totalCurrentValue t))
                       (Fin (1 / 10)))
             (Fin 1).
Proof.
  cbv zeta. destruct doubling_asset_totals as [Hc Hf]. cbv zeta in Hc, Hf.
  assert (Hclaim :
    nsub (Math_pow (ndiv (Calculations.totalFutureValue
                            (Calculations.calculatePortfolioTotals [doubling_asset]))
                         (Calculations.totalCurrentValue
                            (Calculations.calculatePortfolioTotals [doubling_asset])))
                   (Fin (1 / 10)))
         (Fin 1) = Fin 1).
  { rewrite Hc, Hf. rewrite ndiv_Fin by lra.
    replace (102400 / 100) with 1024 by lra.
    rewrite Math_pow_pos by lra. rewrite Rpower_1024. simpl. f_equal. lra. }
  assert (Hcode :
    Calculations.overallGrowthRate
      (Calculations.calculatePortfolioTotals [doubling_asset]) = Fin 100).
  { rewrite (overallGrowthRate_real [doubling_asset] 102400 Hf) by (simpl; lra).
    simpl sumR. replace (102400 / (100 + 0)) with 1024 by lra.
    rewrite Rpower_1024. f_equal. lra. }
  split; [rewrite Hc, ngt_Fin; apply Rltb_lt; lra |].
  split; [exact Hclaim |]. split; [exact Hcode |].
  rewrite Hcode, Hclaim. intros H. injection H as H. lra.
Qed.

(** A single asset of value 0 at 0.05 over 10 years: every total is 0 and
    so is the overall growth rate. *)
Lemma zero_value_asset_totals :
  Calculations.calculatePortfolioTotals [mkAsset "savings" 0 (5 / 100) 10]
  = Calculations.mkTotals (Fin 0) (Fin 0) (Fin 0) (Fin 0).
Proof.
  unfold Calculations.calculatePortfolioTotals.
  cbn [fold_left current_value growth_rate projection_years].
  rewrite Calculations_calculateFutureValue_pos by lra.
  simpl. rewrite (Rltb_ge 0 (0 + 0)) by lra.
  replace (0 + 0 * Rpower (1 + 5 / 100 / 100) 10) with 0 by lra.
  replace (0 + - (0 + 0)) with 0 by lra.
  replace (0 + 0) with 0 by lra. reflexivity.
Qed.

(* ===================================================================== *)
(** ** Dictionaries *)
(* ===================================================================== *)

Lemma get_finite (acc : Obj.t) (key : string) (b : Obj.bucket) :
  finite_buckets acc -> Obj.get acc key = Some b -> is_finite (Obj.value b).
Proof.
  unfold finite_buckets. induction acc as [| [k b0] rest IH]; simpl; intros HF Hget.
  - discriminate.
  - inversion HF as [| ? ? Hb Hrest]; subst.
    destruct (String.eqb k key).
    + injection Hget as <-. exact Hb.
    + now apply IH.
Qed.

Lemma get_set_same {B : Type} (acc : list (string * B)) (key : string) (b : B) :
  Obj.get (Obj.set acc key b) key = Some b.
Proof.
  induction acc as [| [k b0] rest IH]; simpl.
  - now rewrite String.eqb_refl.
  - destruct (String.eqb k key) eqn:E; simpl; rewrite E; [reflexivity | exact IH].
Qed.

Lemma get_set_other {B : Type} (acc : list (string * B)) (key k : string) (b : B) :
  key <> k -> Obj.get (Obj.set acc key b) k = Obj.get acc k.
Proof.
  intros Hne. induction acc as [| [k0 b0] rest IH]; simpl.
  - destruct (String.eqb_spec key k); [contradiction | reflexivity].
  - destruct (String.eqb_spec k0 key) as [-> | Hk0]; simpl.
    + destruct (String.eqb_spec key k); [contradiction | reflexivity].
    + destruct (String.eqb k0 k); [reflexivity | exact IH].
Qed.

Lemma set_finite (acc : Obj.t) (key : string) (b : Obj.bucket) :
  finite_buckets acc -> is_finite (Obj.value b) ->
  finite_buckets (Obj.set acc key b).
Proof.
  unfold finite_buckets. intros HF Hb.
  induction acc as [| [k b0] rest IH]; simpl.
  - constructor; [exact Hb | constructor].
  - inversion HF as [| ? ? Hb0 Hrest]; subst.
    destruct (String.eqb k key); constructor; auto.
Qed.

Lemma set_plain (acc : Obj.t) (key : string) (b : Obj.bucket) :
  plain_keys acc -> inherited key = false -> plain_keys (Obj.set acc key b).
Proof.
  unfold plain_keys. intros HP Hk.
  induction acc as [| [k b0] rest IH]; simpl.
  - constructor; [exact Hk | constructor].
  - inversion HP as [| ? ? Hk0 Hrest]; subst.
    destruct (String.eqb k key); constructor; auto.
Qed.

Lemma plain_get (acc : Obj.t) (key : string) :
  plain_keys acc -> inherited key = true -> Obj.get acc key = None.
Proof.
  unfold plain_keys. intros HP Hk.
  induction acc as [| [k b0] rest IH]; simpl; [reflexivity |].
  inversion HP as [| ? ? Hk0 Hrest]; subst. simpl in Hk0.
  destruct (String.eqb_spec k key) as [-> | Hne]; [congruence | now apply IH].
Qed.

Lemma keys_set (acc : Obj.t) (key : string) (b : Obj.bucket) :
  map fst (Obj.set acc key b)
  = if present acc key then map fst acc else map fst acc ++ [key].
Proof.
  unfold present. induction acc as [| [k0 b0] rest IH]; simpl; [reflexivity |].
  destruct (String.eqb_spec k0 key) as [-> | Hk0]; simpl; [reflexivity |].
  rewrite IH. destruct (Obj.get rest key); reflexivity.
Qed.

Lemma present_In (acc : Obj.t) (k : string) :
  present acc k = true <-> In k (map fst acc).
Proof.
  unfold present. induction acc as [| [k0 b0] rest IH]; simpl.
  - split; [discriminate | contradiction].
  - destruct (String.eqb_spec k0 k) as [-> | Hne].
    + split; auto.
    + rewrite IH. split; [now right | intros [H | H]; [contradiction | exact H]].
Qed.

Lemma In_get (acc : Obj.t) (k : string) (b : Obj.bucket) :
  NoDup (map fst acc) -> In (k, b) acc -> Obj.get acc k = Some b.
Proof.
  induction acc as [| [k0 b0] rest IH]; simpl; intros Hnd Hin; [contradiction |].
  inversion Hnd as [| ? ? Hnotin Hnd']; subst.
  destruct Hin as [Heq | Hin].
  - injection Heq as -> ->. now rewrite String.eqb_refl.
  - destruct (String.eqb_spec k0 k) as [-> | Hne]; [| now apply IH].
    exfalso. apply Hnotin. apply in_map_iff. now exists (k, b).
Qed.

(** [Object.entries] lists every own property once. *)
Lemma insert_indexed_Permutation {B : Type} (n : N) (kv : string * B)
    (l : list (N * (string * B))) :
  Permutation (map snd (Obj.insert_indexed n kv l)) (kv :: map snd l).
Proof.
  induction l as [| [m kv'] rest IH]; simpl; [reflexivity |].
  destruct (n <=? m)%N; simpl; [reflexivity |].
  rewrite IH. apply perm_swap.
Qed.

Lemma entries_Permutation {B : Type} (acc : list (string * B)) :
  Permutation (Obj.entries acc) acc.
Proof.
  unfold Obj.entries. induction acc as [| kv rest IH]; simpl; [reflexivity |].
  destruct (array_index (fst kv)) as [n |]; simpl.
  - rewrite insert_indexed_Permutation. simpl. now apply perm_skip.
  - rewrite <- Permutation_middle. now apply perm_skip.
Qed.

Lemma entries_In {B : Type} (acc : list (string * B)) (kv : string * B) :
  In kv (Obj.entries acc) <-> In kv acc.
Proof.
  split; apply Permutation_in;
    [apply entries_Permutation | symmetry; apply entries_Permutation].
Qed.

(* ===================================================================== *)
(** ** The allocation classifier *)
(* ===================================================================== *)

(** The grouping step by cases: a category that has a bucket, a category
    that names an inherited property, and a new category. *)
Lemma allocation_step_cases (acc : Obj.t) (asset : Asset) :
  ContextBuilder.allocation_step acc asset
  = match Obj.get acc (asset_type asset) with
    | Some data =>
        Obj.set acc (asset_type asset)
          (Obj.mkBucket (nadd (Obj.value data) (Fin (current_value asset)))
                        (Obj.count data + 1))
    | None =>
        if inherited (asset_type asset) then acc
        else Obj.set (Obj.set acc (asset_type asset) (Obj.mkBucket (Fin 0) 0))
               (asset_type asset)
               (Obj.mkBucket (nadd (Fin 0) (Fin (current_value asset))) (0 + 1))
    end.
Proof.
  unfold ContextBuilder.allocation_step, Obj.lookup.
  destruct (Obj.get acc (asset_type asset)) as [b0 |] eqn:Hget.
  - rewrite ?Hget. reflexivity.
  - destruct (inherited (asset_type asset)) eqn:Hinh.
    + rewrite ?Hget, ?Hinh. reflexivity.
    + rewrite get_set_same. reflexivity.
Qed.

(** The effect of one step on the bucket of any category [k]. *)
Lemma allocation_step_held (acc : Obj.t) (asset : Asset) (k : string) :
  finite_buckets acc -> plain_keys acc ->
  finite_buckets (ContextBuilder.allocation_step acc asset)
  /\ plain_keys (ContextBuilder.allocation_step acc asset)
  /\ held (ContextBuilder.allocation_step acc asset) k
     = held acc k
       + (if (String.eqb (asset_type asset) k && negb (inherited k))%bool
          then current_value asset else 0)
  /\ present (ContextBuilder.allocation_step acc asset) k
     = (present acc k
        || (String.eqb (asset_type asset) k && negb (inherited k)))%bool
  /\ (NoDup (map fst acc) ->
      NoDup (map fst (ContextBuilder.allocation_step acc asset))).
Proof.
  intros HF HP. rewrite allocation_step_cases. unfold held, present.
  destruct (Obj.get acc (asset_type asset)) as [b0 |] eqn:Hget.
  - pose proof (get_finite _ _ _ HF Hget) as Hb0.
    assert (Hinh : inherited (asset_type asset) = false).
    { destruct (inherited (asset_type asset)) eqn:E; [| reflexivity].
      rewrite (plain_get _ _ HP E) in Hget. discriminate. }
    destruct b0 as [v n]; simpl in Hb0. destruct v; try contradiction.
    split; [apply set_finite; [assumption | exact I] |].
    split; [now apply set_plain |].
    split; [| split].
    + destruct (String.eqb_spec (asset_type asset) k) as [<- | Hne]; simpl.
      * rewrite get_set_same, Hget, Hinh. reflexivity.
      * rewrite get_set_other by assumption. destruct (Obj.get acc k); lra.
    + destruct (String.eqb_spec (asset_type asset) k) as [<- | Hne]; simpl.
      * rewrite get_set_same, Hget. reflexivity.
      * rewrite get_set_other by assumption. now rewrite orb_false_r.
    + intros Hnd. rewrite keys_set. unfold present. now rewrite Hget.
  - destruct (inherited (asset_type asset)) eqn:Hinh.
    + split; [assumption |]. split; [assumption |]. split; [| split].
      * destruct (String.eqb_spec (asset_type asset) k) as [<- | Hne]; simpl.
        -- rewrite Hinh. simpl. lra.
        -- lra.
      * destruct (String.eqb_spec (asset_type asset) k) as [<- | Hne]; simpl.
        -- rewrite Hinh. simpl. now rewrite orb_false_r.
        -- now rewrite orb_false_r.
      * auto.
    + split; [apply set_finite; [apply set_finite; [assumption |] |]; exact I |].
      split; [apply set_plain; [apply set_plain |]; assumption |].
      split; [| split].
      * destruct (String.eqb_spec (asset_type asset) k) as [<- | Hne]; simpl.
        -- rewrite get_set_same, Hget, Hinh. simpl. lra.
        -- rewrite !get_set_other by assumption. destruct (Obj.get acc k); lra.
      * destruct (String.eqb_spec (asset_type asset) k) as [<- | Hne]; simpl.
        -- rewrite get_set_same, Hget, Hinh. reflexivity.
        -- rewrite !get_set_other by assumption. now rewrite orb_false_r.
      * intros Hnd. rewrite !keys_set. unfold present.
        rewrite get_set_same, Hget.
        apply NoDup_app; [exact Hnd | repeat constructor; auto |].
        intros x Hx [<- | []].
        apply present_In in Hx. unfold present in Hx. rewrite Hget in Hx.
        discriminate.
Qed.

Lemma grouping_held (assets : list Asset) (acc : Obj.t) (k : string) :
  finite_buckets acc -> plain_keys acc ->
  finite_buckets (fold_left ContextBuilder.allocation_step assets acc)
  /\ plain_keys (fold_left ContextBuilder.allocation_step assets acc)
  /\ held (fold_left ContextBuilder.allocation_step assets acc) k
     = held acc k + (if inherited k then 0 else group_value k assets)
  /\ present (fold_left ContextBuilder.allocation_step assets acc) k
     = (present acc k
        || (negb (inherited k)
            && existsb (fun a => String.eqb (asset_type a) k) assets))%bool
  /\ (NoDup (map fst acc) ->
      NoDup (map fst (fold_left ContextBuilder.allocation_step assets acc))).
Proof.
  revert acc. unfold group_value.
  induction assets as [| a assets IH]; intros acc HF HP; simpl.
  - split; [assumption |]. split; [assumption |].
    split; [unfold sumR; simpl; destruct (inherited k); lra |].
    split; [now rewrite andb_false_r, orb_false_r | auto].
  - destruct (allocation_step_held acc a k HF HP) as [HF' [HP' [Hh [Hp Hnd]]]].
    destruct (IH _ HF' HP') as [HF'' [HP'' [Hh' [Hp' Hnd']]]].
    split; [assumption |]. split; [assumption |]. split; [| split].
    + rewrite Hh', Hh. cbn [filter].
      destruct (inherited k); cbn [negb]; rewrite ?andb_false_r, ?andb_true_r;
        [lra |].
      destruct (String.eqb (asset_type a) k); cbn [map]; rewrite ?sumR_cons.
      all: lra.
    + rewrite Hp', Hp. cbn [existsb].
      destruct (inherited k); cbn [negb]; rewrite ?andb_false_r, ?andb_true_r,
        ?orb_false_r; [reflexivity |].
      cbn [andb]. now rewrite orb_assoc.
    + auto.
Qed.

Lemma nsum_zeros {A : Type} (l : list A) :
  nsum (map (fun _ => Fin 0) l) = Fin 0.
Proof.
  unfold nsum. induction l as [| x l IH]; simpl; [reflexivity |].
  rewrite IH. simpl. f_equal. lra.
Qed.

Lemma calculateAssetAllocation_unfold (assets : list Asset) :
  ContextBuilder.calculateAssetAllocation assets
  = map (fun kv =>
           {| category := fst kv;
              value := Obj.value (snd kv);
              percentage :=
                if Rltb 0 (sumR (map current_value assets))
                then nmul (ndiv (Obj.value (snd kv))
                                (Fin (sumR (map current_value assets))))
                          (Fin 100)
                else Fin 0;
              risk_level := ContextBuilder.getCategoryRiskLevel (fst kv) |})
        (Obj.entries (fold_left ContextBuilder.allocation_step assets [])).
Proof.
  unfold ContextBuilder.calculateAssetAllocation.
  rewrite reduce_current_value, ngt_Fin.
  apply map_ext. intros [k b]. reflexivity.
Qed.

(** Every category that does not name an inherited property is listed
    once, with the sum of the current values of the assets of that
    category and with the risk value of the category; the assets of a
    category that names an inherited property are not listed. *)
Lemma calculateAssetAllocation_groups (assets : list Asset) :
  let allocation := ContextBuilder.calculateAssetAllocation assets in
  NoDup (map category allocation)
  /\ (forall a, In a allocation ->
        value a = Fin (group_value (category a) assets)
        /\ risk_level a = ContextBuilder.getCategoryRiskLevel (category a)
        /\ inherited (category a) = false)
  /\ (forall k, In k (map category allocation)
                <-> In k (map asset_type assets) /\ inherited k = false).
Proof.
  cbv zeta. rewrite calculateAssetAllocation_unfold.
  set (acc := fold_left ContextBuilder.allocation_step assets []).
  assert (Hacc : forall k,
            finite_buckets acc /\ plain_keys acc
            /\ held acc k = 0 + (if inherited k then 0 else group_value k assets)
            /\ present acc k
               = (false || (negb (inherited k)
                            && existsb (fun a => String.eqb (asset_type a) k)
                                       assets))%bool
            /\ NoDup (map fst acc)).
  { intros k.
    destruct (grouping_held assets [] k (Forall_nil _) (Forall_nil _))
      as [H1 [H2 [H3 [H4 H5]]]].
    repeat split; try assumption. apply H5. constructor. }
  destruct (Hacc EmptyString) as [HF [HP [_ [_ Hnd]]]].
  rewrite map_map. simpl. split; [| split].
  - apply (Permutation_NoDup (l := map fst acc)); [| exact Hnd].
    apply Permutation_map. symmetry. apply entries_Permutation.
  - intros a Ha. apply in_map_iff in Ha. destruct Ha as [[k b] [<- Hin]]. simpl.
    apply (proj1 (entries_In _ _)) in Hin.
    assert (Hk : inherited k = false).
    { unfold plain_keys in HP. rewrite Forall_forall in HP. exact (HP _ Hin). }
    split; [| split; [reflexivity | exact Hk]].
    destruct (Hacc k) as [_ [_ [Hh _]]].
    unfold held in Hh. rewrite (In_get _ _ _ Hnd Hin), Hk in Hh.
    rewrite Rplus_0_l in Hh.
    pose proof (get_finite _ _ _ HF (In_get _ _ _ Hnd Hin)) as Hfin.
    destruct (Obj.value b); try contradiction. simpl in Hh. now rewrite Hh.
  - intros k.
    assert (Hiff : In k (map fst (Obj.entries acc)) <-> In k (map fst acc)).
    { split; apply Permutation_in; apply Permutation_map;
        [apply entries_Permutation | symmetry; apply entries_Permutation]. }
    rewrite Hiff, <- present_In.
    destruct (Hacc k) as [_ [_ [_ [Hp _]]]]. rewrite Hp. simpl.
    rewrite andb_true_iff, negb_true_iff, existsb_exists. split.
    + intros [Hk [a [Hin He]]]. apply String.eqb_eq in He. subst k.
      split; [now apply in_map | exact Hk].
    + intros [Hin Hk]. split; [exact Hk |].
      apply in_map_iff in Hin. destruct Hin as [a [<- Hin]].
      exists a. split; [exact Hin | apply String.eqb_refl].
Qed.

Lemma calculateAssetAllocation_values (assets : list Asset) :
  (forall a, In a (ContextBuilder.calculateAssetAllocation assets) ->
             value a = Fin (group_value (category a) assets))
  /\ (forall a, In a (ContextBuilder.calculateAssetAllocation assets) ->
                0 < sumR (map current_value assets) ->
                percentage a
                = nmul (ndiv (value a) (Fin (sumR (map current_value assets))))
                       (Fin 100)).
Proof.
  split.
  - intros a Ha.
    exact (proj1 (proj1 (proj2 (calculateAssetAllocation_groups assets)) a Ha)).
  - intros a Ha Hpos. rewrite calculateAssetAllocation_unfold in Ha.
    apply in_map_iff in Ha. destruct Ha as [kv [<- _]]. simpl.
    now rewrite Rltb_lt.
Qed.

Lemma group_value_single (k : string) (assets : list Asset) :
  Forall (fun a => asset_type a = k) assets ->
  group_value k assets = sumR (map current_value assets).
Proof.
  intros HF. unfold group_value.
  induction HF as [| a l Ha HF IH]; cbn [filter map]; [reflexivity |].
  rewrite Ha, String.eqb_refl. cbn [map]. rewrite !sumR_cons, IH. reflexivity.
Qed.

Lemma sum_indicator (t : string) (x : R) (ks : list string) :
  NoDup ks ->
  sumR (map (fun k => if String.eqb t k then x else 0) ks)
  = if existsb (String.eqb t) ks then x else 0.
Proof.
  intros Hnd. induction Hnd as [| k ks Hnotin Hnd IH]; [reflexivity |].
  cbn [map existsb]. rewrite sumR_cons, IH.
  destruct (String.eqb_spec t k) as [-> | Hne]; simpl; [| lra].
  destruct (existsb (String.eqb k) ks) eqn:E; [| lra].
  exfalso. apply Hnotin. apply existsb_exists in E.
  destruct E as [k' [Hin He]]. apply String.eqb_eq in He. now subst k'.
Qed.

(** Over the real numbers, the values of distinct categories that cover
    the assets add up to the total. *)
Lemma group_values_total (ks : list string) (assets : list Asset) :
  NoDup ks ->
  Forall (fun a => In (asset_type a) ks) assets ->
  sumR (map (fun k => group_value k assets) ks) = sumR (map current_value assets).
Proof.
  intros Hnd HF. induction HF as [| a l Ha HF IH].
  - unfold group_value. simpl. induction ks as [| k ks IHk]; [reflexivity |].
    cbn [map]. rewrite sumR_cons, IHk by (now inversion Hnd). unfold sumR. simpl. lra.
  - cbn [map]. rewrite sumR_cons, <- IH.
    assert (Hin : existsb (String.eqb (asset_type a)) ks = true).
    { apply existsb_exists. exists (asset_type a). split; [exact Ha |].
      apply String.eqb_refl. }
    pose proof (sum_indicator (asset_type a) (current_value a) ks Hnd) as Hind.
    rewrite Hin in Hind. rewrite <- Hind at 1.
    clear. induction ks as [| k ks IHk]; [unfold sumR; simpl; lra |].
    cbn [map]. rewrite !sumR_cons, IHk. unfold group_value. cbn [filter].
    destruct (String.eqb (asset_type a) k); cbn [map]; rewrite ?sumR_cons; lra.
Qed.

Lemma sumR_scale (f : string -> R) (total : R) (ks : list string) :
  sumR (map (fun k => f k / total * 100) ks) = sumR (map f ks) / total * 100.
Proof.
  induction ks as [| k ks IH]; cbn [map]; rewrite ?sumR_cons, ?IH.
  - unfold sumR. simpl. unfold Rdiv. lra.
  - unfold Rdiv. lra.
Qed.

(** C6 (as amended).  For assets with non-negative current values: when
    the total is positive, the percentage of each category listed is the
    category's value divided by the total, times 100, the value being the
    sum of the current values of the category; over the real numbers
    these fractions add up to 100 when no asset type names an inherited
    property; when all assets are of one category, which does not name an
    inherited property, and the total is positive and at most 10^300, that
    category is listed alone with exactly 100; and when the total is 0
    every percentage is 0 and so is their sum. *)
Theorem allocation_percentages_formula (assets : list Asset) :
  let allocation := ContextBuilder.calculateAssetAllocation assets in
  let totalValue := sumR (map current_value assets) in
  Forall (fun a => 0 <= current_value a) assets ->
  (0 < totalValue ->
   Forall (fun a =>
             percentage a = nmul (ndiv (value a) (Fin totalValue)) (Fin 100)
             /\ value a = Fin (group_value (category a) assets))
          allocation)
  /\ (0 < totalValue ->
      Forall (fun a => inherited (asset_type a) = false) assets ->
      sumR (map (fun a => group_value (category a) assets / totalValue * 100)
                allocation) = 100)
  /\ (forall k : string,
        Forall (fun a => asset_type a = k) assets ->
        inherited k = false ->
        0 < totalValue <= 10 ^ 300 ->
        exists a,
          allocation = [a] /\ category a = k
          /\ value a = Fin totalValue /\ percentage a = Fin 100)
  /\ (totalValue = 0 ->
      Forall (fun a => percentage a = Fin 0) allocation
      /\ nsum (map percentage allocation) = Fin 0).
Proof.
  cbv zeta. intros _. split; [| split; [| split]].
  - intros Hpos. apply Forall_forall. intros a Ha.
    destruct (calculateAssetAllocation_values assets) as [Hval Hpct].
    split; [now apply Hpct | now apply Hval].
  - intros Hpos Hplain.
    destruct (calculateAssetAllocation_groups assets) as [Hnd [_ Hkeys]].
    cbv zeta in Hnd, Hkeys.
    rewrite <- (map_map category
                  (fun k => group_value k assets / sumR (map current_value assets) * 100)).
    rewrite (sumR_scale (fun k => group_value k assets)).
    rewrite (group_values_total _ assets Hnd).
    + field. lra.
    + rewrite Forall_forall in Hplain. apply Forall_forall. intros a Ha.
      apply Hkeys. split; [now apply in_map | now apply Hplain].
  - intros k Hall Hk [Hpos _].
    destruct (calculateAssetAllocation_groups assets) as [Hnd [Hval Hkeys]].
    cbv zeta in Hnd, Hval, Hkeys.
    destruct (calculateAssetAllocation_values assets) as [_ Hpct].
    assert (Hcat : forall a, In a (ContextBuilder.calculateAssetAllocation assets) ->
                             category a = k).
    { intros a Ha.
      assert (Hin : In (category a)
                       (map category (ContextBuilder.calculateAssetAllocation assets)))
        by now apply in_map.
      apply Hkeys in Hin. destruct Hin as [Hin _].
      apply in_map_iff in Hin. destruct Hin as [a0 [<- Hin0]].
      rewrite Forall_forall in Hall. now apply Hall. }
    assert (Hlisted : In k (map category (ContextBuilder.calculateAssetAllocation assets))).
    { apply Hkeys. split; [| exact Hk].
      destruct assets as [| a0 rest]; [unfold sumR in Hpos; simpl in Hpos; lra |].
      inversion Hall; subst. now left. }
    destruct (ContextBuilder.calculateAssetAllocation assets) as [| a [| b rest]] eqn:E.
    + contradiction.
    + exists a. split; [reflexivity |].
      assert (Ha : In a [a]) by now left.
      split; [now apply Hcat |].
      assert (Ev : value a = Fin (sumR (map current_value assets))).
      { rewrite (proj1 (Hval a Ha)), (Hcat a Ha). f_equal.
        now apply group_value_single. }
      split; [exact Ev |].
      rewrite (Hpct a Ha Hpos), Ev, ndiv_Fin by lra. simpl. f_equal. field. lra.
    + exfalso. simpl in Hnd. inversion Hnd as [| ? ? Hnotin _]; subst.
      apply Hnotin. left.
      rewrite (Hcat a), (Hcat b); [reflexivity | right; now left | now left].
  - intros Hzero. rewrite calculateAssetAllocation_unfold.
    rewrite Hzero, (Rltb_ge 0 0) by lra. split.
    + apply Forall_forall. intros a Ha. apply in_map_iff in Ha.
      destruct Ha as [kv [<- _]]. reflexivity.
    + rewrite map_map. simpl. apply nsum_zeros.
Qed.

Lemma allocation_percentages_formula_witness :
  Forall (fun a => 0 <= current_value a) [mkAsset "savings" 100 2 5]
  /\ Forall (fun a => asset_type a = "savings"%string) [mkAsset "savings" 100 2 5]
  /\ inherited "savings" = false
  /\ 0 < sumR (map current_value [mkAsset "savings" 100 2 5]) <= 10 ^ 300
  /\ exists a,
       ContextBuilder.calculateAssetAllocation [mkAsset "savings" 100 2 5] = [a]
       /\ category a = "savings"%string
       /\ percentage a = Fin 100.
Proof.
  assert (H0 : Forall (fun a => 0 <= current_value a) [mkAsset "savings" 100 2 5])
    by (repeat constructor; simpl; lra).
  assert (H1 : Forall (fun a => asset_type a = "savings"%string)
                      [mkAsset "savings" 100 2 5])
    by (repeat constructor).
  assert (H2 : 0 < sumR (map current_value [mkAsset "savings" 100 2 5]) <= 10 ^ 300).
  { unfold sumR. simpl fold_right. split; [lra |].
    apply Rle_trans with (10 ^ 2); [simpl; lra |].
    apply Rle_pow; [lra | lia]. }
  split; [exact H0 |]. split; [exact H1 |]. split; [reflexivity |].
  split; [exact H2 |].
  destruct (proj1 (proj2 (proj2 (allocation_percentages_formula
                                   [mkAsset "savings" 100 2 5] H0)))
              "savings"%string H1 eq_refl H2) as [a [E [Hc [_ Hp]]]].
  exists a. repeat split; assumption.
Defined.

(** C6 as stated fails on the numbers the program computes with.  Three
    categories of value 1 each get the binary64 percentage
    33.33333333333333, and the three add up to 99.99999999999999, which
    is not 100. *)
Lemma allocation_percentages_sum_counterexample :
  let assets := [ Binary64.mkAsset "savings" 1; Binary64.mkAsset "rrsp" 1;
                  Binary64.mkAsset "tfsa" 1 ] in
  let allocation := Binary64.calculateAssetAllocation assets in
  (0 <? Binary64.totalValue assets)%float = true
  /\ map Binary64.category allocation = [ "savings"; "rrsp"; "tfsa" ]%string
  /\ map Binary64.percentage allocation
     = [ (1 / 3 * 100)%float; (1 / 3 * 100)%float; (1 / 3 * 100)%float ]
  /\ (Binary64.sum (map Binary64.percentage allocation) <? 100)%float = true
  /\ (Binary64.sum (map Binary64.percentage allocation) =? 100)%float = false.
Proof. vm_compute. repeat split. Qed.

(** An asset whose type names an inherited property gets no bucket: it
    counts in the total and is missing from the list, so that the
    percentages listed add up to 75 here. *)
Lemma allocation_skips_inherited_names :
  let assets := [ Binary64.mkAsset "toString" 1; Binary64.mkAsset "savings" 3 ] in
  let allocation := Binary64.calculateAssetAllocation assets in
  map Binary64.category allocation = [ "savings"%string ]
  /\ map Binary64.percentage allocation = [ 75%float ].
Proof. vm_compute. split; reflexivity. Qed.

(* ===================================================================== *)
(** ** Risk tiers *)
(* ===================================================================== *)

Lemma lookup_absent (table : list (string * RiskLevel)) (key : string) :
  ~ In key (map fst table) -> ContextBuilder.lookup table key = None.
Proof.
  induction table as [| [k v] rest IH]; simpl; intros Hout; [reflexivity |].
  destruct (String.eqb_spec k key) as [-> | Hne].
  - exfalso. apply Hout. now left.
  - apply IH. intros Hin. apply Hout. now right.
Qed.

(** What the lookup does on every category: the five entries of the
    table, [medium] for a category that is neither in the table nor
    inherited, and no tier at all for a name of [Object.prototype]. *)
Lemma getCategoryRiskLevel_cases :
  ContextBuilder.getCategoryRiskLevel "savings" = Tier low
  /\ ContextBuilder.getCategoryRiskLevel "residence" = Tier medium
  /\ ContextBuilder.getCategoryRiskLevel "rrsp" = Tier medium
  /\ ContextBuilder.getCategoryRiskLevel "tfsa" = Tier medium
  /\ ContextBuilder.getCategoryRiskLevel "investment" = Tier high
  /\ (forall category : string,
        ~ In category (map fst ContextBuilder.riskMap) ->
        ContextBuilder.getCategoryRiskLevel category
        = if inherited category then InheritedValue category else Tier medium).
Proof.
  repeat (split; [reflexivity |]).
  intros category Hout. unfold ContextBuilder.getCategoryRiskLevel.
  now rewrite (lookup_absent _ _ Hout).
Qed.


(* ===================================================================== *)
(** ** Age *)
(* ===================================================================== *)

(** In terms of the local calendar fields of the two [Date] objects: when
    the fields of the parsed birth date are not after those of today, the
    age is the difference of the years, less one exactly when the month
    and day of the parsed date lie ahead in the current year. *)
Lemma calculateAge_local_fields (now : JsDate) (newDate : string -> JsDate)
    (birthDate : string) :
  let today := now in
  let birth := newDate birthDate in
  let years := (getFullYear today - getFullYear birth)%Z in
  date_le birth today ->
  (birthday_not_reached today birth ->
   ContextBuilder.calculateAge now newDate birthDate = (years - 1)%Z)
  /\ (~ birthday_not_reached today birth ->
      ContextBuilder.calculateAge now newDate birthDate = years)
  /\ (0 <= ContextBuilder.calculateAge now newDate birthDate)%Z.
Proof.
  cbv zeta. unfold date_le, birthday_not_reached, ContextBuilder.calculateAge.
  intros Hle.
  destruct (Z.ltb_spec (getMonth now - getMonth (newDate birthDate)) 0) as [Hm | Hm];
    simpl.
  - repeat split; intros; lia.
  - destruct (Z.eqb_spec (getMonth now - getMonth (newDate birthDate)) 0) as [He | He];
      simpl.
    + destruct (Z.ltb_spec (getDate now) (getDate (newDate birthDate))) as [Hd | Hd].
      * repeat split; intros; lia.
      * repeat split; intros; lia.
    + repeat split; intros; lia.
Qed.

(** C8 at the failing input.  A client born on 2 November 1990, seen at
    noon of 1 November 2026 in Eastern Standard Time, with a [Date] that
    parses the birth date as ECMAScript does.  The string [1990-11-02] is
    midnight UTC, which the local getters read as 1 November 1990; today's
    local fields are 1 November 2026.  The birthday, 2 November, has not
    been reached, so the age is [2026 - 1990 - 1 = 35]; [calculateAge]
    returns 36. *)
Theorem calculateAge_day_before_birthday (newDate : string -> JsDate) :
  EsDate.newDate EsDate.eastern_standard_time "1990-11-02"
  = Some (newDate "1990-11-02"%string) ->
  let today :=
    EsDate.local_fields EsDate.eastern_standard_time (EsDate.UTC 2026 11 1 17 0) in
  today = mkDate 2026 10 1
  /\ newDate "1990-11-02"%string = mkDate 1990 10 1
  /\ birthday_not_reached today (mkDate 1990 10 2)
  /\ ContextBuilder.calculateAge today newDate "1990-11-02" = 36%Z
  /\ ContextBuilder.calculateAge today newDate "1990-11-02" <> (2026 - 1990 - 1)%Z.
Proof.
  intros Hparse. cbv zeta.
  assert (Ebirth : newDate "1990-11-02"%string = mkDate 1990 10 1).
  { assert (E : EsDate.newDate EsDate.eastern_standard_time "1990-11-02"
                = Some (mkDate 1990 10 1)) by (vm_compute; reflexivity).
    rewrite E in Hparse. now injection Hparse as <-. }
  assert (Etoday : EsDate.local_fields EsDate.eastern_standard_time
                     (EsDate.UTC 2026 11 1 17 0) = mkDate 2026 10 1)
    by (vm_compute; reflexivity).
  rewrite Etoday.
  assert (Eage : ContextBuilder.calculateAge (mkDate 2026 10 1) newDate "1990-11-02"
                 = 36%Z).
  { unfold ContextBuilder.calculateAge. rewrite Ebirth. reflexivity. }
  split; [reflexivity |]. split; [exact Ebirth |].
  split; [unfold birthday_not_reached; simpl; lia |].
  split; [exact Eage |]. rewrite Eage. discriminate.
Qed.

Lemma calculateAge_day_before_birthday_witness :
  EsDate.newDate EsDate.eastern_standard_time "1990-11-02"
  = Some ((fun _ : string => mkDate 1990 10 1) "1990-11-02"%string)
  /\ ContextBuilder.calculateAge (mkDate 2026 10 1) (fun _ => mkDate 1990 10 1)
       "1990-11-02" = 36%Z.
Proof.
  assert (H : EsDate.newDate EsDate.eastern_standard_time "1990-11-02"
              = Some ((fun _ : string => mkDate 1990 10 1) "1990-11-02"%string))
    by (vm_compute; reflexivity).
  split; [exact H |].
  destruct (calculateAge_day_before_birthday (fun _ => mkDate 1990 10 1) H)
    as [Etoday [_ [_ [Eage _]]]].
  rewrite Etoday in Eage. exact Eage.
Defined.

(* ===================================================================== *)
(** ** The Client Context Builder *)
(* ===================================================================== *)

Lemma nor_Fin_zero (x : R) : nor (Fin x) (Fin 0) = Fin x.
Proof.
  unfold nor, truthy, Reqb. destruct (Req_dec_T x 0) as [-> | Hx]; reflexivity.
Qed.

Lemma or_default_amount (m : option R) :
  or_default (ContextBuilder.opt_Fin m) (Fin 0) = Fin (amount_or_zero m).
Proof. destruct m; simpl; [apply nor_Fin_zero | reflexivity]. Qed.

Lemma sum_amounts_spec (l : list (option R)) :
  Sql.sum_amounts l = sumR (map amount_or_zero l).
Proof.
  unfold Sql.sum_amounts, sumR.
  induction l as [| [x |] l IH]; simpl; rewrite ?IH; lra.
Qed.

(** The [reduce] over nullable amounts, followed by [|| 0]. *)
Lemma reduce_amounts {A : Type} (amount : A -> option R) (rows : option (list A)) :
  or_default
    (option_map
       (fun l =>
          fold_left
            (fun (sum : number) row =>
               nadd sum (or_default (ContextBuilder.opt_Fin (amount row)) (Fin 0)))
            l (Fin 0))
       rows)
    (Fin 0)
  = Fin (Sql.sum_amounts (map amount (or_empty rows))).
Proof.
  destruct rows as [l |]; simpl; [| reflexivity].
  rewrite (reduce_nadd
             (fun row => or_default (ContextBuilder.opt_Fin (amount row)) (Fin 0))).
  rewrite (map_ext _ (fun row => Fin (amount_or_zero (amount row))))
    by (intros; apply or_default_amount).
  rewrite <- (map_map (fun row => amount_or_zero (amount row)) Fin).
  rewrite nsum_Fin, nor_Fin_zero, sum_amounts_spec, map_map. reflexivity.
Qed.

(** What a successful build returns, field by field. *)
Lemma buildClientContext_found (now : JsDate) (newDate : string -> JsDate)
    (clientId : string) (supabase : Supabase) (row : ClientRow) :
  select_client_by_id supabase clientId = Some row ->
  exists ctx,
    ContextBuilder.buildClientContext now newDate clientId supabase = Ok ctx
    /\ context_assets ctx = or_empty (assets row)
    /\ total_assets (portfolio ctx)
       = Calculations.totalCurrentValue
           (Calculations.calculatePortfolioTotals (or_empty (assets row)))
    /\ total_liabilities (portfolio ctx) = Fin 0
    /\ net_worth (portfolio ctx)
       = Calculations.totalCurrentValue
           (Calculations.calculatePortfolioTotals (or_empty (assets row)))
    /\ monthly_cash_flow (portfolio ctx)
       = Fin (Sql.sum_amounts
                (map IncomeSource.monthly_amount (or_empty (income_sources row)))
              - Sql.sum_amounts
                  (map Expense.monthly_amount (or_empty (expenses row)))).
Proof.
  intros Hsel. unfold ContextBuilder.buildClientContext. rewrite Hsel.
  eexists. split; [reflexivity |]. cbn [context_assets portfolio total_assets
    total_liabilities net_worth monthly_cash_flow].
  repeat (split; [reflexivity |]).
  rewrite (reduce_amounts IncomeSource.monthly_amount).
  rewrite (reduce_amounts Expense.monthly_amount).
  reflexivity.
Qed.

Lemma buildClientContext_not_found (now : JsDate) (newDate : string -> JsDate)
    (clientId : string) (supabase : Supabase) :
  select_client_by_id supabase clientId = None ->
  ContextBuilder.buildClientContext now newDate clientId supabase
  = Throw (mkError "Client not found").
Proof.
  intros Hsel. unfold ContextBuilder.buildClientContext. now rewrite Hsel.
Qed.

Lemma buildClientContext_Ok_inv (now : JsDate) (newDate : string -> JsDate)
    (clientId : string) (supabase : Supabase) (ctx : ClientContext) :
  ContextBuilder.buildClientContext now newDate clientId supabase = Ok ctx ->
  exists row, select_client_by_id supabase clientId = Some row.
Proof.
  unfold ContextBuilder.buildClientContext.
  destruct (select_client_by_id supabase clientId) as [row |]; intros H.
  - now exists row.
  - discriminate.
Qed.

(** C10.  Every context that was built comes from the row of the
    requested client that the query returned; its [total_liabilities] is 0
    and its [net_worth] equals its [total_assets], which is the
    aggregator's [totalCurrentValue] of that row's assets, the sum of
    their current values: no liability is subtracted. *)
Theorem net_worth_ignores_liabilities (now : JsDate) (newDate : string -> JsDate)
    (clientId : string) (supabase : Supabase) (ctx : ClientContext) :
  ContextBuilder.buildClientContext now newDate clientId supabase = Ok ctx ->
  exists row : ClientRow,
    select_client_by_id supabase clientId = Some row
    /\ context_assets ctx = or_empty (assets row)
    /\ total_liabilities (portfolio ctx) = Fin 0
    /\ net_worth (portfolio ctx) = total_assets (portfolio ctx)
    /\ total_assets (portfolio ctx)
       = Calculations.totalCurrentValue
           (Calculations.calculatePortfolioTotals (or_empty (assets row)))
    /\ total_assets (portfolio ctx)
       = Fin (sumR (map current_value (or_empty (assets row)))).
Proof.
  intros Hbuild.
  destruct (buildClientContext_Ok_inv _ _ _ _ _ Hbuild) as [row Hsel].
  destruct (buildClientContext_found now newDate _ _ _ Hsel)
    as [ctx' [Hbuild' [Ha [Hta [Htl [Hnw _]]]]]].
  rewrite Hbuild in Hbuild'. injection Hbuild' as <-.
  exists row. split; [exact Hsel |]. split; [exact Ha |].
  split; [exact Htl |]. split; [now rewrite Hnw, Hta |].
  split; [exact Hta |]. rewrite Hta. apply totalCurrentValue_sum.
Qed.

Lemma advisor1_selects_client :
  select_client_by_id advisor1_session "client-1" = Some retired_client.
Proof. reflexivity. Qed.

Lemma net_worth_ignores_liabilities_witness :
  exists ctx,
    ContextBuilder.buildClientContext (mkDate 2026 10 1) (fun _ => mkDate 1990 11 24)
      "client-1" advisor1_session = Ok ctx
    /\ context_assets ctx = sample_assets
    /\ total_liabilities (portfolio ctx) = Fin 0
    /\ net_worth (portfolio ctx) = total_assets (portfolio ctx)
    /\ total_assets (portfolio ctx) = Fin 500.
Proof.
  eexists. split; [reflexivity |].
  destruct (net_worth_ignores_liabilities (mkDate 2026 10 1)
              (fun _ => mkDate 1990 11 24) "client-1" advisor1_session _ eq_refl)
    as [row [Hsel [Ha [Htl [Hnw [_ Hta]]]]]].
  rewrite advisor1_selects_client in Hsel. injection Hsel as <-.
  split; [exact Ha |]. split; [exact Htl |]. split; [exact Hnw |].
  rewrite Hta. unfold sumR. simpl. f_equal. lra.
Defined.

(** C4 at the failing input.  The client's only income source is inactive
    and there are no expenses: the net monthly cash flow of active income
    is 0, which is what the SQL function [calculate_monthly_cash_flow]
    returns, but the Context Builder reports 1000. *)
Theorem monthly_cash_flow_counts_inactive_income
    (now : JsDate) (newDate : string -> JsDate) :
  Sql.calculate_monthly_cash_flow
    (or_empty (income_sources retired_client)) (or_empty (expenses retired_client))
  = (0, 0, 0)
  /\ exists ctx,
       ContextBuilder.buildClientContext now newDate "client-1" advisor1_session
       = Ok ctx
       /\ monthly_cash_flow (portfolio ctx) = Fin 1000
       /\ monthly_cash_flow (portfolio ctx) <> Fin 0.
Proof.
  split.
  - unfold Sql.calculate_monthly_cash_flow. simpl. do 2 f_equal. lra.
  - destruct (buildClientContext_found now newDate _ _ _ advisor1_selects_client)
      as [ctx [Hbuild [_ [_ [_ [_ Hflow]]]]]].
    exists ctx. split; [exact Hbuild |].
    assert (H : monthly_cash_flow (portfolio ctx) = Fin 1000).
    { rewrite Hflow. simpl. f_equal. lra. }
    split; [exact H |]. rewrite H. intros E. injection E as E. lra.
Qed.

(** What the Context Builder computes instead: every income source counts,
    active or not. *)
Lemma monthly_cash_flow_sums_all_income (now : JsDate) (newDate : string -> JsDate)
    (clientId : string) (supabase : Supabase) (row : ClientRow) (ctx : ClientContext) :
  select_client_by_id supabase clientId = Some row ->
  ContextBuilder.buildClientContext now newDate clientId supabase = Ok ctx ->
  monthly_cash_flow (portfolio ctx)
  = Fin (sumR (map (fun i => amount_or_zero (IncomeSource.monthly_amount i))
                   (or_empty (income_sources row)))
         - sumR (map (fun e => amount_or_zero (Expense.monthly_amount e))
                     (or_empty (expenses row)))).
Proof.
  intros Hsel Hbuild.
  destruct (buildClientContext_found now newDate _ _ _ Hsel)
    as [ctx' [Hbuild' [_ [_ [_ [_ Hflow]]]]]].
  rewrite Hbuild in Hbuild'. injection Hbuild' as <-.
  rewrite Hflow, !sum_amounts_spec, !map_map. reflexivity.
Qed.

(* ===================================================================== *)
(** ** The chat route *)
(* ===================================================================== *)

Lemma opt_string_eqb_true (a b : option string) :
  opt_string_eqb a b = true -> a = b.
Proof.
  destruct a as [x |], b as [y |]; simpl; try discriminate.
  intros H. apply String.eqb_eq in H. now subst.
Qed.

(** Under the policy of the [clients] table, a client that the requesting
    advisor does not own is not returned. *)
Lemma not_owned_not_selected (supabase : Supabase) (clientId : string) :
  not_owned supabase clientId -> select_client_by_id supabase clientId = None.
Proof.
  intros Hno. unfold select_client_by_id, rls_visible.
  assert (Hnil :
    filter (fun row => String.eqb (id row) clientId)
      (filter (fun row => opt_string_eqb (advisor_id row) (auth_user supabase))
              (clients supabase)) = []).
  { destruct (filter _ _) as [| row rows] eqn:E; [reflexivity | exfalso].
    assert (Hin : In row (row :: rows)) by now left.
    rewrite <- E in Hin. apply filter_In in Hin. destruct Hin as [Hin Hid].
    apply filter_In in Hin. destruct Hin as [Hin Hadv].
    apply String.eqb_eq in Hid. apply opt_string_eqb_true in Hadv.
    exact (Hno row Hin Hid Hadv). }
  now rewrite Hnil.
Qed.

(** C5.  When the fetch of the client returns no row, which is the case
    in particular when the client id exists only under a different
    advisor, the Context Builder throws "Client not found", and a chat
    request about that client never reaches the language model (it is
    answered with an error status). *)
Theorem missing_client_no_model_call
    (now : JsDate) (newDate : string -> JsDate)
    (openai : list ChatMessage -> option (option string))
    (randomUUID FINANCIAL_ADVISOR_SYSTEM : string)
    (supabase : Supabase) (clientId : string) :
  select_client_by_id supabase clientId = None \/ not_owned supabase clientId ->
  select_client_by_id supabase clientId = None
  /\ ContextBuilder.buildClientContext now newDate clientId supabase
     = Throw (mkError "Client not found")
  /\ forall request : result ChatBody,
       asks_about request clientId ->
       let outcome :=
         ChatRoute.POST now newDate openai randomUUID FINANCIAL_ADVISOR_SYSTEM
                        supabase request in
       Forall (fun ev => is_openai_call ev = false) (fst outcome)
       /\ exists r, snd outcome = Ok r /\ success r = false.
Proof.
  intros H.
  assert (Hsel : select_client_by_id supabase clientId = None).
  { destruct H as [H | H]; [exact H | now apply not_owned_not_selected]. }
  pose proof (buildClientContext_not_found now newDate _ _ Hsel) as Hthrow.
  split; [exact Hsel |]. split; [exact Hthrow |].
  intros request Hreq. cbv zeta. unfold ChatRoute.POST.
  destruct (auth_user supabase) as [user |].
  - destruct request as [body | e]; simpl.
    + specialize (Hreq body eq_refl). rewrite Hreq.
      destruct (nonempty (body_message body)) as [message |];
        destruct (nonempty (Some clientId)) as [cid |] eqn:Hcid; simpl.
      * assert (cid = clientId) as ->.
        { destruct clientId; simpl in Hcid; [discriminate | now injection Hcid]. }
        rewrite Hthrow. simpl. split.
        -- repeat constructor.
        -- eexists. split; reflexivity.
      * split; [constructor | eexists; split; reflexivity].
      * split; [constructor | eexists; split; reflexivity].
      * split; [constructor | eexists; split; reflexivity].
    + split; [repeat constructor | eexists; split; reflexivity].
  - simpl. split; [constructor | eexists; split; reflexivity].
Qed.

Lemma missing_client_no_model_call_witness :
  not_owned advisor2_session "client-1"
  /\ In retired_client (clients advisor2_session)
  /\ ContextBuilder.buildClientContext (mkDate 2026 10 1) (fun _ => mkDate 1990 11 24)
       "client-1" advisor2_session
     = Throw (mkError "Client not found").
Proof.
  assert (H : not_owned advisor2_session "client-1").
  { intros row [<- | []] _. simpl. discriminate. }
  split; [exact H |]. split; [now left |].
  exact (proj1 (proj2 (missing_client_no_model_call
                         (mkDate 2026 10 1) (fun _ => mkDate 1990 11 24)
                         (fun _ => Some (Some "ok"%string)) "uuid" "system"
                         advisor2_session "client-1" (or_intror H)))).
Defined.

(** A chat request of the owning advisor does reach the language model. *)
Lemma owned_client_reaches_model :
  let outcome :=
    ChatRoute.POST (mkDate 2026 10 1) (fun _ => mkDate 1990 11 24)
      (fun _ => Some (Some "Hold."%string)) "uuid" "system" advisor1_session
      (Ok (mkChatBody (Some "Advice?"%string) (Some "client-1"%string) None)) in
  existsb is_openai_call (fst outcome) = true
  /\ exists r, snd outcome = Ok r /\ status r = 200%nat
       /\ data r = Some (mkChatData "Hold." "uuid").
Proof.
  cbv zeta. unfold ChatRoute.POST.
  destruct (buildClientContext_found (mkDate 2026 10 1) (fun _ => mkDate 1990 11 24)
              _ _ _ advisor1_selects_client) as [ctx [Hbuild _]].
  cbn [auth_user advisor1_session lift bind body_message body_clientId
       body_sessionId nonempty].
  rewrite Hbuild. cbn. split; [reflexivity |].
  eexists. repeat split.
Qed.

(* ===================================================================== *)
(** ** Further properties of the compounding functions *)
(* ===================================================================== *)

(** X3.  [calculateGrowthRate] has no guard against a zero current value:
    for [years > 0] it returns +Infinity when the future value is
    positive and NaN when the future value is 0 as well. *)
Theorem calculateGrowthRate_zero_current_value (futureValue years : R) :
  0 < years ->
  (0 < futureValue ->
   Utils.calculateGrowthRate 0 futureValue years = PosInf)
  /\ Utils.calculateGrowthRate 0 0 years = NaN.
Proof.
  intros Hy. unfold Utils.calculateGrowthRate.
  rewrite (ndiv_Fin 1 years) by lra. split.
  - intros Hf. unfold ndiv. rewrite Reqb_eq by reflexivity.
    rewrite Rsign_pos by assumption. simpl.
    rewrite Reqb_neq by (apply Rgt_not_eq; apply Rdiv_lt_0_compat; lra).
    rewrite Rltb_lt by (apply Rdiv_lt_0_compat; lra). reflexivity.
  - unfold ndiv. rewrite Reqb_eq by reflexivity. rewrite Rsign_zero. simpl.
    rewrite Reqb_neq by (apply Rgt_not_eq; apply Rdiv_lt_0_compat; lra).
    reflexivity.
Qed.

Lemma calculateGrowthRate_zero_current_value_witness :
  0 < 5 /\ 0 < 100
  /\ Utils.calculateGrowthRate 0 100 5 = PosInf
  /\ Utils.calculateGrowthRate 0 0 5 = NaN.
Proof.
  split; [lra |]. split; [lra |]. split.
  - apply (proj1 (calculateGrowthRate_zero_current_value 100 5 ltac:(lra))). lra.
  - apply (proj2 (calculateGrowthRate_zero_current_value 100 5 ltac:(lra))).
Defined.

(* ===================================================================== *)
(** ** Further properties of the portfolio aggregator *)
(* ===================================================================== *)

Lemma Rpower_ge_1 (x y : R) : 1 <= x -> 0 <= y -> 1 <= Rpower x y.
Proof.
  intros Hx Hy. unfold Rpower.
  assert (Hln : 0 <= ln x).
  { rewrite <- ln_1. destruct Hx as [Hx | <-]; [left; apply ln_increasing; lra | right; reflexivity]. }
  assert (Hprod : 0 <= y * ln x) by (apply Rmult_le_pos; assumption).
  rewrite <- exp_0. destruct Hprod as [Hp | <-].
  - left. now apply exp_increasing.
  - right. reflexivity.
Qed.

(** The future value of a projectable asset is its value times its growth
    factor, and the factor is not negative. *)
Lemma projectable_future_value (a : Asset) :
  projectable a ->
  Calculations.calculateFutureValue
    (current_value a) (growth_rate a) (projection_years a)
  = Fin (current_value a * growth_factor a)
  /\ 0 <= growth_factor a
  /\ (0 <= growth_rate a -> 1 <= growth_factor a).
Proof.
  intros [Hv [Hg Hy]]. unfold growth_factor.
  destruct (Req_dec_T (growth_rate a) (-100)) as [E | NE].
  - split; [| split; [lra | intros; lra]].
    unfold Calculations.calculateFutureValue. rewrite ndiv_Fin by lra. simpl nadd.
    replace (1 + growth_rate a / 100) with 0 by (rewrite E; lra).
    unfold Math_pow. rewrite Reqb_neq by lra. rewrite Rsign_zero.
    rewrite Rltb_lt by assumption. reflexivity.
  - split; [apply Calculations_calculateFutureValue_pos; lra |].
    split; [left; apply exp_pos |].
    intros Hpos. apply Rpower_ge_1; lra.
Qed.

Lemma projectable_total_future_value (assets : list Asset) :
  Forall projectable assets ->
  Calculations.totalFutureValue (Calculations.calculatePortfolioTotals assets)
  = Fin (sumR (map (fun a => current_value a * growth_factor a) assets))
  /\ 0 <= sumR (map current_value assets)
  /\ 0 <= sumR (map (fun a => current_value a * growth_factor a) assets)
  /\ (Forall (fun a => 0 <= growth_rate a) assets ->
      sumR (map current_value assets)
      <= sumR (map (fun a => current_value a * growth_factor a) assets)).
Proof.
  intros HF. rewrite totalFutureValue_sum.
  induction HF as [| a l Ha HF IH]; cbn [map]; rewrite ?nsum_cons, ?sumR_cons.
  - split; [reflexivity |]. unfold sumR. simpl.
    split; [lra |]. split; [lra |]. intros _. lra.
  - destruct IH as [IH1 [IH2 [IH3 IH4]]].
    destruct (projectable_future_value a Ha) as [E [Hk Hk1]].
    pose proof Ha as [Hv _].
    assert (Hprod : 0 <= current_value a * growth_factor a)
      by (apply Rmult_le_pos; assumption).
    rewrite IH1, E.
    split; [reflexivity |]. split; [lra |]. split; [lra |].
    intros Hgrow. inversion Hgrow as [| ? ? Hga Hgl]; subst.
    specialize (IH4 Hgl). specialize (Hk1 Hga).
    assert (current_value a <= current_value a * growth_factor a) by nra.
    lra.
Qed.

(** The overall rate computed from a positive current total [c] and a
    future total [f >= 0]. *)
Lemma annualized_rate_bounds (c f : R) :
  0 < c -> 0 <= f ->
  exists o : R,
    nmul (nsub (Math_pow (ndiv (Fin f) (Fin c)) (ndiv (Fin 1) (Fin 10))) (Fin 1))
         (Fin 100) = Fin o
    /\ -100 <= o /\ (c <= f -> 0 <= o).
Proof.
  intros Hc Hf. rewrite (ndiv_Fin 1 10), ndiv_Fin by lra.
  destruct Hf as [Hf | <-].
  - rewrite Math_pow_pos by (apply Rdiv_lt_0_compat; assumption).
    eexists. split; [reflexivity |].
    assert (Hp : 0 < Rpower (f / c) (1 / 10)) by apply exp_pos.
    split; [lra |]. intros Hle.
    assert (1 <= f / c).
    { apply (Rmult_le_reg_r c); [assumption |].
      replace (f / c * c) with f by (field; lra). lra. }
    assert (1 <= Rpower (f / c) (1 / 10)) by (apply Rpower_ge_1; lra).
    lra.
  - replace (0 / c) with 0 by (field; lra).
    unfold Math_pow. rewrite Reqb_neq by lra. rewrite Rsign_zero.
    rewrite Rltb_lt by lra. simpl. eexists. split; [reflexivity |].
    split; [lra |]. intros Hle. lra.
Qed.

Lemma within_schema_projectable (a : Asset) : within_schema a -> projectable a.
Proof. unfold within_schema, projectable. intros [H1 [H2 H3]]. lra. Qed.

Lemma Rpower_2_50 : Rpower 2 50 = 2 ^ 50.
Proof.
  replace 50 with (INR 50) by (simpl; lra).
  apply Rpower_pow. lra.
Qed.

(** Over at most 50 years a factor of at most 2 a year multiplies a value
    by at most 2^50. *)
Lemma Rpower_le_2_50 (x y : R) :
  0 < x <= 2 -> 0 <= y <= 50 -> Rpower x y <= 2 ^ 50.
Proof.
  intros [Hx0 Hx2] [Hy0 Hy50]. rewrite <- Rpower_2_50.
  destruct (Rle_lt_dec x 1) as [Hle | Hgt].
  - apply Rle_trans with 1.
    + unfold Rpower. rewrite <- exp_0.
      assert (Hln : ln x <= 0).
      { rewrite <- ln_1. destruct Hle as [Hlt | ->]; [| lra].
        left. now apply ln_increasing. }
      assert (Hprod : y * ln x <= 0) by nra.
      destruct Hprod as [Hlt | ->]; [left; now apply exp_increasing | lra].
    + apply Rpower_ge_1; lra.
  - apply Rle_trans with (Rpower 2 y).
    + apply Rle_Rpower_l; lra.
    + apply Rle_Rpower; lra.
Qed.

Lemma growth_factor_le (a : Asset) : within_schema a -> growth_factor a <= 2 ^ 50.
Proof.
  intros [_ [[Hg1 Hg2] Hy]]. unfold growth_factor.
  destruct (Req_dec_T (growth_rate a) (-100)) as [E | NE].
  - apply pow_le. lra.
  - apply Rpower_le_2_50; lra.
Qed.

(** The sums over assets within the schema's ranges. *)
Lemma within_schema_sums (assets : list Asset) :
  Forall within_schema assets ->
  sumR (map current_value assets) <= INR (List.length assets) * 10 ^ 10
  /\ sumR (map (fun a => current_value a * growth_factor a) assets)
     <= 2 ^ 50 * sumR (map current_value assets).
Proof.
  intros HF. induction HF as [| a l Ha HF IH].
  - unfold sumR. simpl. lra.
  - cbn [map List.length]. rewrite !sumR_cons, S_INR.
    destruct IH as [IH1 IH2].
    pose proof (growth_factor_le a Ha) as Hk.
    destruct Ha as [[Hv0 Hv1] _].
    split; [lra |].
    assert (current_value a * growth_factor a <= 2 ^ 50 * current_value a) by nra.
    lra.
Qed.

Lemma Rpower_2_50_tenth : Rpower (2 ^ 50) (1 / 10) = 32.
Proof.
  rewrite <- Rpower_2_50, Rpower_mult.
  replace (50 * (1 / 10)) with (INR 5) by (simpl; lra).
  rewrite Rpower_pow by lra. lra.
Qed.

(** The overall rate when the future total is at most 2^50 times the
    current total. *)
Lemma annualized_rate_le (c f : R) :
  0 < c -> 0 <= f <= 2 ^ 50 * c ->
  exists o : R,
    nmul (nsub (Math_pow (ndiv (Fin f) (Fin c)) (ndiv (Fin 1) (Fin 10))) (Fin 1))
         (Fin 100) = Fin o
    /\ -100 <= o <= 3100 /\ (c <= f -> 0 <= o).
Proof.
  intros Hc [Hf0 Hf1].
  destruct (annualized_rate_bounds c f Hc Hf0) as [o [Ho [Hlo Hpos]]].
  exists o. split; [exact Ho |]. split; [split; [exact Hlo |] | exact Hpos].
  rewrite (ndiv_Fin 1 10), ndiv_Fin in Ho by lra.
  destruct Hf0 as [Hf0 | <-].
  - rewrite Math_pow_pos in Ho by (apply Rdiv_lt_0_compat; assumption).
    simpl in Ho. injection Ho as <-.
    assert (Hratio : f / c <= 2 ^ 50).
    { apply (Rmult_le_reg_r c); [assumption |].
      replace (f / c * c) with f by (field; lra). lra. }
    assert (Hroot : Rpower (f / c) (1 / 10) <= 32).
    { rewrite <- Rpower_2_50_tenth. apply Rle_Rpower_l; [lra |].
      split; [apply Rdiv_lt_0_compat; assumption | exact Hratio]. }
    lra.
  - replace (0 / c) with 0 in Ho by (field; lra).
    unfold Math_pow in Ho. rewrite Reqb_neq in Ho by lra.
    rewrite Rsign_zero in Ho. rewrite Rltb_lt in Ho by lra.
    simpl in Ho. injection Ho as <-. lra.
Qed.

(** X4.  For assets within the ranges of the asset schema and of the
    [assets] table, in an array of fewer than 2^32 elements, the four
    results of the aggregator are finite numbers, never NaN or an
    infinity, and stay far inside the binary64 range: the current total
    lies between 0 and 10^20, the future total between 0 and 10^36, the
    projected growth is their difference, and the overall growth rate
    lies between -100 and 3200 percent. *)
Theorem calculatePortfolioTotals_finite (assets : list Asset) :
  Forall within_schema assets ->
  (Z.of_nat (List.length assets) < 2 ^ 32)%Z ->
  let t := Calculations.calculatePortfolioTotals assets in
  exists c f o : R,
    Calculations.totalCurrentValue t = Fin c
    /\ Calculations.totalFutureValue t = Fin f
    /\ Calculations.totalProjectedGrowth t = Fin (f - c)
    /\ Calculations.overallGrowthRate t = Fin o
    /\ 0 <= c <= 10 ^ 20 /\ 0 <= f <= 10 ^ 36 /\ -100 <= o <= 3200.
Proof.
  intros HW Hlen. cbv zeta.
  assert (HF : Forall projectable assets)
    by (eapply Forall_impl; [apply within_schema_projectable | exact HW]).
  destruct (projectable_total_future_value assets HF) as [Ef [Hc [Hf _]]].
  destruct (within_schema_sums assets HW) as [Hcn Hfc].
  assert (Hn : INR (List.length assets) <= 2 ^ 32).
  { rewrite INR_IZR_INZ. replace (2 ^ 32) with (IZR (2 ^ 32)) by (simpl; lra).
    apply IZR_le. lia. }
  set (c := sumR (map current_value assets)) in *.
  set (f := sumR (map (fun a => current_value a * growth_factor a) assets)) in *.
  assert (Hc20 : c <= 10 ^ 20).
  { apply Rle_trans with (2 ^ 32 * 10 ^ 10); [nra |].
    replace (10 ^ 20) with (10 ^ 10 * 10 ^ 10) by (simpl; lra).
    apply Rmult_le_compat_r; [apply pow_le; lra |]. simpl. lra. }
  assert (Hf36 : f <= 10 ^ 36).
  { apply Rle_trans with (2 ^ 50 * 10 ^ 20); [nra |].
    replace (10 ^ 36) with (10 ^ 16 * 10 ^ 20) by (simpl; lra).
    apply Rmult_le_compat_r; [apply pow_le; lra |]. simpl. lra. }
  exists c, f.
  pose proof (totalCurrentValue_sum assets) as Ec. fold c in Ec.
  pose proof (overallGrowthRate_unfold assets) as Eo. cbv zeta in Eo.
  rewrite Ec, Ef, ngt_Fin in Eo.
  assert (Eg : Calculations.totalProjectedGrowth (Calculations.calculatePortfolioTotals assets)
               = Fin (f - c)).
  { change (Calculations.totalProjectedGrowth (Calculations.calculatePortfolioTotals assets))
      with (nsub (Calculations.totalFutureValue (Calculations.calculatePortfolioTotals assets))
                 (Calculations.totalCurrentValue (Calculations.calculatePortfolioTotals assets))).
    rewrite Ec, Ef. reflexivity. }
  destruct (Rlt_dec 0 c) as [Hpos | Hnpos].
  - rewrite Rltb_lt in Eo by assumption.
    destruct (annualized_rate_le c f Hpos (conj Hf Hfc)) as [o [Ho [[Hlo Hhi] _]]].
    exists o. rewrite Eo, Ho. repeat split; try assumption; lra.
  - rewrite Rltb_ge in Eo by lra. exists 0. rewrite Eo.
    repeat split; try assumption; lra.
Qed.

Lemma sample_assets_within_schema : Forall within_schema sample_assets.
Proof.
  assert (H : 300 <= 10 ^ 10).
  { apply Rle_trans with (10 ^ 3); [simpl; lra |]. apply Rle_pow; [lra | lia]. }
  repeat constructor; simpl current_value; simpl growth_rate;
    simpl projection_years; lra.
Qed.

Lemma calculatePortfolioTotals_finite_witness :
  Forall within_schema sample_assets
  /\ (Z.of_nat (List.length sample_assets) < 2 ^ 32)%Z
  /\ exists c f o : R,
       Calculations.totalCurrentValue (Calculations.calculatePortfolioTotals sample_assets)
       = Fin c
       /\ Calculations.totalFutureValue (Calculations.calculatePortfolioTotals sample_assets)
          = Fin f
       /\ Calculations.totalProjectedGrowth (Calculations.calculatePortfolioTotals sample_assets)
          = Fin (f - c)
       /\ Calculations.overallGrowthRate (Calculations.calculatePortfolioTotals sample_assets)
          = Fin o
       /\ 0 <= c <= 10 ^ 20 /\ 0 <= f <= 10 ^ 36 /\ -100 <= o <= 3200.
Proof.
  assert (Hlen : (Z.of_nat (List.length sample_assets) < 2 ^ 32)%Z) by (simpl; lia).
  split; [exact sample_assets_within_schema |]. split; [exact Hlen |].
  exact (calculatePortfolioTotals_finite sample_assets sample_assets_within_schema Hlen).
Defined.

(** X5.  When, in addition, no growth rate is negative, nothing shrinks:
    the future total is at least the current total, so the projected
    growth and the overall growth rate are not negative. *)
Theorem calculatePortfolioTotals_never_shrinks (assets : list Asset) :
  Forall within_schema assets ->
  (Z.of_nat (List.length assets) < 2 ^ 32)%Z ->
  Forall (fun a => 0 <= growth_rate a) assets ->
  let t := Calculations.calculatePortfolioTotals assets in
  exists c f o : R,
    Calculations.totalCurrentValue t = Fin c
    /\ Calculations.totalFutureValue t = Fin f
    /\ Calculations.totalProjectedGrowth t = Fin (f - c)
    /\ Calculations.overallGrowthRate t = Fin o
    /\ c <= f /\ 0 <= f - c /\ 0 <= o.
Proof.
  intros HW _ HG. cbv zeta.
  assert (HF : Forall projectable assets)
    by (eapply Forall_impl; [apply within_schema_projectable | exact HW]).
  destruct (projectable_total_future_value assets HF) as [Ef [Hc [Hf Hle]]].
  specialize (Hle HG).
  exists (sumR (map current_value assets)),
         (sumR (map (fun a => current_value a * growth_factor a) assets)).
  pose proof (totalCurrentValue_sum assets) as Ec.
  pose proof (overallGrowthRate_unfold assets) as Eo. cbv zeta in Eo.
  rewrite Ec, Ef, ngt_Fin in Eo.
  assert (Eg : Calculations.totalProjectedGrowth (Calculations.calculatePortfolioTotals assets)
               = Fin (sumR (map (fun a => current_value a * growth_factor a) assets)
                      - sumR (map current_value assets))).
  { change (Calculations.totalProjectedGrowth (Calculations.calculatePortfolioTotals assets))
      with (nsub (Calculations.totalFutureValue (Calculations.calculatePortfolioTotals assets))
                 (Calculations.totalCurrentValue (Calculations.calculatePortfolioTotals assets))).
    rewrite Ec, Ef. reflexivity. }
  destruct (Rlt_dec 0 (sumR (map current_value assets))) as [Hpos | Hnpos].
  - rewrite Rltb_lt in Eo by assumption.
    destruct (annualized_rate_bounds _ _ Hpos Hf) as [o [Ho [_ Hhi]]].
    specialize (Hhi Hle).
    exists o. rewrite Eo, Ho. repeat split; try assumption; lra.
  - rewrite Rltb_ge in Eo by lra. exists 0. rewrite Eo.
    repeat split; try assumption; lra.
Qed.

Lemma calculatePortfolioTotals_never_shrinks_witness :
  Forall within_schema sample_assets
  /\ (Z.of_nat (List.length sample_assets) < 2 ^ 32)%Z
  /\ Forall (fun a => 0 <= growth_rate a) sample_assets
  /\ exists c f o : R,
       Calculations.totalCurrentValue (Calculations.calculatePortfolioTotals sample_assets)
       = Fin c
       /\ Calculations.totalFutureValue (Calculations.calculatePortfolioTotals sample_assets)
          = Fin f
       /\ Calculations.totalProjectedGrowth (Calculations.calculatePortfolioTotals sample_assets)
          = Fin (f - c)
       /\ Calculations.overallGrowthRate (Calculations.calculatePortfolioTotals sample_assets)
          = Fin o
       /\ c <= f /\ 0 <= f - c /\ 0 <= o.
Proof.
  assert (Hlen : (Z.of_nat (List.length sample_assets) < 2 ^ 32)%Z) by (simpl; lia).
  assert (HG : Forall (fun a => 0 <= growth_rate a) sample_assets)
    by (repeat constructor; simpl; lra).
  split; [exact sample_assets_within_schema |]. split; [exact Hlen |].
  split; [exact HG |].
  exact (calculatePortfolioTotals_never_shrinks sample_assets
           sample_assets_within_schema Hlen HG).
Defined.

(* ===================================================================== *)
(** ** Further properties of the chat route *)
(* ===================================================================== *)

(** X8.  The chat route never throws and ends in one of four ways: 401
    for an unauthenticated request and 400 for a missing message or client
    id, both before anything is sent or stored; 500, with nothing written
    to the chat history; or 200, after exactly one completion request
    followed by one insertion of two history rows. *)
Theorem chat_POST_outcomes
    (now : JsDate) (newDate : string -> JsDate)
    (openai : list ChatMessage -> option (option string))
    (randomUUID FINANCIAL_ADVISOR_SYSTEM : string)
    (supabase : Supabase) (request : result ChatBody) :
  let outcome :=
    ChatRoute.POST now newDate openai randomUUID FINANCIAL_ADVISOR_SYSTEM
                   supabase request in
  exists resp,
    snd outcome = Ok resp
    /\ ((status resp = 401%nat /\ auth_user supabase = None /\ fst outcome = [])
        \/ (status resp = 400%nat /\ fst outcome = [])
        \/ (status resp = 500%nat
            /\ forall rows, ~ In (ChatHistoryInsert rows) (fst outcome))
        \/ (status resp = 200%nat
            /\ exists messages rows,
                 fst outcome = [OpenAICompletion messages; ChatHistoryInsert rows]
                 /\ List.length rows = 2%nat)).
Proof.
  cbv zeta. unfold ChatRoute.POST.
  destruct (auth_user supabase) as [user |]; simpl.
  2: { eexists. split; [reflexivity |]. left. repeat split. }
  destruct request as [body | e]; simpl.
  2: { eexists. split; [reflexivity |]. right. right. left.
       split; [reflexivity |]. intros rows [H | []]. discriminate H. }
  destruct (nonempty (body_message body)) as [message |];
    destruct (nonempty (body_clientId body)) as [clientId |]; simpl;
    try (eexists; split; [reflexivity |]; right; left; split; reflexivity).
  destruct (ContextBuilder.buildClientContext now newDate clientId supabase)
    as [context | e]; simpl.
  2: { eexists. split; [reflexivity |]. right. right. left.
       split; [reflexivity |]. intros rows [H | []]. discriminate H. }
  unfold ChatRoute.generateResponse.
  destruct (openai _) as [content |]; simpl.
  - eexists. split; [reflexivity |]. right. right. right.
    split; [reflexivity |]. eexists. eexists. split; reflexivity.
  - eexists. split; [reflexivity |]. right. right. left.
    split; [reflexivity |].
    intros rows [H | [H | [H | []]]]; discriminate H.
Qed.

(** X9.  A request of an authenticated advisor with a message, for a
    client the fetch returns, is answered with status 200 and the model's
    text.  The model receives the system prompt and the built context with
    the question; the history receives a user row with the question and an
    assistant row with the answer, both under the advisor's id and the
    request's session id, or a fresh UUID when the request has none. *)
Theorem chat_POST_success
    (now : JsDate) (newDate : string -> JsDate)
    (openai : list ChatMessage -> option (option string))
    (randomUUID FINANCIAL_ADVISOR_SYSTEM : string)
    (supabase : Supabase) (body : ChatBody)
    (user message clientId : string) (row : ClientRow) (content : option string) :
  auth_user supabase = Some user ->
  nonempty (body_message body) = Some message ->
  nonempty (body_clientId body) = Some clientId ->
  select_client_by_id supabase clientId = Some row ->
  (forall context,
     openai [SystemMessage FINANCIAL_ADVISOR_SYSTEM; UserMessage context message]
     = Some content) ->
  exists context,
    ContextBuilder.buildClientContext now newDate clientId supabase = Ok context
    /\ let session := str_or (body_sessionId body) randomUUID in
       let answer := str_or content "" in
       ChatRoute.POST now newDate openai randomUUID FINANCIAL_ADVISOR_SYSTEM
                      supabase (Ok body)
       = ([ OpenAICompletion
              [SystemMessage FINANCIAL_ADVISOR_SYSTEM; UserMessage context message];
            ChatHistoryInsert
              [ mkChatEntry clientId user session "user" message context;
                mkChatEntry clientId user session "assistant" answer context ] ],
          Ok (successResponse (mkChatData answer session))).
Proof.
  intros Hauth Hmsg Hcid Hsel Hai.
  destruct (buildClientContext_found now newDate _ _ _ Hsel) as [context [Hbuild _]].
  exists context. split; [exact Hbuild |]. cbv zeta.
  unfold ChatRoute.POST. rewrite Hauth. cbn [lift bind].
  rewrite Hmsg, Hcid, Hbuild. cbn [lift bind].
  unfold ChatRoute.generateResponse. rewrite (Hai context). reflexivity.
Qed.

Lemma chat_POST_success_witness :
  exists context,
    ContextBuilder.buildClientContext (mkDate 2026 10 1) (fun _ => mkDate 1990 11 24)
      "client-1" advisor1_session = Ok context
    /\ ChatRoute.POST (mkDate 2026 10 1) (fun _ => mkDate 1990 11 24)
         (fun _ => Some (Some "Hold."%string)) "uuid" "system" advisor1_session
         (Ok (mkChatBody (Some "Advice?"%string) (Some "client-1"%string) None))
       = ([ OpenAICompletion [SystemMessage "system"; UserMessage context "Advice?"];
            ChatHistoryInsert
              [ mkChatEntry "client-1" "advisor-1" "uuid" "user" "Advice?" context;
                mkChatEntry "client-1" "advisor-1" "uuid" "assistant" "Hold." context ] ],
          Ok (successResponse (mkChatData "Hold." "uuid"))).
Proof.
  exact (chat_POST_success (mkDate 2026 10 1) (fun _ => mkDate 1990 11 24)
           (fun _ => Some (Some "Hold."%string)) "uuid" "system" advisor1_session
           (mkChatBody (Some "Advice?"%string) (Some "client-1"%string) None)
           "advisor-1" "Advice?" "client-1" retired_client (Some "Hold."%string)
           eq_refl eq_refl eq_refl advisor1_selects_client (fun _ => eq_refl)).
Defined.

(* ===================================================================== *)
(** ** The asset cards and the dashboard *)
(* ===================================================================== *)

Lemma handleSave_consistent_aux
    (parseFloat : string -> number)
    (asset : Dashboard.CardAsset) (st : Dashboard.CardState) (field : string)
    (assetId : string) (updates : Dashboard.Updates.t) :
  fst (Dashboard.handleSave parseFloat asset st field) = Some (assetId, updates) ->
  assetId = Dashboard.id asset
  /\ Dashboard.consistent (Dashboard.spread asset updates).
Proof.
  unfold Dashboard.handleSave, Dashboard.consistent. cbn [fst].
  destruct (negb (Dashboard.isNaN (parseFloat (Dashboard.tempValue st)))); [| discriminate].
  destruct (String.eqb field "currentValue").
  { intros H. injection H as <- <-. repeat split. }
  destruct (String.eqb field "growthRate").
  { intros H. injection H as <- <-. repeat split. }
  destruct (String.eqb field "projectionYears").
  { intros H. injection H as <- <-. repeat split. }
  discriminate.
Qed.

(** X10.  Whenever saving an edit calls [onUpdate], it does so for the
    card's own asset, and the asset with the updates applied has a future
    value equal to [calculateFutureValue] of its current value, growth
    rate and horizon, whether or not that held before the edit; the id,
    name and type stay as they were. *)
Theorem handleSave_keeps_future_value_consistent
    (parseFloat : string -> number)
    (asset : Dashboard.CardAsset) (st : Dashboard.CardState) (field : string)
    (assetId : string) (updates : Dashboard.Updates.t) :
  fst (Dashboard.handleSave parseFloat asset st field) = Some (assetId, updates) ->
  assetId = Dashboard.id asset
  /\ Dashboard.consistent (Dashboard.spread asset updates)
  /\ Dashboard.id (Dashboard.spread asset updates) = Dashboard.id asset
  /\ Dashboard.name (Dashboard.spread asset updates) = Dashboard.name asset
  /\ Dashboard.type (Dashboard.spread asset updates) = Dashboard.type asset.
Proof.
  intros H.
  destruct (handleSave_consistent_aux parseFloat asset st field assetId updates H)
    as [Hid Hcons].
  repeat split; assumption.
Qed.

(** A card that starts from figures that do not match one another. *)
Lemma handleSave_keeps_future_value_consistent_witness :
  let asset := Dashboard.mkCardAsset "1" "Primary Residence" "residence"
                 (Fin 750000) (Fin 900000) (Fin (3 / 100)) (Fin 5) in
  let st := Dashboard.mkCardState (Some "growthRate"%string) "4" in
  let rate := ndiv (Fin 4) (Fin 100) in
  let updates :=
    Dashboard.Updates.mk None
      (Some (Utils.calculateFutureValue (Fin 750000) rate (Fin 5))) (Some rate) None in
  fst (Dashboard.handleSave (fun _ => Fin 4) asset st "growthRate")
  = Some ("1"%string, updates)
  /\ Dashboard.consistent (Dashboard.spread asset updates).
Proof.
  cbv zeta. split; [reflexivity |].
  exact (proj1 (proj2 (handleSave_keeps_future_value_consistent
                         (fun _ => Fin 4) _
                         (Dashboard.mkCardState (Some "growthRate"%string) "4")
                         "growthRate" _ _ eq_refl))).
Defined.

Lemma handleAssetUpdate_ids (assets : list Dashboard.CardAsset) (assetId : string)
    (updates : Dashboard.Updates.t) :
  map Dashboard.id (Dashboard.handleAssetUpdate assets assetId updates)
  = map Dashboard.id assets.
Proof.
  unfold Dashboard.handleAssetUpdate. rewrite map_map. apply map_ext.
  intros a. destruct (String.eqb (Dashboard.id a) assetId); reflexivity.
Qed.

(** X11.  On a dashboard whose asset ids are distinct, a saved edit of one
    card replaces that asset by its updated, consistent version and leaves
    every other asset, the order and the ids as they were. *)
Theorem saved_edit_changes_one_asset
    (parseFloat : string -> number)
    (assets : list Dashboard.CardAsset)
    (asset : Dashboard.CardAsset) (st : Dashboard.CardState) (field : string)
    (assetId : string) (updates : Dashboard.Updates.t) :
  NoDup (map Dashboard.id assets) ->
  In asset assets ->
  fst (Dashboard.handleSave parseFloat asset st field) = Some (assetId, updates) ->
  let assets' := Dashboard.handleAssetUpdate assets assetId updates in
  map Dashboard.id assets' = map Dashboard.id assets
  /\ In (Dashboard.spread asset updates) assets'
  /\ (forall b, In b assets' ->
        (Dashboard.id b = Dashboard.id asset ->
         b = Dashboard.spread asset updates /\ Dashboard.consistent b)
        /\ (Dashboard.id b <> Dashboard.id asset -> In b assets)).
Proof.
  intros Hnd Hin Hsave. cbv zeta.
  destruct (handleSave_consistent_aux parseFloat asset st field assetId updates Hsave)
    as [-> Hcons].
  split; [apply handleAssetUpdate_ids |].
  unfold Dashboard.handleAssetUpdate. split.
  - apply in_map_iff. exists asset. split; [| exact Hin].
    now rewrite String.eqb_refl.
  - intros b Hb. apply in_map_iff in Hb. destruct Hb as [a [Hb Ha]].
    destruct (String.eqb_spec (Dashboard.id a) (Dashboard.id asset)) as [E | NE].
    + assert (a = asset) as ->.
      { clear - Hnd Hin Ha E. induction assets as [| x l IH]; [contradiction |].
        simpl in Hnd. inversion Hnd as [| ? ? Hx Hl]; subst.
        destruct Hin as [-> | Hin], Ha as [-> | Ha]; auto.
        - exfalso. apply Hx. rewrite <- E. now apply in_map.
        - exfalso. apply Hx. rewrite E. now apply in_map. }
      subst b. split; [intros _; split; [reflexivity | exact Hcons] |].
      intros Hne. exfalso. apply Hne. reflexivity.
    + subst b. split; [intros E; contradiction | intros _; exact Ha].
Qed.

Lemma saved_edit_changes_one_asset_witness :
  let a1 := Dashboard.mkCardAsset "1" "Primary Residence" "residence"
              (Fin 750000) (Fin 900000) (Fin (3 / 100)) (Fin 5) in
  let a2 := Dashboard.mkCardAsset "2" "RRSP Portfolio" "rrsp"
              (Fin 125000) (Fin 180000) (Fin (7 / 100)) (Fin 5) in
  let st := Dashboard.mkCardState (Some "currentValue"%string) "800000" in
  let updates :=
    Dashboard.Updates.mk (Some (Fin 800000))
      (Some (Utils.calculateFutureValue (Fin 800000) (Fin (3 / 100)) (Fin 5)))
      None None in
  NoDup (map Dashboard.id [a1; a2])
  /\ In a1 [a1; a2]
  /\ fst (Dashboard.handleSave (fun _ => Fin 800000) a1 st "currentValue")
     = Some ("1"%string, updates)
  /\ Dashboard.handleAssetUpdate [a1; a2] "1" updates
     = [Dashboard.spread a1 updates; a2]
  /\ In (Dashboard.spread a1 updates) (Dashboard.handleAssetUpdate [a1; a2] "1" updates).
Proof.
  cbv zeta.
  assert (Hnd : NoDup (map Dashboard.id
     [Dashboard.mkCardAsset "1" "Primary Residence" "residence"
        (Fin 750000) (Fin 900000) (Fin (3 / 100)) (Fin 5);
      Dashboard.mkCardAsset "2" "RRSP Portfolio" "rrsp"
        (Fin 125000) (Fin 180000) (Fin (7 / 100)) (Fin 5)])).
  { simpl. constructor.
    - intros [H | []]. discriminate H.
    - constructor; [intros [] | constructor]. }
  split; [exact Hnd |]. split; [now left |]. split; [reflexivity |].
  split; [reflexivity |].
  exact (proj1 (proj2 (saved_edit_changes_one_asset (fun _ => Fin 800000) _ _
                         (Dashboard.mkCardState (Some "currentValue"%string) "800000")
                         "currentValue" _ _ Hnd (or_introl eq_refl) eq_refl))).
Defined.

(** X12.  Saving never calls [onUpdate] when the typed text does not parse
    to a number or when the field is none of [currentValue], [growthRate]
    and [projectionYears]; neither does the Escape key, nor any key other
    than Enter.  Saving and Escape leave the edit mode; other keys leave
    the state as it is. *)
Theorem no_update_without_a_number
    (parseFloat : string -> number)
    (asset : Dashboard.CardAsset) (st : Dashboard.CardState) (field key : string) :
  let closed := Dashboard.mkCardState None (Dashboard.tempValue st) in
  (parseFloat (Dashboard.tempValue st) = NaN ->
   Dashboard.handleSave parseFloat asset st field = (None, closed))
  /\ (field <> "currentValue"%string -> field <> "growthRate"%string ->
      field <> "projectionYears"%string ->
      Dashboard.handleSave parseFloat asset st field = (None, closed))
  /\ snd (Dashboard.handleSave parseFloat asset st field) = closed
  /\ Dashboard.handleKeyPress parseFloat asset st "Escape" field = (None, closed)
  /\ (key <> "Enter"%string -> key <> "Escape"%string ->
      Dashboard.handleKeyPress parseFloat asset st key field = (None, st)).
Proof.
  cbv zeta. unfold Dashboard.handleKeyPress, Dashboard.handleSave.
  split; [| split; [| split; [| split]]].
  - intros ->. reflexivity.
  - intros H1 H2 H3.
    apply String.eqb_neq in H1, H2, H3. rewrite H1, H2, H3.
    destruct (negb _); reflexivity.
  - reflexivity.
  - reflexivity.
  - intros H1 H2. apply String.eqb_neq in H1, H2. now rewrite H1, H2.
Qed.

Lemma no_update_without_a_number_witness :
  let asset := Dashboard.mkCardAsset "1" "Primary Residence" "residence"
                 (Fin 750000) (Fin 900000) (Fin (3 / 100)) (Fin 5) in
  let st := Dashboard.mkCardState (Some "currentValue"%string) "abc" in
  Dashboard.handleSave (fun _ => NaN) asset st "currentValue"
  = (None, Dashboard.mkCardState None "abc").
Proof.
  cbv zeta.
  exact (proj1 (no_update_without_a_number (fun _ => NaN)
                  (Dashboard.mkCardAsset "1" "Primary Residence" "residence"
                     (Fin 750000) (Fin 900000) (Fin (3 / 100)) (Fin 5))
                  (Dashboard.mkCardState (Some "currentValue"%string) "abc")
                  "currentValue" "Enter") eq_refl).
Defined.

(* ===================================================================== *)
(** ** The client and asset routes *)
(* ===================================================================== *)

Lemma single_Some {A : Type} (rows : list A) (row : A) :
  single rows = Some row -> rows = [row].
Proof.
  destruct rows as [| r [| r' rest]]; simpl; intros H; try discriminate.
  now injection H as ->.
Qed.

(** Whatever rows the query is given, the client it yields has the id
    asked for and belongs to the user. *)
Lemma owned_client_sound (rows : list ClientRow) (clientId user : string)
    (row : ClientRow) :
  Api.owned_client rows clientId user = Some row ->
  In row rows /\ id row = clientId /\ advisor_id row = Some user.
Proof.
  unfold Api.owned_client. intros H. apply single_Some in H.
  assert (Hin : In row [row]) by now left.
  rewrite <- H in Hin. apply filter_In in Hin. destruct Hin as [Hin Hadv].
  apply filter_In in Hin. destruct Hin as [Hin Hid].
  apply String.eqb_eq in Hid. apply opt_string_eqb_true in Hadv. auto.
Qed.

Lemma rls_visible_In (supabase : Supabase) (row : ClientRow) :
  In row (rls_visible supabase) ->
  In row (clients supabase) /\ advisor_id row = auth_user supabase.
Proof.
  unfold rls_visible. intros H. apply filter_In in H. destruct H as [H Hadv].
  apply opt_string_eqb_true in Hadv. auto.
Qed.

(** X14.  GET /api/clients/[id] answers 200 only with a row of the table
    that has the requested id and belongs to the authenticated advisor;
    otherwise it answers 401 (no user) or 404, without data. *)
Theorem clientGET_returns_only_own_client (supabase : Supabase) (paramsId : string) :
  let r := Api.clientGET supabase paramsId in
  (Api.status r = 200%nat ->
   exists row user,
     Api.data r = Some row /\ auth_user supabase = Some user
     /\ In row (clients supabase) /\ id row = paramsId
     /\ advisor_id row = Some user)
  /\ (Api.status r <> 200%nat ->
      Api.data r = None
      /\ ((Api.status r = 401%nat /\ auth_user supabase = None)
          \/ Api.status r = 404%nat)).
Proof.
  cbv zeta. unfold Api.clientGET.
  destruct (auth_user supabase) as [user |] eqn:Hauth; simpl.
  - destruct (Api.owned_client (rls_visible supabase) paramsId user) as [row |] eqn:Hsel;
      simpl.
    + split; [| intros H; contradiction].
      intros _. destruct (owned_client_sound _ _ _ _ Hsel) as [Hin [Hid Hadv]].
      apply rls_visible_In in Hin. destruct Hin as [Hin _].
      exists row, user. repeat split; assumption.
    + split; [discriminate |]. intros _. split; [reflexivity | now right].
  - split; [discriminate |]. intros _. split; [reflexivity |]. left. now split.
Qed.

Lemma clientGET_returns_only_own_client_witness :
  Api.status (Api.clientGET advisor1_session "client-1") = 200%nat
  /\ Api.status (Api.clientGET advisor2_session "client-1") = 404%nat
  /\ exists row user,
       Api.data (Api.clientGET advisor1_session "client-1") = Some row
       /\ auth_user advisor1_session = Some user
       /\ In row (clients advisor1_session) /\ id row = "client-1"%string
       /\ advisor_id row = Some user.
Proof.
  split; [reflexivity |]. split; [reflexivity |].
  exact (proj1 (clientGET_returns_only_own_client advisor1_session "client-1") eq_refl).
Defined.

(** X15.  DELETE /api/clients/[id] never removes a client of another
    advisor and never adds a row.  When it answers 200, no client of the
    requesting advisor with that id is left; it answers 200 for every
    authenticated request the database accepts, also when no row matched.
    When it does not answer 200 the table is unchanged. *)
Theorem clientDELETE_spares_other_advisors
    (db_fails : bool) (supabase : Supabase) (paramsId : string) :
  let r := fst (Api.clientDELETE db_fails supabase paramsId) in
  let table := snd (Api.clientDELETE db_fails supabase paramsId) in
  (forall row, In row (clients supabase) ->
               advisor_id row <> auth_user supabase -> In row table)
  /\ (forall row, In row table -> In row (clients supabase))
  /\ (Api.status r = 200%nat ->
      forall row, In row table ->
                  ~ (id row = paramsId /\ advisor_id row = auth_user supabase))
  /\ (Api.status r <> 200%nat -> table = clients supabase)
  /\ (auth_user supabase <> None -> db_fails = false -> Api.status r = 200%nat).
Proof.
  cbv zeta. unfold Api.clientDELETE.
  destruct (auth_user supabase) as [user |] eqn:Hauth.
  2: { simpl. repeat split; auto; try discriminate. intros H. contradiction. }
  destruct db_fails; simpl.
  { repeat split; auto; discriminate. }
  split; [| split; [| split; [| split]]].
  - intros row Hin Hne. apply filter_In. split; [exact Hin |].
    destruct (opt_string_eqb (advisor_id row) (Some user)) eqn:E; [| reflexivity].
    apply opt_string_eqb_true in E. contradiction.
  - intros row Hin. apply filter_In in Hin. tauto.
  - intros _ row Hin [Hid Hadv]. apply filter_In in Hin. destruct Hin as [_ Hkeep].
    rewrite Hadv, Hid in Hkeep. simpl in Hkeep.
    rewrite !String.eqb_refl in Hkeep. discriminate.
  - intros H. contradiction.
  - reflexivity.
Qed.

(** A table with a client of each of two advisors. *)
Lemma clientDELETE_spares_other_advisors_witness :
  let supabase :=
    {| auth_user := Some "advisor-1"%string;
       clients := [retired_client;
                   {| id := "client-9"; advisor_id := Some "advisor-2"%string;
                      name := "Ann Roy"; date_of_birth := None;
                      risk_tolerance := "moderate"; annual_income := None;
                      assets := None; income_sources := None; expenses := None;
                      financial_goals := None |}] |} in
  Api.status (fst (Api.clientDELETE false supabase "client-9")) = 200%nat
  /\ snd (Api.clientDELETE false supabase "client-9") = clients supabase
  /\ List.length (snd (Api.clientDELETE false supabase "client-1")) = 1%nat.
Proof.
  cbv zeta. split; [| split; reflexivity].
  apply (proj2 (proj2 (proj2 (proj2 (clientDELETE_spares_other_advisors false _ _))))).
  - simpl. discriminate.
  - reflexivity.
Defined.

(* ===================================================================== *)
(** ** Asset validation *)
(* ===================================================================== *)

Lemma Rltb_true_iff (a b : R) : Rltb a b = true -> a < b.
Proof. unfold Rltb. destruct (Rlt_dec a b); [auto | discriminate]. Qed.

Lemma Rleb_true_iff (a b : R) : Rleb a b = true -> a <= b.
Proof.
  unfold Rleb, Rltb. destruct (Rlt_dec b a); simpl; [discriminate | intros _; lra].
Qed.

Lemma integral_Some (y : R) (k : Z) : integral y = Some k -> y = IZR k.
Proof.
  unfold integral. destruct (Req_dec_T y (IZR (Int_part y))) as [E | NE];
    [| discriminate].
  intros H. injection H as <-. exact E.
Qed.

Lemma integral_IZR (k : Z) : integral (IZR k) = Some k.
Proof.
  unfold integral.
  assert (E : Int_part (IZR k) = k).
  { unfold Int_part. rewrite <- (Z.add_0_r k) at 1. rewrite plus_IZR.
    assert (H : up (IZR k + 0) = (k + 1)%Z).
    { symmetry. apply tech_up; rewrite plus_IZR; simpl; lra. }
    rewrite H. lia. }
  rewrite E. destruct (Req_dec_T (IZR k) (IZR k)); [reflexivity | contradiction].
Qed.

Lemma years_with_default_bounds (v : option Json) (y : number) :
  Api.years_with_default v = Some y ->
  exists k : Z, y = Fin (IZR k) /\ (1 <= k <= 50)%Z.
Proof.
  unfold Api.years_with_default.
  destruct v as [[| | [x | | |] | | |] |]; try discriminate.
  - destruct (integral x) as [k |] eqn:Hk; [| discriminate].
    destruct (Rleb 1 x) eqn:H1; [| discriminate].
    destruct (Rleb x 50) eqn:H2; [| discriminate].
    simpl. intros H. injection H as <-.
    apply Rleb_true_iff in H1, H2. apply integral_Some in Hk. subst x.
    exists k. split; [reflexivity |].
    split; apply le_IZR; assumption.
  - intros H. injection H as <-. exists 10%Z. split; [reflexivity | lia].
Qed.

Lemma optional_positive_bounds (v : option Json) (pp : option number) :
  Api.optional_positive v = Some pp ->
  forall x, pp = Some x -> ngt x (Fin 0) = true.
Proof.
  unfold Api.optional_positive. destruct v as [[| | x | | |] |]; try discriminate.
  - destruct (Api.z_number x && ngt x (Fin 0))%bool eqn:H; [| discriminate].
    intros E y Hy. injection E as <-. injection Hy as <-.
    apply andb_true_iff in H. tauto.
  - intros E y Hy. injection E as <-. discriminate.
Qed.

Lemma growth_rate_range (g : number) :
  (Api.z_number g && negb (nlt g (Fin (-100))) && negb (ngt g (Fin 100)))%bool = true ->
  exists x : R, g = Fin x /\ -100 <= x <= 100.
Proof.
  destruct g as [x | | |]; simpl; try discriminate.
  intros H. apply andb_true_iff in H. destruct H as [H1 H2].
  apply negb_true_iff in H1, H2.
  exists x. split; [reflexivity |].
  unfold Rltb in H1, H2.
  destruct (Rlt_dec x (-100)); [discriminate |].
  destruct (Rlt_dec 100 x); [discriminate |]. lra.
Qed.

(** X16.  An input that [validateAssetInput] accepts comes back with no
    error messages and with data inside the schema's ranges: one of the
    five asset types, a name of 1 to 255 UTF-16 code units, a current
    value above 0, a purchase price that is above 0 when present, a
    finite growth rate between -100 and 100 and a whole number of years
    between 1 and 50. *)
Theorem validateAssetInput_accepts_within_ranges
    (zodMessages : Json -> list string) (input : Json) :
  Api.v_success (Api.validateAssetInput zodMessages input) = true ->
  exists d : Api.AssetData,
    Api.v_data (Api.validateAssetInput zodMessages input) = Some d
    /\ Api.v_errors (Api.validateAssetInput zodMessages input) = []
    /\ In (Api.asset_type d) Api.asset_types
    /\ (1 <= js_length (Api.name d) <= 255)%nat
    /\ ngt (Api.current_value d) (Fin 0) = true
    /\ (forall x, Api.purchase_price d = Some x -> ngt x (Fin 0) = true)
    /\ (exists g : R, Api.growth_rate d = Fin g /\ -100 <= g <= 100)
    /\ (exists k : Z, Api.projection_years d = Fin (IZR k) /\ (1 <= k <= 50)%Z).
Proof.
  unfold Api.validateAssetInput.
  destruct (Api.parse_asset input) as [d |] eqn:Hparse; simpl; [| discriminate].
  intros _. exists d. split; [reflexivity |]. split; [reflexivity |].
  unfold Api.parse_asset in Hparse.
  destruct input as [| | | | | members]; try discriminate.
  destruct (member members "asset_type") as [[| | | t | |] |]; try discriminate.
  destruct (member members "name") as [[| | | n | |] |]; try discriminate.
  destruct (member members "current_value") as [[| | cv | | |] |]; try discriminate.
  destruct (member members "growth_rate") as [[| | g | | |] |]; try discriminate.
  destruct (existsb (String.eqb t) Api.asset_types) eqn:Ht; [| discriminate].
  destruct (1 <=? js_length n)%nat eqn:Hn1; [| discriminate].
  destruct (js_length n <=? 255)%nat eqn:Hn2; [| discriminate].
  destruct (Api.z_number cv) eqn:Hcv0; [| discriminate].
  destruct (ngt cv (Fin 0)) eqn:Hcv; [| discriminate].
  cbn [andb] in Hparse.
  destruct (Api.z_number g && negb (nlt g (Fin (-100))) && negb (ngt g (Fin 100)))%bool
    eqn:Hg; [| discriminate].
  destruct (Api.optional_positive (member members "purchase_price")) as [pp |] eqn:Hpp;
    [| discriminate].
  destruct (Api.years_with_default (member members "projection_years")) as [y |] eqn:Hy;
    [| discriminate].
  injection Hparse as <-. simpl.
  apply existsb_exists in Ht. destruct Ht as [t' [Hin Heq]].
  apply String.eqb_eq in Heq. subst t'.
  apply Nat.leb_le in Hn1, Hn2.
  split; [exact Hin |]. split; [lia |]. split; [exact Hcv |].
  split; [exact (optional_positive_bounds _ _ Hpp) |].
  split; [exact (growth_rate_range _ Hg) |].
  exact (years_with_default_bounds _ _ Hy).
Qed.

Lemma sample_asset_body_parsed :
  Api.parse_asset sample_asset_body = Some sample_asset_data.
Proof.
  unfold Api.parse_asset, sample_asset_body. cbn [member String.eqb Ascii.eqb Bool.eqb].
  replace (js_length "Emergency Fund") with 14%nat by reflexivity.
  cbn [existsb Api.asset_types String.eqb Ascii.eqb Bool.eqb orb andb
       Nat.leb Api.z_number Api.optional_positive Api.years_with_default].
  unfold nlt. rewrite !ngt_Fin.
  rewrite (Rltb_lt 0 25000), (Rltb_ge (5 / 2) (-100)), (Rltb_ge 100 (5 / 2)) by lra.
  reflexivity.
Qed.

(** A name is measured in UTF-16 code units, as [z.string().max(255)]
    does: an accented letter of two bytes counts once, a character
    outside the basic plane, of four bytes, counts twice. *)
Lemma js_length_counts_code_units :
  let e_acute := String (ascii_of_nat 195) (String (ascii_of_nat 169) EmptyString) in
  let money_bag :=
    String (ascii_of_nat 240) (String (ascii_of_nat 159)
      (String (ascii_of_nat 146) (String (ascii_of_nat 176) EmptyString))) in
  js_length "Emergency Fund" = 14%nat
  /\ String.length e_acute = 2%nat /\ js_length e_acute = 1%nat
  /\ String.length money_bag = 4%nat /\ js_length money_bag = 2%nat.
Proof. repeat split. Qed.

Lemma validateAssetInput_accepts_within_ranges_witness :
  Api.v_success (Api.validateAssetInput (fun _ => []) sample_asset_body) = true
  /\ exists d : Api.AssetData,
       Api.v_data (Api.validateAssetInput (fun _ => []) sample_asset_body) = Some d
       /\ Api.v_errors (Api.validateAssetInput (fun _ => []) sample_asset_body) = []
       /\ In (Api.asset_type d) Api.asset_types.
Proof.
  assert (H : Api.v_success (Api.validateAssetInput (fun _ => []) sample_asset_body)
              = true).
  { unfold Api.validateAssetInput. rewrite sample_asset_body_parsed. reflexivity. }
  split; [exact H |].
  destruct (validateAssetInput_accepts_within_ranges (fun _ => []) sample_asset_body H)
    as [d [H1 [H2 [H3 _]]]].
  exists d. repeat split; assumption.
Defined.

Lemma member_skip (k key : string) (v : Json) (members : list (string * Json)) :
  k <> key -> member ((k, v) :: members) key = member members key.
Proof.
  intros Hne. simpl. destruct (String.eqb_spec k key); [contradiction | reflexivity].
Qed.

(** X17.  The schema reads only the keys it names: a further key in the
    body, such as a [client_id], changes neither whether the body is
    accepted nor the data that comes out.  A body accepted without a
    [projection_years] gets the default of 10 years. *)
Theorem parse_asset_reads_schema_keys_only
    (k : string) (v : Json) (members : list (string * Json)) :
  (~ In k asset_schema_keys ->
   Api.parse_asset (JObject ((k, v) :: members)) = Api.parse_asset (JObject members))
  /\ (forall d, member members "projection_years" = None ->
                Api.parse_asset (JObject members) = Some d ->
                Api.projection_years d = 10).
Proof.
  split.
  - intros Hout. unfold Api.parse_asset.
    rewrite !member_skip; [reflexivity | | | | | |];
      intros ->; apply Hout; simpl; tauto.
  - intros d Hnone. unfold Api.parse_asset. rewrite Hnone.
    destruct (member members "asset_type") as [[| | | t | |] |]; try discriminate.
    destruct (member members "name") as [[| | | n | |] |]; try discriminate.
    destruct (member members "current_value") as [[| | cv | | |] |]; try discriminate.
    destruct (member members "growth_rate") as [[| | g | | |] |]; try discriminate.
    destruct (_ && _)%bool; [| discriminate].
    destruct (Api.optional_positive _) as [pp |]; [| discriminate].
    simpl. intros H. injection H as <-. reflexivity.
Qed.

Lemma parse_asset_reads_schema_keys_only_witness :
  ~ In "client_id"%string asset_schema_keys
  /\ member [ ("asset_type"%string, JString "savings");
              ("name"%string, JString "Emergency Fund");
              ("current_value"%string, JNumber 25000);
              ("growth_rate"%string, JNumber (5 / 2)) ] "projection_years" = None
  /\ Api.parse_asset sample_asset_body
     = Api.parse_asset
         (JObject [ ("asset_type"%string, JString "savings");
                    ("name"%string, JString "Emergency Fund");
                    ("current_value"%string, JNumber 25000);
                    ("growth_rate"%string, JNumber (5 / 2)) ])
  /\ Api.projection_years sample_asset_data = 10.
Proof.
  assert (Hout : ~ In "client_id"%string asset_schema_keys).
  { simpl. intros [H | [H | [H | [H | [H | [H | []]]]]]]; discriminate H. }
  split; [exact Hout |]. split; [reflexivity |]. split.
  - exact (proj1 (parse_asset_reads_schema_keys_only "client_id" (JString "client-9") _)
             Hout).
  - reflexivity.
Defined.

(** X18.  POST /api/clients/[id]/assets issues at most one insert, and
    only for an authenticated advisor who owns the client of the URL, with
    the data the schema accepted from the body and with the client id of
    the URL.  It answers 200 exactly when it issued an insert that the
    database accepted, and then with the stored row.  A body that the
    schema rejects is answered, for the owner of the client, with
    "Internal server error" and the status 500; no request is answered
    with the status 422 of [validationErrorResponse]. *)
Theorem assetsPOST_inserts_for_owner_only
    (zodMessages : Json -> list string) (StoredAsset : Type)
    (db_insert : Api.AssetInsert -> option StoredAsset)
    (supabase : Supabase) (paramsId : string) (request : result Json) :
  let inserts := fst (Api.assetsPOST zodMessages StoredAsset db_insert
                        supabase paramsId request) in
  let r := snd (Api.assetsPOST zodMessages StoredAsset db_insert
                  supabase paramsId request) in
  (List.length inserts <= 1)%nat
  /\ (forall ins, In ins inserts ->
        Api.insert_client_id ins = paramsId
        /\ exists user row body,
             auth_user supabase = Some user
             /\ In row (clients supabase) /\ id row = paramsId
             /\ advisor_id row = Some user
             /\ request = Ok body
             /\ Api.parse_asset body = Some (Api.insert_data ins))
  /\ (Api.status r = 200%nat <->
      exists ins stored,
        inserts = [ins] /\ db_insert ins = Some stored /\ Api.data r = Some stored)
  /\ (forall user row body,
        auth_user supabase = Some user ->
        Api.owned_client (rls_visible supabase) paramsId user = Some row ->
        request = Ok body ->
        Api.parse_asset body = None ->
        inserts = [] /\ r = Api.errorResponse "Internal server error" 500 None)
  /\ In (Api.status r) [200; 401; 404; 500]%nat.
Proof.
  cbv zeta. unfold Api.assetsPOST.
  destruct (auth_user supabase) as [user |] eqn:Hauth; simpl.
  2: { split; [lia |]. split; [intros ins [] |].
       split; [split; [discriminate | intros [ins [st [H _]]]; discriminate H] |].
       split; [intros ? ? ? H; discriminate H | tauto]. }
  destruct (Api.owned_client (rls_visible supabase) paramsId user) as [row |] eqn:Hsel;
    simpl.
  2: { split; [lia |]. split; [intros ins [] |].
       split; [split; [discriminate | intros [ins [st [H _]]]; discriminate H] |].
       split; [intros u ? ? H; injection H as <-; rewrite Hsel; discriminate | tauto]. }
  destruct request as [body | e]; simpl.
  2: { split; [lia |]. split; [intros ins [] |].
       split; [split; [discriminate | intros [ins [st [H _]]]; discriminate H] |].
       split; [intros ? ? ? _ _ H; discriminate H | tauto]. }
  unfold Api.validateAssetInput.
  destruct (Api.parse_asset body) as [d |] eqn:Hparse; simpl.
  2: { split; [lia |]. split; [intros ins [] |].
       split; [split; [discriminate | intros [ins [st [H _]]]; discriminate H] |].
       split; [intros; split; reflexivity | tauto]. }
  destruct (owned_client_sound _ _ _ _ Hsel) as [Hin [Hid Hadv]].
  apply rls_visible_In in Hin. destruct Hin as [Hin _].
  destruct (db_insert {| Api.insert_data := d; Api.insert_client_id := paramsId |})
    as [stored |] eqn:Hdb; simpl.
  - split; [lia |]. split.
    + intros ins [<- | []]. simpl. split; [reflexivity |].
      exists user, row, body. repeat split; assumption.
    + split.
      * split; [| reflexivity]. intros _. eexists. exists stored.
        split; [reflexivity |]. split; [exact Hdb | reflexivity].
      * split; [| tauto]. intros ? ? b _ _ E Hnone.
        injection E as <-. rewrite Hparse in Hnone. discriminate.
  - split; [lia |]. split.
    + intros ins [<- | []]. simpl. split; [reflexivity |].
      exists user, row, body. repeat split; assumption.
    + split.
      * split; [discriminate |]. intros [ins [st [H [Hst _]]]].
        injection H as <-. rewrite Hdb in Hst. discriminate.
      * split; [| tauto]. intros ? ? b _ _ E Hnone.
        injection E as <-. rewrite Hparse in Hnone. discriminate.
Qed.

(** The body's own [client_id] is dropped: the insert goes to the client
    of the URL. *)
Lemma assetsPOST_sample_run :
  Api.assetsPOST (fun _ => []) nat (fun _ => Some 7%nat) advisor1_session "client-1"
    (Ok sample_asset_body)
  = ([Api.mkAssetInsert sample_asset_data "client-1"],
     Api.successResponse (Some 7%nat) (Some "Asset created successfully"%string)).
Proof.
  unfold Api.assetsPOST. cbn [auth_user advisor1_session].
  change (Api.owned_client (rls_visible advisor1_session) "client-1" "advisor-1")
    with (Some retired_client).
  cbn iota. unfold Api.validateAssetInput. rewrite sample_asset_body_parsed.
  reflexivity.
Qed.

(** A body without a name is rejected by the schema. *)
Lemma nameless_body_rejected :
  Api.parse_asset (JObject [ ("asset_type"%string, JString "savings") ]) = None.
Proof. reflexivity. Qed.

Lemma assetsPOST_inserts_for_owner_only_witness :
  In (Api.mkAssetInsert sample_asset_data "client-1")
     (fst (Api.assetsPOST (fun _ => []) nat (fun _ => Some 7%nat) advisor1_session
             "client-1" (Ok sample_asset_body)))
  /\ Api.insert_client_id (Api.mkAssetInsert sample_asset_data "client-1")
     = "client-1"%string
  /\ snd (Api.assetsPOST (fun _ => []) nat (fun _ => Some 7%nat) advisor1_session
            "client-1" (Ok (JObject [ ("asset_type"%string, JString "savings") ])))
     = Api.errorResponse "Internal server error" 500 None.
Proof.
  assert (H : In (Api.mkAssetInsert sample_asset_data "client-1")
                 (fst (Api.assetsPOST (fun _ => []) nat (fun _ => Some 7%nat)
                         advisor1_session "client-1" (Ok sample_asset_body)))).
  { rewrite assetsPOST_sample_run. now left. }
  split; [exact H |]. split.
  - exact (proj1 (proj1 (proj2 (assetsPOST_inserts_for_owner_only (fun _ => []) nat
                                  (fun _ => Some 7%nat) advisor1_session "client-1"
                                  (Ok sample_asset_body))) _ H)).
  - destruct (assetsPOST_inserts_for_owner_only (fun _ => []) nat
                (fun _ => Some 7%nat) advisor1_session "client-1"
                (Ok (JObject [ ("asset_type"%string, JString "savings") ])))
      as [_ [_ [_ [Hrejected _]]]].
    exact (proj2 (Hrejected "advisor-1"%string retired_client _
                    eq_refl eq_refl eq_refl nameless_body_rejected)).
Defined.

(** X19.  The chat route built on [generateFinancialInsight] answers 200
    only after one completion request for a client of the requesting
    advisor, and never with an empty text: an empty or missing completion
    is replaced by a fixed sentence.  For a client the advisor does not
    own it answers 404 and requests no completion. *)
Theorem insightPOST_outcomes
    (openai : list Api.InsightMessage -> option (option string))
    (supabase : Supabase) (request : result ChatBody) :
  let events := fst (Api.insightPOST openai supabase request) in
  let r := snd (Api.insightPOST openai supabase request) in
  (Api.status r = 200%nat ->
   exists text user client question,
     Api.data r = Some text /\ text <> ""%string
     /\ auth_user supabase = Some user
     /\ In client (clients supabase) /\ advisor_id client = Some user
     /\ events = [Api.InsightCompletion
                    [Api.InsightSystem Api.insight_system_prompt;
                     Api.InsightUser client question]])
  /\ (Api.status r = 404%nat -> events = [])
  /\ (forall user body message clientId,
        auth_user supabase = Some user -> request = Ok body ->
        nonempty (body_message body) = Some message ->
        nonempty (body_clientId body) = Some clientId ->
        Api.owned_client (rls_visible supabase) clientId user = None ->
        Api.status r = 404%nat).
Proof.
  cbv zeta. unfold Api.insightPOST.
  destruct (auth_user supabase) as [user |] eqn:Hauth; simpl.
  2: { split; [discriminate |]. split; [reflexivity |].
       intros u b m c H. discriminate H. }
  destruct request as [body | e]; simpl.
  2: { split; [discriminate |]. split; [discriminate |].
       intros u b m c _ H. discriminate H. }
  destruct (nonempty (body_message body)) as [message |] eqn:Hmsg;
    destruct (nonempty (body_clientId body)) as [clientId |] eqn:Hcid; simpl;
    try (split; [discriminate |]; split; [discriminate |];
         intros u b m c _ Hb Hm Hc; injection Hb as <-;
         rewrite ?Hmsg, ?Hcid in *; discriminate).
  destruct (Api.owned_client (rls_visible supabase) clientId user) as [client |] eqn:Hsel;
    simpl.
  2: { split; [discriminate |]. split; [reflexivity |]. reflexivity. }
  destruct (owned_client_sound _ _ _ _ Hsel) as [Hin [Hid Hadv]].
  apply rls_visible_In in Hin. destruct Hin as [Hin _].
  unfold Api.generateFinancialInsight.
  destruct (openai _) as [content |]; simpl.
  - split; [| split; [discriminate |]].
    + intros _. eexists. exists user, client, message.
      split; [reflexivity |]. split.
      * unfold str_or. destruct (nonempty content) as [t |] eqn:Ht; [| discriminate].
        destruct content as [[| c0 t0] |]; simpl in Ht; try discriminate.
        injection Ht as <-. discriminate.
      * repeat split; assumption.
    + intros u b m c Hu Hb Hm Hc Hnone. injection Hu as <-. injection Hb as <-.
      rewrite Hcid in Hc. injection Hc as <-. rewrite Hsel in Hnone. discriminate.
  - split; [discriminate |]. split; [discriminate |].
    intros u b m c Hu Hb Hm Hc Hnone. injection Hu as <-. injection Hb as <-.
    rewrite Hcid in Hc. injection Hc as <-. rewrite Hsel in Hnone. discriminate.
Qed.

Lemma insightPOST_outcomes_witness :
  Api.insightPOST (fun _ => Some (Some ""%string)) advisor1_session
    (Ok (mkChatBody (Some "Advice?"%string) (Some "client-1"%string) None))
  = ([Api.InsightCompletion
        [Api.InsightSystem Api.insight_system_prompt;
         Api.InsightUser retired_client "Advice?"]],
     Api.successResponse (Some "Unable to generate response"%string) None)
  /\ Api.status
       (snd (Api.insightPOST (fun _ => Some (Some "Hold."%string)) advisor2_session
               (Ok (mkChatBody (Some "Advice?"%string) (Some "client-1"%string) None))))
     = 404%nat.
Proof.
  split; [reflexivity |].
  apply (proj2 (proj2 (insightPOST_outcomes (fun _ => Some (Some "Hold."%string))
                         advisor2_session
                         (Ok (mkChatBody (Some "Advice?"%string)
                                (Some "client-1"%string) None))))
           "advisor-2"%string
           (mkChatBody (Some "Advice?"%string) (Some "client-1"%string) None)
           "Advice?"%string "client-1"%string);
    reflexivity.
Defined.

(* ===================================================================== *)
(** ** The analysis route *)
(* ===================================================================== *)

(** X20.  When the structured completion fails (the API call fails, the
    content is empty, or it is not JSON), an analysis request for a client
    that can be fetched still answers 200, with an empty list of insights,
    unless the analysis type is "rebalancing": then it answers 500 without
    data.  In both cases one completion was requested. *)
Theorem analyze_failure_depends_on_type
    (now : JsDate) (newDate : string -> JsDate)
    (openai : list Analyze.Message -> option (option string))
    (JSON_parse : string -> option Json) (FINANCIAL_ADVISOR_SYSTEM : string)
    (supabase : Supabase) (body : Analyze.AnalyzeBody)
    (user clientId : string) (context : ClientContext) :
  auth_user supabase = Some user ->
  nonempty (Analyze.body_clientId body) = Some clientId ->
  ContextBuilder.buildClientContext now newDate clientId supabase = Ok context ->
  (forall messages,
     openai messages = None
     \/ (exists content, openai messages = Some content /\ nonempty content = None)
     \/ (exists content text, openai messages = Some content
                              /\ nonempty content = Some text
                              /\ JSON_parse text = None)) ->
  let outcome :=
    Analyze.POST now newDate openai JSON_parse FINANCIAL_ADVISOR_SYSTEM
                 supabase (Ok body) in
  List.length (filter Analyze.is_completion (fst outcome)) = 1%nat
  /\ (Analyze.body_analysisType body <> Some "rebalancing"%string ->
      Api.status (snd outcome) = 200%nat
      /\ Api.data (snd outcome)
         = Some (Analyze.mkAnalysisData (Some (JArray [])) context))
  /\ (Analyze.body_analysisType body = Some "rebalancing"%string ->
      Api.status (snd outcome) = 500%nat /\ Api.data (snd outcome) = None).
Proof.
  intros Hauth Hcid Hbuild Hfail. cbv zeta.
  assert (Hgen : forall messages,
            Analyze.generateStructuredResponse openai JSON_parse messages
            = Analyze.structured_failure messages).
  { intros messages. unfold Analyze.generateStructuredResponse.
    destruct (Hfail messages) as [H | [[c [H Hc]] | [c [t [H [Hc Hp]]]]]].
    - now rewrite H.
    - now rewrite H, Hc.
    - now rewrite H, Hc, Hp. }
  unfold Analyze.POST. rewrite Hauth, Hcid, Hbuild.
  destruct (Analyze.body_analysisType body) as [t |] eqn:Ht.
  - destruct (String.eqb_spec t "rebalancing") as [-> | Hne].
    + unfold Analyze.suggestRebalancing. rewrite Hgen. simpl.
      split; [reflexivity |]. split; [intros H; contradiction | intros _; split; reflexivity].
    + unfold Analyze.analyzePortfolio. rewrite Hgen. simpl.
      split; [reflexivity |]. split; [intros _; split; reflexivity |].
      intros H. injection H as ->. contradiction.
  - simpl. unfold Analyze.analyzePortfolio. rewrite Hgen. simpl.
    split; [reflexivity |]. split; [intros _; split; reflexivity | discriminate].
Qed.

Lemma analyze_failure_depends_on_type_witness :
  exists context,
    ContextBuilder.buildClientContext (mkDate 2026 10 1) (fun _ => mkDate 1990 11 24)
      "client-1" advisor1_session = Ok context
    /\ Api.status
         (snd (Analyze.POST (mkDate 2026 10 1) (fun _ => mkDate 1990 11 24)
                 (fun _ => None) (fun _ => None) "system" advisor1_session
                 (Ok (Analyze.mkAnalyzeBody (Some "client-1"%string) None))))
       = 200%nat
    /\ Api.status
         (snd (Analyze.POST (mkDate 2026 10 1) (fun _ => mkDate 1990 11 24)
                 (fun _ => None) (fun _ => None) "system" advisor1_session
                 (Ok (Analyze.mkAnalyzeBody (Some "client-1"%string)
                        (Some "rebalancing"%string)))))
       = 500%nat.
Proof.
  eexists. split; [reflexivity |]. split.
  - apply (proj1 (proj2 (analyze_failure_depends_on_type
                           (mkDate 2026 10 1) (fun _ => mkDate 1990 11 24)
                           (fun _ => None) (fun _ => None) "system" advisor1_session
                           (Analyze.mkAnalyzeBody (Some "client-1"%string) None)
                           "advisor-1" "client-1" _ eq_refl eq_refl eq_refl
                           (fun _ => or_introl eq_refl)))).
    discriminate.
  - apply (proj2 (proj2 (analyze_failure_depends_on_type
                           (mkDate 2026 10 1) (fun _ => mkDate 1990 11 24)
                           (fun _ => None) (fun _ => None) "system" advisor1_session
                           (Analyze.mkAnalyzeBody (Some "client-1"%string)
                              (Some "rebalancing"%string))
                           "advisor-1" "client-1" _ eq_refl eq_refl eq_refl
                           (fun _ => or_introl eq_refl)))).
    reflexivity.
Defined.

(** X21.  An analysis request for a client the fetch does not return is
    answered with status 500 and requests no completion; so is a request
    whose body cannot be read.  Without a user the answer is 401 and
    without a client id 400, and nothing is requested or logged. *)
Theorem analyze_rejections_request_nothing
    (now : JsDate) (newDate : string -> JsDate)
    (openai : list Analyze.Message -> option (option string))
    (JSON_parse : string -> option Json) (FINANCIAL_ADVISOR_SYSTEM : string)
    (supabase : Supabase) (request : result Analyze.AnalyzeBody) :
  let outcome :=
    Analyze.POST now newDate openai JSON_parse FINANCIAL_ADVISOR_SYSTEM
                 supabase request in
  (auth_user supabase = None ->
   outcome = ([], Api.unauthorizedResponse))
  /\ (forall user body,
        auth_user supabase = Some user -> request = Ok body ->
        nonempty (Analyze.body_clientId body) = None ->
        outcome = ([], Api.errorResponse "Client ID is required" 400 None))
  /\ (forall user body clientId,
        auth_user supabase = Some user -> request = Ok body ->
        nonempty (Analyze.body_clientId body) = Some clientId ->
        select_client_by_id supabase clientId = None ->
        filter Analyze.is_completion (fst outcome) = []
        /\ Api.status (snd outcome) = 500%nat)
  /\ (forall user e,
        auth_user supabase = Some user -> request = Throw e ->
        filter Analyze.is_completion (fst outcome) = []
        /\ Api.status (snd outcome) = 500%nat).
Proof.
  cbv zeta. unfold Analyze.POST. split; [| split; [| split]].
  - intros ->. reflexivity.
  - intros user body -> -> ->. reflexivity.
  - intros user body clientId -> -> -> Hsel.
    rewrite (buildClientContext_not_found now newDate _ _ Hsel).
    split; reflexivity.
  - intros user e -> ->. split; reflexivity.
Qed.

Lemma analyze_rejections_request_nothing_witness :
  select_client_by_id advisor2_session "client-1" = None
  /\ Api.status
       (snd (Analyze.POST (mkDate 2026 10 1) (fun _ => mkDate 1990 11 24)
               (fun _ => Some (Some "{}"%string)) (fun _ => Some (JObject []))
               "system" advisor2_session
               (Ok (Analyze.mkAnalyzeBody (Some "client-1"%string) None))))
     = 500%nat.
Proof.
  split; [reflexivity |].
  apply (proj1 (proj2 (proj2 (analyze_rejections_request_nothing
                                (mkDate 2026 10 1) (fun _ => mkDate 1990 11 24)
                                (fun _ => Some (Some "{}"%string))
                                (fun _ => Some (JObject []))
                                "system" advisor2_session
                                (Ok (Analyze.mkAnalyzeBody (Some "client-1"%string) None)))))
           "advisor-2"%string
           (Analyze.mkAnalyzeBody (Some "client-1"%string) None) "client-1"%string);
    reflexivity.
Defined.

(* ===================================================================== *)
(** ** Further properties of the allocation and of the builder *)
(* ===================================================================== *)




Lemma select_client_by_id_sound (supabase : Supabase) (clientId : string)
    (row : ClientRow) :
  select_client_by_id supabase clientId = Some row ->
  In row (clients supabase) /\ id row = clientId
  /\ advisor_id row = auth_user supabase.
Proof.
  unfold select_client_by_id. intros H. apply single_Some in H.
  assert (Hin : In row [row]) by now left.
  rewrite <- H in Hin. apply filter_In in Hin. destruct Hin as [Hin Hid].
  apply String.eqb_eq in Hid. apply rls_visible_In in Hin. tauto.
Qed.

(** X26.  Under the policy of the [clients] table, a context is built only
    for an authenticated advisor and only from a row of the table that has
    the requested id and belongs to that advisor; the context carries that
    row's id, name, risk tolerance and assets. *)
Theorem buildClientContext_own_client_only
    (now : JsDate) (newDate : string -> JsDate)
    (clientId : string) (supabase : Supabase) (ctx : ClientContext) :
  ContextBuilder.buildClientContext now newDate clientId supabase = Ok ctx ->
  exists user row,
    auth_user supabase = Some user
    /\ In row (clients supabase)
    /\ id row = clientId
    /\ advisor_id row = Some user
    /\ client_id (client ctx) = clientId
    /\ client_name (client ctx) = name row
    /\ client_risk_tolerance (client ctx) = risk_tolerance row
    /\ context_assets ctx = or_empty (assets row).
Proof.
  intros Hbuild.
  destruct (buildClientContext_Ok_inv _ _ _ _ _ Hbuild) as [row Hsel].
  destruct (select_client_by_id_sound _ _ _ Hsel) as [Hin [Hid Hadv]].
  unfold ContextBuilder.buildClientContext in Hbuild. rewrite Hsel in Hbuild.
  injection Hbuild as <-. cbn [client client_id client_name client_risk_tolerance
    context_assets].
  destruct (auth_user supabase) as [user |] eqn:Hauth.
  - exists user, row. repeat split; assumption.
  - exfalso. unfold select_client_by_id, rls_visible in Hsel. rewrite Hauth in Hsel.
    apply single_Some in Hsel.
    assert (Hin' : In row [row]) by now left.
    rewrite <- Hsel in Hin'. apply filter_In in Hin'. destruct Hin' as [Hin' _].
    apply filter_In in Hin'. destruct Hin' as [_ Hv].
    destruct (advisor_id row); discriminate.
Qed.

Lemma buildClientContext_own_client_only_witness :
  exists ctx user row,
    ContextBuilder.buildClientContext (mkDate 2026 10 1) (fun _ => mkDate 1990 11 24)
      "client-1" advisor1_session = Ok ctx
    /\ auth_user advisor1_session = Some user
    /\ In row (clients advisor1_session)
    /\ advisor_id row = Some user
    /\ client_id (client ctx) = "client-1"%string.
Proof.
  eexists.
  destruct (buildClientContext_own_client_only (mkDate 2026 10 1)
              (fun _ => mkDate 1990 11 24) "client-1" advisor1_session _ eq_refl)
    as [user [row [H1 [H2 [_ [H4 [H5 _]]]]]]].
  exists user, row. split; [reflexivity |]. repeat split; assumption.
Defined.

(** X23.  The allocation lists every category of the assets once, except
    the categories that name a property inherited from [Object.prototype],
    which are not listed at all.  Each category listed comes with the sum
    of the current values of its assets and with its risk tier: the tier
    of the table, or [medium] for a category the table does not have. *)
Theorem allocation_groups_by_category (assets : list Asset) :
  let allocation := ContextBuilder.calculateAssetAllocation assets in
  NoDup (map category allocation)
  /\ (forall a, In a allocation ->
        value a = Fin (group_value (category a) assets)
        /\ risk_level a
           = Tier (match ContextBuilder.lookup ContextBuilder.riskMap (category a) with
                   | Some tier => tier
                   | None => medium
                   end))
  /\ (forall k, In k (map category allocation)
                <-> In k (map asset_type assets) /\ inherited k = false).
Proof.
  cbv zeta.
  destruct (calculateAssetAllocation_groups assets) as [Hnd [Hval Hkeys]].
  cbv zeta in Hnd, Hval, Hkeys.
  split; [exact Hnd |]. split; [| exact Hkeys].
  intros a Ha. destruct (Hval a Ha) as [Hv [Hr Hk]].
  split; [exact Hv |]. rewrite Hr. unfold ContextBuilder.getCategoryRiskLevel.
  rewrite Hk. destruct (ContextBuilder.lookup _ _); reflexivity.
Qed.
